(** * The LightRAG context pipeline of akii-mcp-server, embedded in Rocq

    Sources embedded here (paths below akii/akii-mcp-server/src):
    - modules/lightrag/context-builder.ts   ContextBuilder
    - modules/lightrag/embedder.ts          BedrockEmbedder, FireworksEmbedder,
                                            createEmbeddingProvider
    - context/providers/lightrag.ts         LightRAGContextProvider
    - context/providers/brave.ts            BraveSearchProvider
    - modules/lightrag/retriever.ts         SupabaseRetriever
    - context/formatters/promptFormatter.ts formatPrompt, formatMessagesPrompt
    - context/contextHandler.ts             handleContextRequest
    - context/providers/index.ts            the entry 'lightrag' of the registry

    Conventions.  A JavaScript string is a [string]; one [ascii] stands for one
    UTF-16 code unit (of the Latin-1 range), so [String.length] is [.length].
    A JavaScript number that the code only compares or forwards is a primitive
    [float]; lengths and token counts are [nat]; option counts that may be
    negative are [Z].  An optional property is an [option]; [None] is
    [undefined].  Where the code tells a key that is absent from one that
    holds [undefined] (the spread of [buildContext]) the property is a
    [Property], and where it tells a missing key from one that holds [null]
    (the defaults of the destructuring of [handleContextRequest]) it is a
    [Nullable].  Promises are run to completion: an async function is a
    state-passing computation that either returns or throws. *)

From Stdlib Require Import Ascii PrimFloat Uint63.
From stdpp Require Import base list strings gmap pretty.


(* ===================================================================== *)
(** * JavaScript primitives used by the sources                           *)
(* ===================================================================== *)

Module Js.

(** The line feed written [\n] in the sources. *)
Definition LF : string := String (Ascii.ascii_of_nat 10) "".

(** Truthiness of a string: only the empty string is falsy. *)
Definition truthy (s : string) : bool :=
  match s with "" => false | _ => true end.

(** A property of an object that its type declares optional: the key is
    absent, or present with the value [undefined], or present with a value.
    Reading it gives [undefined] in the first two cases; a spread tells them
    apart. *)
Inductive Property (A : Type) : Type :=
| Absent
| Undefined
| Given (a : A).

Global Arguments Absent {A}.
Global Arguments Undefined {A}.
Global Arguments Given {A} a.

(** A property of an object parsed from JSON: the key is missing (reading it
    gives [undefined]), or holds [null], or holds a value. *)
Inductive Nullable (A : Type) : Type :=
| Missing
| Null
| Value (a : A).

Global Arguments Missing {A}.
Global Arguments Null {A}.
Global Arguments Value {A} a.

(** [a || b] where [a] is an optional string and [b] a string. *)
Definition str_or (a : option string) (b : string) : string :=
  match a with
  | Some s => if truthy s then s else b
  | None => b
  end.

(** [a || b] on optional natural numbers: [0] and [undefined] are falsy. *)
Definition nat_or (a : option nat) (b : nat) : nat :=
  match a with
  | Some (S n) => S n
  | _ => b
  end.

(** [a || b] on optional integers. *)
Definition Z_or (a : option Z) (b : Z) : Z :=
  match a with
  | Some z => if bool_decide (z = 0%Z) then b else z
  | None => b
  end.

(** Falsy floats are [0], [-0] and [NaN]. *)
Definition float_falsy (x : float) : bool :=
  PrimFloat.eqb x 0%float || negb (PrimFloat.eqb x x).

(** [a || b] on optional floats. *)
Definition float_or (a : option float) (b : float) : float :=
  match a with
  | Some x => if float_falsy x then b else x
  | None => b
  end.

(** [a ?? b]: only [undefined] and [null] fall through. *)
Definition nullish {A} (a : option A) (b : A) : A :=
  match a with Some x => x | None => b end.

(** [Math.ceil(n / d)] on a length [n], for a positive divisor. *)
Definition ceil_div (n d : nat) : nat := (n + (d - 1)) / d.
Global Arguments ceil_div : simpl never.

(** [String.prototype.substring(0, n)]. *)
Definition substring0 (n : nat) (s : string) : string :=
  String.substring 0 n s.

(** White space and line terminators of the Latin-1 range, as
    [String.prototype.trim] strips them. *)
Definition is_white (c : ascii) : bool :=
  let n := Ascii.nat_of_ascii c in
  ((9 <=? n) && (n <=? 13)) || (n =? 32) || (n =? 160).

Fixpoint trimStart (s : string) : string :=
  match s with
  | String c s' => if is_white c then trimStart s' else s
  | "" => ""
  end.

Definition trimEnd (s : string) : string :=
  String.rev (trimStart (String.rev s)).

Definition trim (s : string) : string := trimEnd (trimStart s).

(** [String.prototype.toLowerCase] on the Latin-1 range: A-Z and the
    accented capitals 0xC0-0xDE (but not the multiplication sign 0xD7). *)
Definition lower_char (c : ascii) : ascii :=
  let n := Ascii.nat_of_ascii c in
  if ((65 <=? n) && (n <=? 90))
     || ((192 <=? n) && (n <=? 222) && negb (n =? 215))
  then Ascii.ascii_of_nat (n + 32) else c.

Fixpoint toLowerCase (s : string) : string :=
  match s with
  | String c s' => String (lower_char c) (toLowerCase s')
  | "" => ""
  end.

(** [Array.prototype.join]. *)
Fixpoint join (sep : string) (l : list string) : string :=
  match l with
  | [] => ""
  | [x] => x
  | x :: l' => x +:+ sep +:+ join sep l'
  end.

(** [Array.prototype.slice(0, n)]: a negative [n] counts from the end. *)
Definition slice0 {A} (n : Z) (l : list A) : list A :=
  if bool_decide (0 <= n)%Z then take (Z.to_nat n) l
  else take (Z.to_nat (Z.of_nat (length l) + n)) l.

(** [Array.prototype.sort(cmp)]: a stable sort; [x] moves behind [y] only
    when [cmp x y > 0] (a [NaN] result counts as [+0]). *)
Section Sort.
Context {A : Type} (cmp : A → A → float).

Fixpoint sort_insert (x : A) (l : list A) : list A :=
    match l with
    | [] => [x]
    | y :: l' =>
        if PrimFloat.ltb 0%float (cmp x y) then y :: sort_insert x l'
        else x :: l
    end.

Definition sort (l : list A) : list A := foldr sort_insert [] l.
End Sort.

(** A thrown value: an [Error] object with its message, or anything else. *)
Inductive Thrown : Type :=
| Error (message : string)
| NotAnError.

(** [error instanceof Error ? error.message : fallback]. *)
Definition message_or (fallback : string) (e : Thrown) : string :=
  match e with Error m => m | NotAnError => fallback end.

(** How a call completes. *)
Inductive Outcome (A : Type) : Type :=
| Returns (a : A)
| Throws (e : Thrown).
Global Arguments Returns {A} a.
Global Arguments Throws {A} e.

(** A computation over a state [S] that returns or throws. *)
Definition M (S A : Type) : Type := S → Outcome A * S.

Definition ret {S A} (a : A) : M S A := λ s, (Returns a, s).
Definition throw {S A} (e : Thrown) : M S A := λ s, (Throws e, s).
Definition bind {S A B} (m : M S A) (k : A → M S B) : M S B :=
  λ s, match m s with
       | (Returns a, s') => k a s'
       | (Throws e, s') => (Throws e, s')
       end.
(** [try { m } catch (e) { h e }]. *)
Definition try_catch {S A} (m : M S A) (h : Thrown → M S A) : M S A :=
  λ s, match m s with
       | (Returns a, s') => (Returns a, s')
       | (Throws e, s') => h e s'
       end.

End Js.

Import Js.

Notation "'do' x <- m ; k" := (bind m (λ x, k))
  (at level 10, x name, m at level 100, k at level 200).
Notation "'run' m ; k" := (bind m (λ _, k))
  (at level 10, m at level 100, k at level 200).

(* ===================================================================== *)
(** * modules/lightrag: data model (index.ts)                             *)
(* ===================================================================== *)

Section Pipeline.

(** Metadata values are [any] in the sources. *)
Context {any : Type}.

(** [Record<string, any>], in property order. *)
Definition Metadata : Type := list (string * any).

(** [interface Document]. *)
Record Document : Type := mkDocument {
  doc_id : option string;
  doc_content : string;
  doc_metadata : option Metadata;
  doc_score : option float;
  doc_embedding : option (list float)
}.

(** [interface ContextResult]. *)
Record ContextResult : Type := mkContextResult {
  context : string;
  sources : list Document;
  tokenCount : nat
}.

(** [interface RetrievalResult]. *)
Record RetrievalResult : Type := mkRetrievalResult {
  documents : list Document;
  totalFound : nat
}.

(** [interface EmbeddingResult]. *)
Record EmbeddingResult : Type := mkEmbeddingResult {
  embedding : list float;
  emb_tokenCount : nat
}.

(** [interface RetrievalOptions]. *)
Record RetrievalOptions : Type := mkRetrievalOptions {
  ro_aiInstanceId : string;
  ro_maxChunks : Z;
  ro_similarityThreshold : float;
  ro_filter : Metadata
}.

(** The five properties of [interface ContextBuilderOptions]; [F] says what
    a property may be. *)
Record BuilderOptions (F : Type → Type) : Type := mkBuilderOptions {
  maxContextLength : F Z;
  formatAsJson : F bool;
  includeMetadata : F bool;
  separator : F string;
  deduplicate : F bool
}.

Global Arguments mkBuilderOptions {F} _ _ _ _ _.
Global Arguments maxContextLength {F} _.
Global Arguments formatAsJson {F} _.
Global Arguments includeMetadata {F} _.
Global Arguments separator {F} _.
Global Arguments deduplicate {F} _.

(** [interface ContextBuilderOptions], as a caller may pass it: every
    property is optional, so absent, [undefined] or a value. *)
Definition ContextBuilderOptions : Type := BuilderOptions Property.

(** The options after the spread over the defaults: every key is present,
    and holds a value or [undefined] ([None]). *)
Definition MergedOptions : Type := BuilderOptions option.

(** One element of the [contextArray] of [buildContext]: [content] and, when
    asked for, [metadata]. *)
Record JsonEntry : Type := mkJsonEntry {
  je_content : string;
  je_metadata : option Metadata
}.

(** The built-ins of the language the sources rely on. *)
Class Builtins : Type := mkBuiltins {
  (** The conversion a template literal applies to a value. *)
  ToString : any → string;
  (** [JSON.stringify(contextArray, null, 2)]. *)
  JSON_stringify : list JsonEntry → string;
  (** [Math.sin]. *)
  Math_sin : float → float;
  (** The message of the [TypeError] raised by reading the named property
      of [undefined] or [null]; its wording depends on the engine. *)
  nullPropertyMessage : string → string
}.

Context {builtins : Builtins}.

(* ===================================================================== *)
(** * modules/lightrag/context-builder.ts                                 *)
(* ===================================================================== *)

(** [ContextBuilder.defaultOptions]. *)
Definition defaultOptions : MergedOptions :=
  {| maxContextLength := Some 4000%Z;
     formatAsJson := Some false;
     includeMetadata := Some true;
     separator := Some (LF +:+ LF);
     deduplicate := Some true |}.

(** [{ ...a, ...b }] at one key, [a] being the value of the defaults: a key
    of [b] that is present replaces it, also when it holds [undefined]. *)
Definition spread {A} (a : option A) (b : Property A) : option A :=
  match b with
  | Absent => a
  | Undefined => None
  | Given v => Some v
  end.

(** [{ ...this.defaultOptions, ...options }]. *)
Definition mergeOptions (options : option ContextBuilderOptions)
  : MergedOptions :=
  match options with
  | None => defaultOptions
  | Some o =>
      {| maxContextLength := spread (maxContextLength defaultOptions) (maxContextLength o);
         formatAsJson := spread (formatAsJson defaultOptions) (formatAsJson o);
         includeMetadata := spread (includeMetadata defaultOptions) (includeMetadata o);
         separator := spread (separator defaultOptions) (separator o);
         deduplicate := spread (deduplicate defaultOptions) (deduplicate o) |}
  end.

(** [ContextBuilder.estimateTokens]. *)
Definition estimateTokens (text : string) : nat :=
  ceil_div (String.length text) 4.

(** The fingerprint [doc.content.substring(0, 100)]. *)
Definition contentFingerprint (doc : Document) : string :=
  substring0 100 (doc_content doc).

(** One iteration of the loop of [deduplicateDocuments], over the pair
    [(seenContents, uniqueDocs)]. *)
Definition dedupStep (st : gset string * list Document) (doc : Document)
  : gset string * list Document :=
  if decide (contentFingerprint doc ∈ st.1) then st
  else ({[contentFingerprint doc]} ∪ st.1, st.2 ++ [doc]).

(** [ContextBuilder.deduplicateDocuments]. *)
Definition deduplicateDocuments (docs : list Document) : list Document :=
  (foldl dedupStep (∅, []) docs).2.

(** [doc.score || 0]. *)
Definition scoreOrZero (doc : Document) : float :=
  float_or (doc_score doc) 0%float.

(** The comparator [(a, b) => (b.score || 0) - (a.score || 0)]. *)
Definition byScoreDesc (a b : Document) : float :=
  PrimFloat.sub (scoreOrZero b) (scoreOrZero a).

(** The state of either loop of [buildContext]:
    [context], [sourceDocuments] and [totalTokenCount]. *)
Record BuildState : Type := mkBuildState {
  bs_context : string;
  bs_sources : list Document;
  bs_tokens : nat
}.

(** [Object.entries(doc.metadata || {}).map(([key, value]) =>
    `${key}: ${value}`).join(', ')]. *)
Definition metadataStr (doc : Document) : string :=
  join ", " (map (λ kv, kv.1 +:+ ": " +:+ ToString kv.2)
                 (default [] (doc_metadata doc))).

(** What [context += mergedOptions.separator] appends: the separator, or
    the text 'undefined'. *)
Definition separatorText (o : MergedOptions) : string :=
  default "undefined" (separator o).

(** The body of the [for ... of] loop of the plain-text branch. *)
Definition textStep (o : MergedOptions) (st : BuildState)
    (doc : Document) : BuildState :=
  let docTokens := estimateTokens (doc_content doc) in
  let c1 := if truthy (bs_context st)
            then bs_context st +:+ separatorText o
            else bs_context st in
  let c2 := if default false (includeMetadata o)
            then if truthy (metadataStr doc)
                 then c1 +:+ "[" +:+ metadataStr doc +:+ "]" +:+ LF
                 else c1
            else c1 in
  {| bs_context := c2 +:+ doc_content doc;
     bs_tokens := bs_tokens st + docTokens;
     bs_sources := bs_sources st ++ [doc] |}.

(** The callback of [sortedDocuments.map] of the JSON branch: it counts the
    tokens, records the source and yields the array element. *)
Definition jsonStep (o : MergedOptions)
    (st : list JsonEntry * BuildState) (doc : Document)
  : list JsonEntry * BuildState :=
  (st.1 ++ [ {| je_content := doc_content doc;
                je_metadata := if default false (includeMetadata o)
                               then doc_metadata doc else None |} ],
   {| bs_context := bs_context st.2;
      bs_tokens := bs_tokens st.2 + estimateTokens (doc_content doc);
      bs_sources := bs_sources st.2 ++ [doc] |}).

Definition initialBuild : BuildState :=
  {| bs_context := ""; bs_sources := []; bs_tokens := 0 |}.

(** [ContextBuilder.buildContext]. *)
Definition buildContext (docs : list Document)
    (options : option ContextBuilderOptions) : ContextResult :=
  let mergedOptions := mergeOptions options in
  let processedDocuments :=
    if default false (deduplicate mergedOptions)
    then deduplicateDocuments docs else docs in
  let sortedDocuments := sort byScoreDesc processedDocuments in
  let final :=
    if default false (formatAsJson mergedOptions)
    then
      let r := foldl (jsonStep mergedOptions) ([], initialBuild) sortedDocuments in
      {| bs_context := JSON_stringify r.1;
         bs_sources := bs_sources r.2;
         bs_tokens := bs_tokens r.2 |}
    else foldl (textStep mergedOptions) initialBuild sortedDocuments in
  {| context := bs_context final;
     sources := bs_sources final;
     tokenCount := bs_tokens final |}.

(** ** Vocabulary of the statements about the builder *)

(** The documents of [docs] whose fingerprint is [f], in order. *)
Definition withFingerprint (f : string) (docs : list Document) : list Document :=
  filter (λ d, contentFingerprint d = f) docs.

(** The sum, over [docs], of [Math.ceil(content.length / 4)]. *)
Definition contentTokens (docs : list Document) : nat :=
  sum_list ((λ d, ceil_div (String.length (doc_content d)) 4) <$> docs).

(** The documents [buildContext] sorts: [processedDocuments]. *)
Definition processed (docs : list Document)
    (options : option ContextBuilderOptions) : list Document :=
  if default false (deduplicate (mergeOptions options))
  then deduplicateDocuments docs else docs.

(** In the plain-text rendering a document adds nothing to [context] when
    its content is empty and it gets no metadata line. *)
Definition addsNothing (o : MergedOptions) (d : Document) : Prop :=
  doc_content d = ""
  ∧ (default false (includeMetadata o) = true → metadataStr d = "").

(* ===================================================================== *)
(** * The outside world                                                   *)
(* ===================================================================== *)

(** [process.env], as the constructors read it. *)
Record Env : Type := mkEnv {
  SUPABASE_URL : option string;
  SUPABASE_SERVICE_ROLE_KEY : option string;
  AWS_ACCESS_KEY_ID : option string;
  AWS_SECRET_ACCESS_KEY : option string;
  FIREWORKS_API_KEY : option string;
  BRAVE_SEARCH_API_KEY : option string
}.

(** A row of the [usage_logs] table. *)
Record UsageRow : Type := mkUsageRow {
  ai_instance_id : string;
  provider : string;
  model : string;
  operation_type : string;
  input_tokens : nat;
  output_tokens : nat;
  total_tokens : nat;
  created_at : string
}.

(** A row of the [rag_configurations] table; a column may be null. *)
Record RagConfig : Type := mkRagConfig {
  embedding_provider : option string;
  embedding_model_id : option string;
  max_chunks : option Z;
  similarity_threshold : option float;
  enable_deduplication : option bool;
  track_token_usage : option bool;
  enable_fallback_search : option bool
}.

(** What the code reads of the response of the Fireworks embeddings
    endpoint: [ok], [status], [JSON.stringify] of the error body ([{}] when it
    has none), and the parsed body of a success, whose [data[0].embedding] is
    [None] unless it is an array. *)
Record FireworksBody : Type := mkFireworksBody {
  fw_embedding : option (list float);
  fw_total_tokens : option nat
}.

Record FireworksResponse : Type := mkFireworksResponse {
  fw_ok : bool;
  fw_status : nat;
  fw_errorData : string;
  fw_json : Outcome FireworksBody
}.

(** [interface BraveSearchResult] and [interface BraveSearchResponse]. *)
Record BraveSearchResult : Type := mkBraveSearchResult {
  title : string;
  url : string;
  description : string;
  updated : option string;
  extra_snippets : option (list string)
}.

Record BraveSearchResponse : Type := mkBraveSearchResponse {
  web_results : option (list BraveSearchResult);
  news_results : option (list BraveSearchResult)
}.

Record BraveHttpResponse : Type := mkBraveHttpResponse {
  br_ok : bool;
  br_status : nat;
  br_statusText : string;
  br_json : Outcome BraveSearchResponse
}.

(** [interface ContextSource], with its [metadata] flattened. *)
Record ContextSource : Type := mkContextSource {
  cs_id : string;
  cs_content : string;
  cs_source : string;
  cs_url : string;
  cs_title : string;
  cs_date : option string
}.

(** What [BraveSearchProvider.getContext] resolves to. *)
Record WebContext : Type := mkWebContext {
  wc_context : string;
  wc_sources : list ContextSource;
  wc_tokenCount : nat
}.

(** [enum ModelProvider] and [interface ModelRequest] of the model router. *)
Inductive ModelProvider : Type := BEDROCK | FIREWORKS | OPENAI | OPENROUTER.

Record ChatMessage : Type := mkChatMessage {
  role : string;
  msg_content : string
}.

Record ModelRequest : Type := mkModelRequest {
  mr_provider : ModelProvider;
  mr_modelId : string;
  mr_messages : list ChatMessage;
  mr_maxTokens : Z;
  mr_temperature : float;
  mr_aiInstanceId : string
}.

(** [interface McpResponse], as far as the summarizer reads it. *)
Record TokenUsage : Type := mkTokenUsage {
  contextTokens : option nat;
  completionTokens : option nat;
  totalTokens : option nat
}.

Record McpResponse : Type := mkMcpResponse {
  success : bool;
  data_content : option string;
  error : option string;
  usage : option TokenUsage
}.

(** The services the pipeline calls, each a computation over the state
    [World] of everything outside the process; any of them may throw. *)
Context {World : Type}.

Class Host : Type := mkHost {
  (** [process.env]. *)
  env : Env;
  (** [createClient(url, key).from('rag_configurations')...single()]:
      the [data] of the reply. *)
  loadRagConfig : string → string → string → M World (option RagConfig);
  (** [createClient(url, key).from('usage_logs').insert(row)]:
      the [error] of the reply. *)
  usageInsert : string → string → UsageRow → M World (option string);
  (** [new Date().toISOString()]. *)
  nowISO : World → string;
  (** [fetch] of the Fireworks embeddings endpoint with an API key, a model
      and an input. *)
  fireworksFetch : string → string → string → M World FireworksResponse;
  (** [fetch] of the Brave search endpoint with the [q] and [count]
      parameters and the subscription token. *)
  braveFetch : string → string → string → M World BraveHttpResponse;
  (** [SupabaseRetriever.retrieveDocuments]. *)
  retrieveDocuments : list float → RetrievalOptions → M World RetrievalResult;
  (** [routeModelCall] of the model router. *)
  routeModelCall : ModelRequest → M World McpResponse
}.

Context {host : Host}.

Definition now : M World string := λ w, (Returns (nowISO w), w).

(** [await p] for an already settled outcome, such as [response.json()]. *)
Definition settle {S A} (o : Outcome A) : M S A := λ s, (o, s).

(** Reading property [p] of a value that may be [undefined]. *)
Definition property {S A} (p : string) (o : option A) : M S A :=
  match o with
  | Some a => ret a
  | None => throw (Error (nullPropertyMessage p))
  end.

(** The number [n] as a float. *)
Definition float_of_nat (n : nat) : float :=
  PrimFloat.of_uint63 (Uint63.of_Z (Z.of_nat n)).

(* ===================================================================== *)
(** * modules/lightrag/embedder.ts                                        *)
(* ===================================================================== *)

(** [trackEmbeddingUsage]. *)
Definition trackEmbeddingUsage (aiInstanceId provider modelId : string)
    (tokenCount : nat) : M World unit :=
  try_catch
    (let supabaseUrl := str_or (SUPABASE_URL env) "" in
     let supabaseKey := str_or (SUPABASE_SERVICE_ROLE_KEY env) "" in
     if negb (truthy supabaseUrl) || negb (truthy supabaseKey) then ret tt
     else
       do t <- now;
       run usageInsert supabaseUrl supabaseKey
             {| ai_instance_id := aiInstanceId;
                provider := provider;
                model := modelId;
                operation_type := "embedding";
                input_tokens := tokenCount;
                output_tokens := 0;
                total_tokens := tokenCount;
                created_at := t |};
       ret tt)
    (λ _, ret tt).

(** [class BedrockEmbedder]. *)
Record BedrockEmbedder : Type := mkBedrockEmbedder {
  be_modelId : string;
  be_region : string;
  be_accessKeyId : string;
  be_secretAccessKey : string;
  be_trackUsage : bool
}.

(** The [config] argument of the constructors and of the factory. *)
Record ProviderConfig : Type := mkProviderConfig {
  pc_apiKey : option string;
  pc_region : option string;
  pc_accessKeyId : option string;
  pc_secretAccessKey : option string;
  pc_trackUsage : option bool
}.

(** [new BedrockEmbedder(modelId, region, config)]. *)
Definition newBedrockEmbedder (modelId region : option string)
    (config : option ProviderConfig) : BedrockEmbedder :=
  {| be_modelId := nullish modelId "amazon.titan-embed-text-v1";
     be_region := nullish region "us-east-1";
     be_accessKeyId :=
       str_or (config ≫= pc_accessKeyId) (str_or (AWS_ACCESS_KEY_ID env) "");
     be_secretAccessKey :=
       str_or (config ≫= pc_secretAccessKey)
              (str_or (AWS_SECRET_ACCESS_KEY env) "");
     be_trackUsage := nullish (config ≫= pc_trackUsage) true |}.

(** [Math.sin(i * 0.01 + seed * 0.1) * 0.5]. *)
Definition mockComponent (seed i : nat) : float :=
  PrimFloat.mul
    (Math_sin (PrimFloat.add (PrimFloat.mul (float_of_nat i) 0.01%float)
                             (PrimFloat.mul (float_of_nat seed) 0.1%float)))
    0.5%float.

(** [new Array(1536).fill(0).map((_, i) => ...)]. *)
Definition mockEmbedding (seed : nat) : list float :=
  map (mockComponent seed) (seq 0 1536).

(** [BedrockEmbedder.generateEmbedding]. *)
Definition Bedrock_generateEmbedding (this : BedrockEmbedder) (text : string)
    (aiInstanceId : option string) : M World EmbeddingResult :=
  try_catch
    (if negb (truthy (be_accessKeyId this))
        || negb (truthy (be_secretAccessKey this))
     then throw (Error "AWS credentials are required for Bedrock embedding generation")
     else
       let estimatedTokenCount := ceil_div (String.length text) 4 in
       let seed := String.length text in
       run (if be_trackUsage this && truthy (str_or aiInstanceId "")
            then trackEmbeddingUsage (str_or aiInstanceId "") "bedrock"
                   (be_modelId this) estimatedTokenCount
            else ret tt);
       ret {| embedding := mockEmbedding seed;
              emb_tokenCount := estimatedTokenCount |})
    (λ error,
       throw (Error ("Failed to generate embedding with Bedrock: "
                     +:+ message_or "Unknown error" error))).

(** [class FireworksEmbedder]. *)
Record FireworksEmbedder : Type := mkFireworksEmbedder {
  fe_modelId : string;
  fe_apiKey : string;
  fe_trackUsage : bool
}.

(** [new FireworksEmbedder(modelId, apiKey, config)]. *)
Definition newFireworksEmbedder (modelId apiKey : option string)
    (trackUsage : option bool) : FireworksEmbedder :=
  {| fe_modelId := nullish modelId "deepseek-v3";
     fe_apiKey := str_or apiKey (str_or (FIREWORKS_API_KEY env) "");
     fe_trackUsage := nullish trackUsage true |}.

(** [FireworksEmbedder.generateEmbedding]. *)
Definition Fireworks_generateEmbedding (this : FireworksEmbedder)
    (text : string) (aiInstanceId : option string) : M World EmbeddingResult :=
  try_catch
    (if negb (truthy (fe_apiKey this))
     then throw (Error "Fireworks API key is required for embedding generation")
     else
       let embeddingModel :=
         if decide (fe_modelId this = "deepseek-v3")
         then "accounts/fireworks/models/deepseek-v3-embedding"
         else if decide (fe_modelId this = "deepseek-v2-lite")
         then "accounts/fireworks/models/deepseek-v2-lite-embedding"
         else fe_modelId this in
       let estimatedTokenCount := ceil_div (String.length text) 4 in
       do response <- fireworksFetch (fe_apiKey this) embeddingModel text;
       if negb (fw_ok response)
       then throw (Error ("Fireworks API error: " +:+ pretty (fw_status response)
                          +:+ " - " +:+ fw_errorData response))
       else
         do data <- settle (fw_json response);
         let tokenCount := nat_or (fw_total_tokens data) estimatedTokenCount in
         match fw_embedding data with
         | None => throw (Error "Invalid embedding response from Fireworks API")
         | Some emb =>
             run (if fe_trackUsage this && truthy (str_or aiInstanceId "")
                  then trackEmbeddingUsage (str_or aiInstanceId "") "fireworks"
                         (fe_modelId this) tokenCount
                  else ret tt);
             ret {| embedding := emb; emb_tokenCount := tokenCount |}
         end)
    (λ error,
       throw (Error ("Failed to generate embedding with Fireworks: "
                     +:+ message_or "Unknown error" error))).

(** [interface EmbeddingProvider], with its two implementations. *)
Inductive EmbeddingProvider : Type :=
| Bedrock (e : BedrockEmbedder)
| Fireworks (e : FireworksEmbedder).

Definition generateEmbedding (p : EmbeddingProvider) (text : string)
    (aiInstanceId : option string) : M World EmbeddingResult :=
  match p with
  | Bedrock e => Bedrock_generateEmbedding e text aiInstanceId
  | Fireworks e => Fireworks_generateEmbedding e text aiInstanceId
  end.

(** [createEmbeddingProvider]; it has no [throw] of its own. *)
Definition createEmbeddingProvider (provider modelId : option string)
    (config : option ProviderConfig) : Outcome EmbeddingProvider :=
  let providerName := str_or (toLowerCase <$> provider) "fireworks" in
  if decide (providerName = "bedrock") then
    Returns (Bedrock (newBedrockEmbedder modelId
               (Some (str_or (config ≫= pc_region) "us-east-1"))
               (Some {| pc_apiKey := None; pc_region := None;
                        pc_accessKeyId := config ≫= pc_accessKeyId;
                        pc_secretAccessKey := config ≫= pc_secretAccessKey;
                        pc_trackUsage := config ≫= pc_trackUsage |})))
  else if decide (providerName = "fireworks") then
    Returns (Fireworks (newFireworksEmbedder
               (Some (str_or modelId "deepseek-v3"))
               (config ≫= pc_apiKey) (config ≫= pc_trackUsage)))
  else
    Returns (Fireworks (newFireworksEmbedder
               (Some (str_or modelId "deepseek-v3"))
               (config ≫= pc_apiKey) (config ≫= pc_trackUsage))).

(* ===================================================================== *)
(** * context/providers/brave.ts                                          *)
(* ===================================================================== *)

(** The [options] argument of [BraveSearchProvider.getContext]. *)
Record SearchOptions : Type := mkSearchOptions {
  so_aiInstanceId : option string;
  so_maxResults : option Z
}.

(** [BraveSearchProvider.getMockResults]; [maxResults] defaults to 3. *)
Definition getMockResults (query : string) (maxResults : option Z)
  : WebContext :=
  let mockSources :=
    slice0 (nullish maxResults 3%Z)
      [ {| cs_id := "web-1";
           cs_content := "Search result about " +:+ query +:+ ".";
           cs_source := "web";
           cs_url := "https://example.com/search-result-1";
           cs_title := "Information about " +:+ query;
           cs_date := None |};
        {| cs_id := "web-2";
           cs_content := "Additional information related to " +:+ query
                         +:+ " from another source.";
           cs_source := "web";
           cs_url := "https://example.com/search-result-2";
           cs_title := "More about " +:+ query;
           cs_date := None |} ] in
  let mockContext :=
    trim (LF +:+ "From web search:" +:+ LF +:+ LF
          +:+ "Source 1: Information about " +:+ query +:+ LF
          +:+ "URL: https://example.com/search-result-1" +:+ LF
          +:+ "Search result about " +:+ query +:+ "." +:+ LF +:+ LF
          +:+ "Source 2: More about " +:+ query +:+ LF
          +:+ "URL: https://example.com/search-result-2" +:+ LF
          +:+ "Additional information related to " +:+ query
          +:+ " from another source." +:+ LF +:+ "    ") in
  {| wc_context := mockContext;
     wc_sources := mockSources;
     wc_tokenCount := ceil_div (String.length mockContext) 4 |}.

(** The callback of [data.web.results.forEach], over the pair
    [(sources, contextString)]. *)
Definition webStep (st : list ContextSource * string)
    (ir : nat * BraveSearchResult) : list ContextSource * string :=
  let index := ir.1 in
  let result := ir.2 in
  let resultId := "web-" +:+ pretty (index + 1) in
  let c1 := st.2 +:+ "Source " +:+ pretty (index + 1) +:+ ": "
            +:+ title result +:+ LF in
  let c2 := c1 +:+ "URL: " +:+ url result +:+ LF in
  let c3 := c2 +:+ description result +:+ LF in
  let c4 := match extra_snippets result with
            | Some (s :: l) =>
                c3 +:+ "Additional information: " +:+ join " " (s :: l) +:+ LF
            | _ => c3
            end in
  (st.1 ++ [ {| cs_id := resultId;
                cs_content := description result;
                cs_source := "web";
                cs_url := url result;
                cs_title := title result;
                cs_date := None |} ],
   c4 +:+ LF).

(** The callback of [data.news.results.forEach]. *)
Definition newsStep (st : list ContextSource * string)
    (ir : nat * BraveSearchResult) : list ContextSource * string :=
  let index := ir.1 in
  let result := ir.2 in
  let resultId := "news-" +:+ pretty (index + 1) in
  let c1 := st.2 +:+ "Source " +:+ pretty (index + 1) +:+ ": "
            +:+ title result +:+ LF in
  let c2 := c1 +:+ "URL: " +:+ url result +:+ LF in
  let c3 := if truthy (str_or (updated result) "")
            then c2 +:+ "Date: " +:+ str_or (updated result) "" +:+ LF
            else c2 in
  (st.1 ++ [ {| cs_id := resultId;
                cs_content := description result;
                cs_source := "news";
                cs_url := url result;
                cs_title := title result;
                cs_date := updated result |} ],
   c3 +:+ description result +:+ LF +:+ LF).

(** The elements of an array with their indices, as [forEach] visits them. *)
Definition indexed {A} (l : list A) : list (nat * A) := imap pair l.

(** The part of [BraveSearchProvider.getContext] that turns the parsed
    response into the result. *)
Definition processResults (query : string) (data : BraveSearchResponse)
  : WebContext :=
  let st0 : list ContextSource * string := ([], "") in
  let st1 := match web_results data with
             | Some (r :: l) =>
                 foldl webStep
                   (st0.1, st0.2 +:+ "From web search:" +:+ LF +:+ LF)
                   (indexed (r :: l))
             | _ => st0
             end in
  let st2 := match news_results data with
             | Some (r :: l) =>
                 foldl newsStep
                   (st1.1, st1.2 +:+ "News results:" +:+ LF +:+ LF)
                   (indexed (r :: l))
             | _ => st1
             end in
  let contextString :=
    match st2.1 with
    | [] => "No search results found for: " +:+ String (Ascii.ascii_of_nat 34) ""
            +:+ query +:+ String (Ascii.ascii_of_nat 34) ""
    | _ => st2.2
    end in
  {| wc_context := contextString;
     wc_sources := st2.1;
     wc_tokenCount := ceil_div (String.length contextString) 4 |}.

(** [BraveSearchProvider.getContext], for a provider whose [apiKey] is
    [BRAVE_SEARCH_API_KEY || '']. *)
Definition Brave_getContext (query : string) (options : option SearchOptions)
  : M World WebContext :=
  let apiKey := str_or (BRAVE_SEARCH_API_KEY env) "" in
  try_catch
    (do opts <- property "maxResults" options;
     let maxResults := Z_or (so_maxResults opts) 5%Z in
     if negb (truthy apiKey) then ret (getMockResults query (Some maxResults))
     else
       do response <- braveFetch query (pretty maxResults) apiKey;
       if negb (br_ok response)
       then throw (Error ("Brave Search API error: "
                          +:+ pretty (br_status response) +:+ " "
                          +:+ br_statusText response))
       else
         do data <- settle (br_json response);
         ret (processResults query data))
    (λ _, ret (getMockResults query None)).

(* ===================================================================== *)
(** * context/providers/lightrag.ts                                       *)
(* ===================================================================== *)

(** The [options] argument of [LightRAGContextProvider.getContext], typed
    [any]: the properties the code reads, and [enableFallbackSearch], which
    callers pass and the code does not read. *)
Record GetContextOptions : Type := mkGetContextOptions {
  aiInstanceId : option string;
  opt_embeddingProvider : option string;
  opt_embeddingModel : option string;
  opt_maxChunks : option Z;
  opt_similarityThreshold : option float;
  opt_maxTokens : option Z;
  opt_filter : option Metadata;
  opt_enableFallbackSearch : option bool
}.

(** An element of the [sources: any[]] of the provider's result: a document
    of the vector store or a source of the web search. *)
Inductive ProviderSource : Type :=
| DocumentSource (d : Document)
| WebSource (c : ContextSource).

(** What [LightRAGContextProvider.getContext] resolves to. *)
Record ProviderContext : Type := mkProviderContext {
  pr_context : string;
  pr_sources : list ProviderSource;
  pr_tokenCount : nat
}.

(** The calls the provider makes to its collaborators, in order. *)
Inductive Call : Type :=
| CallLoadConfig (instanceId : string)
| CallGenerateEmbedding (text : string)
| CallRetrieve
| CallWebSearch (query : string)
| CallRouteModel (request : ModelRequest)
| CallUsageInsert (row : UsageRow).

(** The state the provider runs in: the outside world and the log of calls. *)
Record PState : Type := mkPState {
  world : World;
  calls : list Call
}.

(** A call to a collaborator: it runs on the world and is logged. *)
Definition call {A} (c : Call) (m : M World A) : M PState A :=
  λ s, let r := m (world s) in
       (r.1, {| world := r.2; calls := calls s ++ [c] |}).

(** [class LightRAGContextProvider]: its fields; the search provider is
    held through its [getContext] method. *)
Record LightRAGContextProvider : Type := mkLightRAGContextProvider {
  supabaseUrl : string;
  supabaseKey : string;
  braveSearchProvider : string → option SearchOptions → M World WebContext
}.

(** [new LightRAGContextProvider()]. *)
Definition newLightRAGContextProvider : LightRAGContextProvider :=
  {| supabaseUrl := str_or (SUPABASE_URL env) "";
     supabaseKey := str_or (SUPABASE_SERVICE_ROLE_KEY env) "";
     braveSearchProvider := Brave_getContext |}.

Record SummaryResult : Type := mkSummaryResult {
  summary : string;
  su_contextTokens : nat;
  su_completionTokens : nat;
  su_totalTokens : nat
}.

(** The note appended to a summary. *)
Definition citationNote : string :=
  LF +:+ LF +:+ "(This information is from web search results and may not be fully accurate. Refer to the original sources for verification.)".

(** The [messages] of the summarization request. *)
Definition summaryMessages (searchContext : string) : list ChatMessage :=
  [ {| role := "system";
       msg_content := "You are a helpful assistant that summarizes search results into concise, informative content." |};
    {| role := "user";
       msg_content :=
         "Please summarize the following search results into a comprehensive response. Extract the most relevant information and present it in a clear, objective manner. Include key facts and details from multiple sources when available."
         +:+ LF +:+ LF +:+ "Search Results:" +:+ LF +:+ searchContext
         +:+ LF +:+ LF +:+ "Create a summary that:" +:+ LF
         +:+ "1. Captures the main points and key information" +:+ LF
         +:+ "2. Synthesizes information from multiple sources when possible" +:+ LF
         +:+ "3. Maintains factual accuracy" +:+ LF
         +:+ "4. Is formatted with clear paragraphs and bullet points where appropriate" +:+ LF
         +:+ "5. Is between 200-500 words" |} ].

Definition summaryRequest (searchContext instanceId : string) : ModelRequest :=
  {| mr_provider := FIREWORKS;
     mr_modelId := "accounts/fireworks/models/claude-3-haiku-20240307";
     mr_messages := summaryMessages searchContext;
     mr_maxTokens := 1000%Z;
     mr_temperature := 0.3%float;
     mr_aiInstanceId := instanceId |}.

(** [LightRAGContextProvider.summarizeWebResults]. *)
Definition summarizeWebResults (searchContext instanceId : string)
  : M PState SummaryResult :=
  try_catch
    (do response <- call (CallRouteModel (summaryRequest searchContext instanceId))
                      (routeModelCall (summaryRequest searchContext instanceId));
     if negb (success response) || negb (truthy (str_or (data_content response) ""))
     then throw (Error ("Failed to summarize web results: "
                        +:+ str_or (error response) "Unknown error"))
     else
       ret {| summary := str_or (data_content response) "" +:+ citationNote;
              su_contextTokens := nat_or (usage response ≫= contextTokens) 0;
              su_completionTokens := nat_or (usage response ≫= completionTokens) 0;
              su_totalTokens := nat_or (usage response ≫= totalTokens) 0 |})
    (λ _,
       ret {| summary := "Unable to summarize web search results due to an error.";
              su_contextTokens := 0;
              su_completionTokens := 0;
              su_totalTokens := 0 |}).

(** What [summarizeWebResults] resolves to for each outcome of the call to
    the model router: the summary with the note, or the placeholder. *)
Definition summarized (response : McpResponse) : bool :=
  success response && truthy (str_or (data_content response) "").

Definition placeholderSummary : SummaryResult :=
  {| summary := "Unable to summarize web search results due to an error.";
     su_contextTokens := 0;
     su_completionTokens := 0;
     su_totalTokens := 0 |}.

Definition summaryOf (o : Outcome McpResponse) : SummaryResult :=
  match o with
  | Returns response =>
      if summarized response
      then {| summary := str_or (data_content response) "" +:+ citationNote;
              su_contextTokens := nat_or (usage response ≫= contextTokens) 0;
              su_completionTokens := nat_or (usage response ≫= completionTokens) 0;
              su_totalTokens := nat_or (usage response ≫= totalTokens) 0 |}
      else placeholderSummary
  | Throws _ => placeholderSummary
  end.

(** The row [trackSummarizationUsage] inserts. *)
Definition summarizationRow (instanceId : string) (u : SummaryResult)
    (t : string) : UsageRow :=
  {| ai_instance_id := instanceId;
     provider := "fireworks";
     model := "claude-3-haiku-20240307";
     operation_type := "summarization";
     input_tokens := su_contextTokens u;
     output_tokens := su_completionTokens u;
     total_tokens := su_totalTokens u;
     created_at := t |}.

(** [LightRAGContextProvider.trackSummarizationUsage]. *)
Definition trackSummarizationUsage (this : LightRAGContextProvider)
    (instanceId : string) (u : SummaryResult) : M PState unit :=
  try_catch
    (λ s,
       let row := summarizationRow instanceId u (nowISO (world s)) in
       (run call (CallUsageInsert row)
              (usageInsert (supabaseUrl this) (supabaseKey this) row);
        ret tt) s)
    (λ _, ret tt).

(** [LightRAG.generateContext]: retrieve, then build. *)
Definition generateContext (emb : list float) (options : RetrievalOptions)
    (contextOptions : option ContextBuilderOptions) : M PState ContextResult :=
  do retrievalResult <- call CallRetrieve (retrieveDocuments emb options);
  ret (buildContext (documents retrievalResult) contextOptions).

(** The provider's result for a [ContextResult] of the vector store. *)
Definition ofContextResult (r : ContextResult) : ProviderContext :=
  {| pr_context := context r;
     pr_sources := DocumentSource <$> sources r;
     pr_tokenCount := tokenCount r |}.

(** The message of the outer [catch] of [getContext]. *)
Definition errorMessage (e : Thrown) : string :=
  trim (LF +:+ "Unable to retrieve contextual information from documents at this time. The RAG system encountered an error: "
        +:+ message_or "Unknown error" e +:+ LF +:+ "      ").

(** The [config] argument [{ trackUsage: true }] of the factory call of
    [getContext]. *)
Definition trackUsageOnly : ProviderConfig :=
  {| pc_apiKey := None; pc_region := None; pc_accessKeyId := None;
     pc_secretAccessKey := None; pc_trackUsage := Some true |}.

(** The options [getContext] passes to the search provider. *)
Definition searchOptions (instanceId : string) : SearchOptions :=
  {| so_aiInstanceId := Some instanceId; so_maxResults := Some 5%Z |}.

(** What the outer [catch] of [getContext] returns for the error [e]. *)
Definition diagnostic (e : Thrown) : ProviderContext :=
  {| pr_context := errorMessage e;
     pr_sources := [];
     pr_tokenCount := ceil_div (String.length (errorMessage e)) 4 |}.

(** The fallback of [getContext]: web search, then summarization.  [None]
    stands for falling out of the [if] or the [try] without a [return]. *)
Definition fallbackSearch (this : LightRAGContextProvider) (query : string)
    (instanceId : string) (trackTokenUsage : bool)
  : M PState (option ProviderContext) :=
  try_catch
    (do braveSearchResult <-
       call (CallWebSearch query)
         (braveSearchProvider this query (Some (searchOptions instanceId)));
     if truthy (wc_context braveSearchResult) then
       do s <- summarizeWebResults (wc_context braveSearchResult) instanceId;
       run (if trackTokenUsage then trackSummarizationUsage this instanceId s
            else ret tt);
       ret (Some {| pr_context := summary s;
                    pr_sources := WebSource <$> wc_sources braveSearchResult;
                    pr_tokenCount := su_totalTokens s |})
     else ret None)
    (λ _, ret None).

(** The values [getContext] takes from the configuration row, from its
    options or from its defaults. *)
Record Settings : Type := mkSettings {
  embeddingProvider : string;
  embeddingModel : string;
  maxChunks : Z;
  similarityThreshold : float;
  maxTokens : Z;
  enableDeduplication : bool;
  trackTokenUsage : bool;
  enableFallbackSearch : bool
}.

Definition settings (ragConfig : option RagConfig) (opts : GetContextOptions)
  : Settings :=
  {| embeddingProvider :=
       str_or (ragConfig ≫= embedding_provider)
              (str_or (opt_embeddingProvider opts) "fireworks");
     embeddingModel :=
       str_or (ragConfig ≫= embedding_model_id)
              (str_or (opt_embeddingModel opts) "deepseek-v3");
     maxChunks :=
       Z_or (ragConfig ≫= max_chunks) (Z_or (opt_maxChunks opts) 5%Z);
     similarityThreshold :=
       float_or (ragConfig ≫= similarity_threshold)
                (float_or (opt_similarityThreshold opts) 0.7%float);
     maxTokens := Z_or (opt_maxTokens opts) 4000%Z;
     enableDeduplication := nullish (ragConfig ≫= enable_deduplication) true;
     trackTokenUsage := nullish (ragConfig ≫= track_token_usage) true;
     enableFallbackSearch := nullish (ragConfig ≫= enable_fallback_search) true |}.

(** The inner [try] of [getContext]: the embedding of the query. *)
Definition embedQuery (cfg : Settings) (query instanceId : string)
  : M PState (list float) :=
  try_catch
    (do provider <-
       settle (createEmbeddingProvider (Some (embeddingProvider cfg))
                 (Some (embeddingModel cfg))
                 (Some trackUsageOnly));
     do embeddingResult <-
       call (CallGenerateEmbedding query)
         (generateEmbedding provider query (Some instanceId));
     ret (embedding embeddingResult))
    (λ error,
       throw (Error ("Failed to generate embedding: "
                     +:+ message_or "Unknown error" error))).

Definition retrievalOptions (cfg : Settings) (opts : GetContextOptions)
    (instanceId : string) : RetrievalOptions :=
  {| ro_aiInstanceId := instanceId;
     ro_maxChunks := maxChunks cfg;
     ro_similarityThreshold := similarityThreshold cfg;
     ro_filter := default [] (opt_filter opts) |}.

Definition contextOptions (cfg : Settings) : ContextBuilderOptions :=
  {| maxContextLength := Given (maxTokens cfg);
     formatAsJson := Given false;
     includeMetadata := Given true;
     separator := Absent;
     deduplicate := Given (enableDeduplication cfg) |}.

(** The body of the outer [try] of [getContext]. *)
Definition getContextBody (this : LightRAGContextProvider) (query : string)
    (options : option GetContextOptions) : M PState ProviderContext :=
  do opts <- property "aiInstanceId" options;
  if negb (truthy (str_or (aiInstanceId opts) ""))
  then throw (Error "aiInstanceId is required")
  else
    let instanceId := str_or (aiInstanceId opts) "" in
    do ragConfig <- call (CallLoadConfig instanceId)
                      (loadRagConfig (supabaseUrl this) (supabaseKey this)
                         instanceId);
    let cfg := settings ragConfig opts in
    do emb <- embedQuery cfg query instanceId;
    do contextResult <-
      generateContext emb (retrievalOptions cfg opts instanceId)
        (Some (contextOptions cfg));
    if bool_decide (0 < length (sources contextResult))
    then ret (ofContextResult contextResult)
    else
      do found <- (if enableFallbackSearch cfg
                   then fallbackSearch this query instanceId (trackTokenUsage cfg)
                   else ret None);
      match found with
      | Some r => ret r
      | None => ret (ofContextResult contextResult)
      end.

(** [LightRAGContextProvider.getContext]. *)
Definition getContext (this : LightRAGContextProvider) (query : string)
    (options : option GetContextOptions) : M PState ProviderContext :=
  try_catch (getContextBody this query options) (λ error, ret (diagnostic error)).

(** ** Vocabulary of the statements about the provider *)

Definition isWebSearch (c : Call) : bool :=
  match c with CallWebSearch _ => true | _ => false end.

Definition isRouteModel (c : Call) : bool :=
  match c with CallRouteModel _ => true | _ => false end.

(** How often a log calls the web search, and the model router. *)
Definition webSearchCalls (l : list Call) : nat := length (filter isWebSearch l).
Definition routeModelCalls (l : list Call) : nat := length (filter isRouteModel l).

(** The call of the search API fails: [fetch] rejects, the response is not
    [ok], or its body does not parse. *)
Definition apiCallFails (r : Outcome BraveHttpResponse) : bool :=
  match r with
  | Returns response =>
      negb (br_ok response)
      || match br_json response with Throws _ => true | Returns _ => false end
  | Throws _ => true
  end.

(** The summarization call fails: the model router throws, or its response
    is not a success with a content. *)
Definition summarizationFails (o : Outcome McpResponse) : bool :=
  match o with
  | Returns response => negb (summarized response)
  | Throws _ => true
  end.

(** The result [{context: '', sources: [], tokenCount: 0}]. *)
Definition emptyContext : ProviderContext :=
  {| pr_context := ""; pr_sources := []; pr_tokenCount := 0 |}.

End Pipeline.

Arguments Document : clear implicits.
Arguments Metadata : clear implicits.
Arguments ContextResult : clear implicits.
Arguments RetrievalResult : clear implicits.
Arguments RetrievalOptions : clear implicits.
Arguments JsonEntry : clear implicits.
Arguments Builtins : clear implicits.
Arguments Host : clear implicits.
Arguments GetContextOptions : clear implicits.
Arguments ProviderSource : clear implicits.
Arguments ProviderContext : clear implicits.
Arguments PState : clear implicits.
Arguments LightRAGContextProvider : clear implicits.

(* ===================================================================== *)
(** * modules/lightrag/retriever.ts                                       *)
(* ===================================================================== *)

Section Retriever.

Context {any World : Type}.

(** [interface DocumentVectorItem], as the code reads it. *)
Record DocumentVectorItem : Type := mkDocumentVectorItem {
  dv_id : string;
  dv_content : string;
  dv_metadata : option (Metadata any);
  dv_similarity : option float
}.

(** The [{ data, error }] of a reply of the store; [error] is held by its
    [message]. *)
Record StoreReply : Type := mkStoreReply {
  sr_data : option (list DocumentVectorItem);
  sr_error : option string
}.

(** The document store and the comparisons of the language on [any]. *)
Class Store : Type := mkStore {
  (** [createClient(url, key).rpc('match_documents', { query_embedding,
      match_threshold, match_count, p_ai_instance_id })]. *)
  matchDocuments :
    string → string → list float → float → Z → string → M World StoreReply;
  (** The query of the fallback on [document_vectors], built from the
      retrieval options alone (the embedding is not passed to it). *)
  nearestRows : string → string → RetrievalOptions any → M World StoreReply;
  (** [a === b]. *)
  strictEquals : any → any → bool;
  (** [v === undefined]. *)
  isUndefined : any → bool
}.

Context {store : Store}.

(** [class SupabaseRetriever]: its fields. *)
Record SupabaseRetriever : Type := mkSupabaseRetriever {
  rt_supabaseUrl : string;
  rt_supabaseKey : string
}.

(** [String.prototype.includes]. *)
Fixpoint includes (needle s : string) : bool :=
  String.prefix needle s
  || match s with
     | String _ s' => includes needle s'
     | "" => false
     end.

(** [metadata[key]]: [None] is [undefined]. *)
Fixpoint getProperty (key : string) (m : Metadata any) : option any :=
  match m with
  | [] => None
  | (k, v) :: m' => if decide (k = key) then Some v else getProperty key m'
  end.

(** [doc.metadata?.[key] === value]. *)
Definition propertyEquals (d : Document any) (key : string) (value : any)
  : bool :=
  match getProperty key (default [] (doc_metadata d)) with
  | Some v => strictEquals v value
  | None => isUndefined value
  end.

(** The callback of [Object.entries(options.filter).every]. *)
Definition filterEntryHolds (d : Document any) (kv : string * any) : bool :=
  if decide (kv.1 = "documentId") then propertyEquals d "document_id" kv.2
  else if decide (kv.1 = "owner_id") then propertyEquals d "owner_id" kv.2
  else propertyEquals d kv.1 kv.2.

(** The callback of [documents.filter] of [retrieveDocuments]. *)
Definition passesFilter (flt : Metadata any) (d : Document any) : bool :=
  match doc_metadata d with
  | None => false
  | Some _ => forallb (filterEntryHolds d) flt
  end.

(** The callback of [(data || []).map] of [retrieveDocuments]. *)
Definition toDocument (item : DocumentVectorItem) : Document any :=
  {| doc_id := Some (dv_id item);
     doc_content := dv_content item;
     doc_metadata := Some (default [] (dv_metadata item));
     doc_score := dv_similarity item;
     doc_embedding := None |}.

(** The callback of [(data || []).map] of [retrieveDocumentsFallback]. *)
Definition toFallbackDocument (item : DocumentVectorItem) : Document any :=
  {| doc_id := Some (dv_id item);
     doc_content := dv_content item;
     doc_metadata := Some (default [] (dv_metadata item));
     doc_score := Some 0.75%float;
     doc_embedding := None |}.

(** [typeof doc.score === 'number' && doc.score >= threshold]. *)
Definition scoreReaches (threshold : float) (d : Document any) : bool :=
  match doc_score d with
  | Some x => PrimFloat.leb threshold x
  | None => false
  end.

(** [SupabaseRetriever.retrieveDocumentsFallback]. *)
Definition retrieveDocumentsFallback (this : SupabaseRetriever)
    (emb : list float) (options : RetrievalOptions any)
  : M World (RetrievalResult any) :=
  try_catch
    (do reply <- nearestRows (rt_supabaseUrl this) (rt_supabaseKey this) options;
     match sr_error reply with
     | Some message =>
         throw (Error ("Failed to retrieve documents: " +:+ message))
     | None =>
         let documents := toFallbackDocument <$> default [] (sr_data reply) in
         let filteredDocuments :=
           filter (λ d, scoreReaches (ro_similarityThreshold options) d)
                  documents in
         ret {| documents := filteredDocuments;
                totalFound := length documents |}
     end)
    (λ error,
       throw (Error ("Failed to retrieve documents with fallback method: "
                     +:+ message_or "Unknown error" error))).

(** The text the [catch] of [retrieveDocuments] looks for. *)
Definition missingFunction : string :=
  "function " +:+ String (ascii_of_nat 34) "" +:+ "match_documents"
  +:+ String (ascii_of_nat 34) "" +:+ " does not exist".

(** [SupabaseRetriever.retrieveDocuments]. *)
Definition SupabaseRetriever_retrieveDocuments (this : SupabaseRetriever)
    (emb : list float) (options : RetrievalOptions any)
  : M World (RetrievalResult any) :=
  try_catch
    (do reply <- matchDocuments (rt_supabaseUrl this) (rt_supabaseKey this) emb
                   (ro_similarityThreshold options) (ro_maxChunks options)
                   (ro_aiInstanceId options);
     match sr_error reply with
     | Some message =>
         throw (Error ("Failed to retrieve documents: " +:+ message))
     | None =>
         let documents := toDocument <$> default [] (sr_data reply) in
         let documents :=
           if bool_decide (0 < length (ro_filter options))
           then filter (λ d, passesFilter (ro_filter options) d) documents
           else documents in
         ret {| documents := documents;
                totalFound := match sr_data reply with
                              | Some data => length data
                              | None => 0
                              end |}
     end)
    (λ error,
       match error with
       | Error message =>
           if includes missingFunction message
           then retrieveDocumentsFallback this emb options
           else throw (Error ("Failed to retrieve documents: " +:+ message))
       | NotAnError =>
           throw (Error "Failed to retrieve documents: Unknown error")
       end).

(** [SupabaseRetriever.performVectorSearch]. *)
Definition performVectorSearch (this : SupabaseRetriever) (emb : list float)
    (options : RetrievalOptions any) : M World (list (Document any)) :=
  try_catch (ret [])
    (λ error,
       throw (Error ("Failed to perform vector search: "
                     +:+ message_or "Unknown error" error))).

End Retriever.

Arguments DocumentVectorItem : clear implicits.
Arguments StoreReply : clear implicits.
Arguments Store : clear implicits.

(* ===================================================================== *)
(** * context/formatters/promptFormatter.ts and context/contextHandler.ts *)
(* ===================================================================== *)

Section Handler.

(** [Src] is the type of the elements of [sources: any[]]; [Opt] the type of
    the [options] of a request, handed to every provider. *)
Context {World Src Opt : Type}.

(** [interface FormattedPrompt]. *)
Record FormattedPrompt : Type := mkFormattedPrompt {
  formatted : string;
  fp_tokenCount : nat
}.

(** [interface PromptOptions]; [format] is held by its string. *)
Record PromptOptions : Type := mkPromptOptions {
  pf_systemPrompt : option string;
  pf_contextHeader : option string;
  pf_includeTimestamp : option bool;
  pf_format : option string
}.

(** What a context provider resolves to; [error] is set by the handler. *)
Record ProviderResult : Type := mkProviderResult {
  r_context : string;
  r_sources : list Src;
  r_tokenCount : nat;
  r_error : option string
}.

(** The [providerOptions] of the handler:
    [{ ...options, aiInstanceId, maxTokens }]. *)
Record ProviderOptions : Type := mkProviderOptions {
  po_options : Opt;
  po_aiInstanceId : option string;
  po_maxTokens : Z
}.

(** [ContextProvider.getContext]. *)
Definition ContextProvider : Type :=
  string → ProviderOptions → M World ProviderResult.

(** A message of [formatMessagesPrompt]; the [content] of the system
    message is [null] ([None]) when the system prompt is. *)
Record PromptMessage : Type := mkPromptMessage {
  pm_role : string;
  pm_content : option string
}.

(** What the handlers need from outside. *)
Class HandlerHost : Type := mkHandlerHost {
  (** The own keys of the registry [contextProviders]: the provider
      registered under a name, [None] for a name that is not registered. *)
  contextProviders : string → option ContextProvider;
  (** [new Date().toISOString()]. *)
  toISOString : World → string;
  (** [JSON.stringify(messages)]. *)
  stringifyMessages : list PromptMessage → string;
  (** The [{}] that [options] defaults to. *)
  noOptions : Opt;
  (** The message of the [TypeError] raised by reading the named property
      of [null]; its wording depends on the engine. *)
  nullReadMessage : string → string;
  (** The message of the [TypeError] raised by calling the named
      expression when it is not a function; its wording depends on the
      engine. *)
  notAFunctionMessage : string → string
}.

Context {handlerHost : HandlerHost}.

(** The keys every plain object inherits from [Object.prototype].  The
    registry is a plain object, so [contextProviders[name]] is truthy for
    each of them; none of the values has a [getContext]. *)
Definition objectPrototypeKeys : list string :=
  ["constructor"; "hasOwnProperty"; "isPrototypeOf"; "propertyIsEnumerable";
   "toLocaleString"; "toString"; "valueOf"; "__proto__";
   "__defineGetter__"; "__defineSetter__"; "__lookupGetter__";
   "__lookupSetter__"].

(** [provider.getContext(query, providerOptions)] for a [provider] that was
    found under an inherited key: the call throws at once. *)
Definition inheritedProvider : ContextProvider :=
  λ _ _, throw (Error (notAFunctionMessage "provider.getContext")).

(** [contextProviders[name]], when it is truthy: an own key shadows an
    inherited one. *)
Definition lookupProvider (name : string) : option ContextProvider :=
  match contextProviders name with
  | Some provider => Some provider
  | None =>
      if bool_decide (name ∈ objectPrototypeKeys)
      then Some inheritedProvider else None
  end.

Definition defaultSystemPrompt : string :=
  "You are a helpful AI assistant. Use the provided context to answer the user's question.".

(** [formatPrompt], at the state [w] of the clock. *)
Definition formatPrompt (w : World) (query context : string)
    (options : option PromptOptions) : FormattedPrompt :=
  let systemPrompt := nullish (options ≫= pf_systemPrompt) defaultSystemPrompt in
  let contextHeader := nullish (options ≫= pf_contextHeader) "Context:" in
  let includeTimestamp := nullish (options ≫= pf_includeTimestamp) true in
  let format := nullish (options ≫= pf_format) "generic" in
  let timestamp :=
    if includeTimestamp
    then "Current date and time: " +:+ toISOString w +:+ LF +:+ LF
    else "" in
  let formatted :=
    if decide (format = "claude") then
      systemPrompt +:+ LF +:+ LF +:+ timestamp +:+ contextHeader +:+ LF
      +:+ context +:+ LF +:+ LF +:+ "Human: " +:+ query
      +:+ LF +:+ LF +:+ "Assistant:"
    else if decide (format = "openai") then
      systemPrompt +:+ LF +:+ LF +:+ timestamp +:+ contextHeader +:+ LF
      +:+ context +:+ LF +:+ LF +:+ "User: " +:+ query
      +:+ LF +:+ LF +:+ "Assistant:"
    else if decide (format = "mistral") then
      systemPrompt +:+ LF +:+ LF +:+ timestamp +:+ contextHeader +:+ LF
      +:+ context +:+ LF +:+ LF +:+ "<s>[INST] " +:+ query +:+ " [/INST]"
    else if decide (format = "fireworks") then
      systemPrompt +:+ LF +:+ LF +:+ timestamp +:+ contextHeader +:+ LF
      +:+ context +:+ LF +:+ LF +:+ "USER: " +:+ query
      +:+ LF +:+ LF +:+ "ASSISTANT:"
    else
      systemPrompt +:+ LF +:+ LF +:+ timestamp +:+ contextHeader +:+ LF
      +:+ context +:+ LF +:+ LF +:+ "Question: " +:+ query
      +:+ LF +:+ LF +:+ "Answer:" in
  {| formatted := formatted;
     fp_tokenCount := ceil_div (String.length formatted) 4 |}.

(** The text a format puts before and after the query. *)
Definition queryFrame (format : string) : string * string :=
  if decide (format = "claude") then ("Human: ", LF +:+ LF +:+ "Assistant:")
  else if decide (format = "openai") then ("User: ", LF +:+ LF +:+ "Assistant:")
  else if decide (format = "mistral") then ("<s>[INST] ", " [/INST]")
  else if decide (format = "fireworks") then ("USER: ", LF +:+ LF +:+ "ASSISTANT:")
  else ("Question: ", LF +:+ LF +:+ "Answer:").

(** [formatMessagesPrompt]: the default of the parameter [systemPrompt]
    stands in for [undefined] only. *)
Definition formatMessagesPrompt (query context : string)
    (systemPrompt : Nullable string) : string :=
  stringifyMessages
    [ {| pm_role := "system";
         pm_content := match systemPrompt with
                       | Missing => Some defaultSystemPrompt
                       | Null => None
                       | Value prompt => Some prompt
                       end |};
      {| pm_role := "user";
         pm_content := Some ("Here is some relevant context:" +:+ LF +:+ LF
                             +:+ context +:+ LF +:+ LF
                             +:+ "My question is: " +:+ query) |} ].

(** The [formatOptions] of a request.  [format] and [useMessagesFormat] are
    only tested for truthiness, so [None] is a missing key or [null]. *)
Record FormatOptions : Type := mkFormatOptions {
  fo_format : option string;
  fo_systemPrompt : Nullable string;
  fo_useMessagesFormat : option bool
}.

(** The payload of a context request, an object parsed from JSON: each
    property is missing, [null], or a value of the type the handler uses it
    at ([maxTokens] an integer).  [query] is only tested for truthiness
    before it is used, [aiInstanceId] is handed to the providers, which test
    it for truthiness, and [options] is only spread; for these three [None]
    is a missing key or [null]. *)
Record ContextPayload : Type := mkContextPayload {
  p_query : option string;
  p_aiInstanceId : option string;
  p_maxTokens : Nullable Z;
  p_providers : Nullable (list string);
  p_options : option Opt;
  p_formatOptions : Nullable FormatOptions
}.

(** The [data] of a successful response. *)
Record ContextData : Type := mkContextData {
  cd_context : string;
  cd_formattedPrompt : string;
  cd_sources : list Src;
  cd_tokenCount : nat;
  cd_totalTokens : nat;
  cd_providers : list string
}.

(** [interface McpResponse], as [handleContextRequest] fills it. *)
Record ContextResponse : Type := mkContextResponse {
  rs_success : bool;
  rs_error : option string;
  rs_data : option ContextData
}.

(** [providers.filter(provider => contextProviders[provider])], each name
    with what [contextProviders[name]] holds. *)
Definition enabledProviders (providers : list string)
  : list (string * ContextProvider) :=
  omap (λ name, pair name <$> lookupProvider name) providers.

(** [maxTokens], after the default [maxTokens = 4000] of the destructuring,
    as the number the division sees: [null] counts as 0. *)
Definition maxTokensOf (payload : ContextPayload) : Z :=
  match p_maxTokens payload with
  | Missing => 4000%Z
  | Null => 0%Z
  | Value n => n
  end.

(** The callback of [enabledProviders.map]: the call of one provider, with
    its share of the token budget, and the [catch] around it. *)
Definition callProvider (payload : ContextPayload) (query : string)
    (enabled : nat) (provider : ContextProvider) : M World ProviderResult :=
  try_catch
    (provider query
       {| po_options := nullish (p_options payload) noOptions;
          po_aiInstanceId := p_aiInstanceId payload;
          po_maxTokens := (maxTokensOf payload / Z.of_nat enabled)%Z |})
    (λ error,
       ret {| r_context := "";
              r_sources := [];
              r_tokenCount := 0;
              r_error := Some (message_or "Unknown error" error) |}).

(** [Promise.all(enabledProviders.map(...))]: the calls are started in the
    order of the request; here each runs to its end before the next starts,
    and the results keep that order. *)
Fixpoint callProviders (payload : ContextPayload) (query : string)
    (enabled : nat) (l : list (string * ContextProvider))
  : M World (list ProviderResult) :=
  match l with
  | [] => ret []
  | p :: l' =>
      do r <- callProvider payload query enabled p.2;
      do rs <- callProviders payload query enabled l';
      ret (r :: rs)
  end.

(** The state of [contextResults.forEach]:
    [combinedContext], [combinedSources] and [totalTokens]. *)
Record Combined : Type := mkCombined {
  combinedContext : string;
  combinedSources : list Src;
  combinedTokens : nat
}.

(** The callback of [contextResults.forEach]. *)
Definition combineStep (acc : Combined) (result : ProviderResult) : Combined :=
  if truthy (r_context result) && bool_decide (0 < r_tokenCount result)
  then {| combinedContext :=
            combinedContext acc
            +:+ (if truthy (combinedContext acc) then LF +:+ LF else "")
            +:+ r_context result;
          combinedSources := combinedSources acc ++ r_sources result;
          combinedTokens := combinedTokens acc + r_tokenCount result |}
  else acc.

Definition combineResults (results : list ProviderResult) : Combined :=
  foldl combineStep
    {| combinedContext := ""; combinedSources := []; combinedTokens := 0 |}
    results.

(** The [{}] that [formatOptions] defaults to. *)
Definition noFormatOptions : FormatOptions :=
  {| fo_format := None; fo_systemPrompt := Missing;
     fo_useMessagesFormat := None |}.

(** The formatting step of [handleContextRequest], for a [formatOptions]
    that is an object.  A system prompt that is [null] is no [undefined], so
    the default of [formatPrompt] does not replace it and its template
    renders it as the text 'null'. *)
Definition formatCombined (w : World) (query combined : string)
    (formatOptions : FormatOptions) : FormattedPrompt :=
  if truthy (str_or (fo_format formatOptions) "")
  then
    if nullish (fo_useMessagesFormat formatOptions) false
    then {| formatted :=
              formatMessagesPrompt query combined
                (fo_systemPrompt formatOptions);
            fp_tokenCount :=
              ceil_div (String.length combined + String.length query
                        + match fo_systemPrompt formatOptions with
                          | Value prompt => String.length prompt
                          | _ => 0
                          end)
                       4 |}
    else formatPrompt w query combined
           (Some {| pf_systemPrompt :=
                      match fo_systemPrompt formatOptions with
                      | Missing => None
                      | Null => Some "null"
                      | Value prompt => Some prompt
                      end;
                    pf_contextHeader := None;
                    pf_includeTimestamp := None;
                    pf_format := fo_format formatOptions |})
  else {| formatted := combined; fp_tokenCount := 0 |}.

(** [providers], after the default [providers = ['lightrag']] of the
    destructuring, at [providers.filter]: reading [filter] of [null]
    throws. *)
Definition providersOf (payload : ContextPayload) : M World (list string) :=
  match p_providers payload with
  | Missing => ret ["lightrag"]
  | Null => throw (Error (nullReadMessage "filter"))
  | Value names => ret names
  end.

(** [formatOptions], after the default [formatOptions = {}] of the
    destructuring, at [formatOptions.format]: reading [format] of [null]
    throws. *)
Definition formatOptionsOf (payload : ContextPayload) : M World FormatOptions :=
  match p_formatOptions payload with
  | Missing => ret noFormatOptions
  | Null => throw (Error (nullReadMessage "format"))
  | Value formatOptions => ret formatOptions
  end.

(** [handleContextRequest]. *)
Definition handleContextRequest (payload : ContextPayload)
  : M World ContextResponse :=
  try_catch
    (if negb (truthy (str_or (p_query payload) ""))
     then throw (Error "Query is required")
     else
       let query := str_or (p_query payload) "" in
       do providers <- providersOf payload;
       let enabled := enabledProviders providers in
       if bool_decide (length enabled = 0)
       then throw (Error "No valid context providers specified")
       else
         do contextResults <-
           callProviders payload query (length enabled) enabled;
         let combined := combineResults contextResults in
         do formatOptions <- formatOptionsOf payload;
         λ w,
           let prompt := formatCombined w query (combinedContext combined)
                           formatOptions in
           (Returns
              {| rs_success := true;
                 rs_error := None;
                 rs_data :=
                   Some {| cd_context := combinedContext combined;
                           cd_formattedPrompt := formatted prompt;
                           cd_sources := combinedSources combined;
                           cd_tokenCount := combinedTokens combined;
                           cd_totalTokens :=
                             combinedTokens combined + fp_tokenCount prompt;
                           cd_providers := enabled.*1 |} |}, w))
    (λ error,
       ret {| rs_success := false;
              rs_error := Some (message_or "Unknown error" error);
              rs_data := None |}).

End Handler.

Arguments ProviderResult : clear implicits.
Arguments ProviderOptions : clear implicits.
Arguments ContextProvider : clear implicits.
Arguments HandlerHost : clear implicits.
Arguments ContextPayload : clear implicits.
Arguments ContextData : clear implicits.
Arguments ContextResponse : clear implicits.
Arguments Combined : clear implicits.

(* ===================================================================== *)
(** * context/providers/index.ts: the document provider in the registry   *)
(* ===================================================================== *)

Section ProviderAdapter.

Context {any : Type}.

(** The result of [LightRAGContextProvider.getContext] as the handler sees
    it. *)
Definition asProviderResult (r : ProviderContext any)
  : ProviderResult (ProviderSource any) :=
  {| r_context := pr_context r;
     r_sources := pr_sources r;
     r_tokenCount := pr_tokenCount r;
     r_error := None |}.

End ProviderAdapter.

Section Registry.

Context {any World : Type} {builtins : Builtins any} {host : Host any World}.

(** The [{}] that the [options] of a context request default to. *)
Definition emptyOptions : GetContextOptions any :=
  {| aiInstanceId := None;
     opt_embeddingProvider := None;
     opt_embeddingModel := None;
     opt_maxChunks := None;
     opt_similarityThreshold := None;
     opt_maxTokens := None;
     opt_filter := None;
     opt_enableFallbackSearch := None |}.

(** The handler's [{ ...options, aiInstanceId, maxTokens }] as
    [LightRAGContextProvider.getContext] reads it: the two keys are set after
    the spread, so they replace those of [options], [aiInstanceId] also when
    the request has none. *)
Definition lightragOptions (po : ProviderOptions (GetContextOptions any))
  : GetContextOptions any :=
  {| aiInstanceId := po_aiInstanceId po;
     opt_embeddingProvider := opt_embeddingProvider (po_options po);
     opt_embeddingModel := opt_embeddingModel (po_options po);
     opt_maxChunks := opt_maxChunks (po_options po);
     opt_similarityThreshold := opt_similarityThreshold (po_options po);
     opt_maxTokens := Some (po_maxTokens po);
     opt_filter := opt_filter (po_options po);
     opt_enableFallbackSearch := opt_enableFallbackSearch (po_options po) |}.

(** The entry ['lightrag'] of the registry of [createProviderRegistry]: the
    [getContext] of a [LightRAGContextProvider], seen as a context provider
    of the handler. *)
Definition lightragProvider (this : LightRAGContextProvider World)
  : ContextProvider (PState World) (ProviderSource any) (GetContextOptions any) :=
  λ query po s,
    match getContext this query (Some (lightragOptions po)) s with
    | (Returns r, s') => (Returns (asProviderResult r), s')
    | (Throws e, s') => (Throws e, s')
    end.

End Registry.

(* ===================================================================== *)
(** * Vocabulary of the further statements                                *)
(* ===================================================================== *)

Section BuilderVocabulary.

Context {any : Type} {builtins : Builtins any}.

(** What the plain-text loop of [buildContext] appends for one document: the
    metadata line, when asked for and not empty, and the content. *)
Definition rendered (o : MergedOptions) (d : Document any) : string :=
  (if default false (includeMetadata o) && truthy (metadataStr d)
   then "[" +:+ metadataStr d +:+ "]" +:+ LF else "")
  +:+ doc_content d.

(** [options] with another [maxContextLength]: a value, [undefined], or
    none. *)
Definition withMaxContextLength (m : Property Z) (o : ContextBuilderOptions)
  : ContextBuilderOptions :=
  {| maxContextLength := m;
     formatAsJson := formatAsJson o;
     includeMetadata := includeMetadata o;
     separator := separator o;
     deduplicate := deduplicate o |}.

End BuilderVocabulary.

Section ProviderVocabulary.

Context {any : Type}.


End ProviderVocabulary.

Section SearchVocabulary.

(** The source [BraveSearchProvider.getContext] records for the web result
    [r] at index [i], and for the news result [r] at index [i]. *)
Definition webSource (i : nat) (r : BraveSearchResult) : ContextSource :=
  {| cs_id := "web-" +:+ pretty (i + 1);
     cs_content := description r;
     cs_source := "web";
     cs_url := url r;
     cs_title := title r;
     cs_date := None |}.

Definition newsSource (i : nat) (r : BraveSearchResult) : ContextSource :=
  {| cs_id := "news-" +:+ pretty (i + 1);
     cs_content := description r;
     cs_source := "news";
     cs_url := url r;
     cs_title := title r;
     cs_date := updated r |}.

End SearchVocabulary.

Section EmbedderVocabulary.

(** The model path [FireworksEmbedder.generateEmbedding] sends for a model
    id. *)
Definition fireworksModelPath (modelId : string) : string :=
  if decide (modelId = "deepseek-v3")
  then "accounts/fireworks/models/deepseek-v3-embedding"
  else if decide (modelId = "deepseek-v2-lite")
  then "accounts/fireworks/models/deepseek-v2-lite-embedding"
  else modelId.

(** The row [trackEmbeddingUsage] inserts. *)
Definition embeddingRow (instanceId provider modelId : string)
    (tokenCount : nat) (t : string) : UsageRow :=
  {| ai_instance_id := instanceId;
     provider := provider;
     model := modelId;
     operation_type := "embedding";
     input_tokens := tokenCount;
     output_tokens := 0;
     total_tokens := tokenCount;
     created_at := t |}.

End EmbedderVocabulary.

Section HandlerVocabulary.

Context {World Src Opt : Type} {handlerHost : HandlerHost World Src Opt}.

(** A result the handler merges: its context is not empty and its token
    count is positive. *)
Definition contributes (r : ProviderResult Src) : bool :=
  truthy (r_context r) && bool_decide (0 < r_tokenCount r).

(** The response for an error caught by the handler. *)
Definition errorResponse (message : string) : ContextResponse Src :=
  {| rs_success := false; rs_error := Some message; rs_data := None |}.

(** The record the handler puts in the place of the result of a provider
    that threw [error]. *)
Definition failedResult (error : Thrown) : ProviderResult Src :=
  {| r_context := "";
     r_sources := [];
     r_tokenCount := 0;
     r_error := Some (message_or "Unknown error" error) |}.

(** The [providerOptions] of a request with [enabled] enabled providers. *)
Definition providerOptions (payload : ContextPayload Opt) (enabled : nat)
  : ProviderOptions Opt :=
  {| po_options := nullish (p_options payload) noOptions;
     po_aiInstanceId := p_aiInstanceId payload;
     po_maxTokens := (maxTokensOf payload / Z.of_nat enabled)%Z |}.

(** The names a request asks for: those of [payload.providers], 'lightrag'
    when the payload has none, and none at all when it holds [null]. *)
Definition requestedNames (payload : ContextPayload Opt)
  : option (list string) :=
  match p_providers payload with
  | Missing => Some ["lightrag"]
  | Null => None
  | Value names => Some names
  end.


(** Prompt options with the format [f]. *)
Definition withFormat (f : string) (o : PromptOptions) : PromptOptions :=
  {| pf_systemPrompt := pf_systemPrompt o;
     pf_contextHeader := pf_contextHeader o;
     pf_includeTimestamp := pf_includeTimestamp o;
     pf_format := Some f |}.

End HandlerVocabulary.

(* ===================================================================== *)
(** * Instances for the examples                                          *)
(* ===================================================================== *)

(** Stand-ins for the built-ins: metadata values are strings, an array is
    rendered by its contents, and the sine is replaced by the identity. *)
Definition exampleBuiltins : Builtins string :=
  {| ToString := id;
     JSON_stringify := λ l, "[" +:+ join "," (je_content <$> l) +:+ "]";
     Math_sin := λ x, x;
     nullPropertyMessage :=
       λ p, "Cannot read properties of undefined (reading '" +:+ p +:+ "')" |}.

(** A world that counts the requests it has served. *)
Definition served {A} (o : Outcome A) : M nat A := λ w, (o, S w).

Definition exampleEnv : Env :=
  {| SUPABASE_URL := Some "https://project.supabase.co";
     SUPABASE_SERVICE_ROLE_KEY := Some "service-role-key";
     AWS_ACCESS_KEY_ID := Some "access-key-id";
     AWS_SECRET_ACCESS_KEY := Some "secret-access-key";
     FIREWORKS_API_KEY := None;
     BRAVE_SEARCH_API_KEY := None |}.

(** A host without a configuration row and without a search API key, whose
    retriever finds [docs] and whose model router completes as [route]. *)
Definition exampleHost (docs : list (Document string))
    (route : Outcome McpResponse) : Host string nat :=
  {| env := exampleEnv;
     loadRagConfig := λ _ _ _, served (Returns None);
     usageInsert := λ _ _ _, served (Returns None);
     nowISO := λ _, "2024-01-01T00:00:00.000Z";
     fireworksFetch := λ _ _ _, served (Throws (Error "fetch failed"));
     braveFetch := λ _ _ _, served (Throws (Error "fetch failed"));
     retrieveDocuments :=
       λ _ _, served (Returns {| documents := docs; totalFound := length docs |});
     routeModelCall := λ _, served route |}.

Definition exampleOptions : GetContextOptions string :=
  {| aiInstanceId := Some "instance-1";
     opt_embeddingProvider := Some "bedrock";
     opt_embeddingModel := None;
     opt_maxChunks := None;
     opt_similarityThreshold := None;
     opt_maxTokens := None;
     opt_filter := None;
     opt_enableFallbackSearch := None |}.

(** The same options, asking for the Fireworks provider. *)
Definition fireworksOptions : GetContextOptions string :=
  {| aiInstanceId := Some "instance-1";
     opt_embeddingProvider := Some "fireworks";
     opt_embeddingModel := None;
     opt_maxChunks := None;
     opt_similarityThreshold := None;
     opt_maxTokens := None;
     opt_filter := None;
     opt_enableFallbackSearch := None |}.

Definition initialState : PState nat := {| world := 0; calls := [] |}.

Definition parisDoc : Document string :=
  {| doc_id := Some "doc-1";
     doc_content := "Paris is the capital of France.";
     doc_metadata := Some [("title", "France")];
     doc_score := Some 0.95%float;
     doc_embedding := None |}.

(** One hundred characters. *)
Definition sharedPrefix : string :=
  "0123456789012345678901234567890123456789012345678901234567890123456789012345678901234567890123456789".

Definition lowDoc : Document string :=
  {| doc_id := Some "low";
     doc_content := sharedPrefix +:+ " (first copy)";
     doc_metadata := None;
     doc_score := Some 0.6%float;
     doc_embedding := None |}.

Definition highDoc : Document string :=
  {| doc_id := Some "high";
     doc_content := sharedPrefix +:+ " (second copy)";
     doc_metadata := None;
     doc_score := Some 0.9%float;
     doc_embedding := None |}.

Definition blankDoc : Document string :=
  {| doc_id := Some "blank";
     doc_content := "";
     doc_metadata := None;
     doc_score := Some 0.8%float;
     doc_embedding := None |}.

Definition summaryResponse : McpResponse :=
  {| success := true;
     data_content := Some "Paris is the capital and largest city of France.";
     error := None;
     usage := Some {| contextTokens := Some 100;
                      completionTokens := Some 20;
                      totalTokens := Some 120 |} |}.

Definition routerDown : Outcome McpResponse := Throws (Error "model router down").

(** The provider [new LightRAGContextProvider()] of an example host. *)
Definition exampleProvider (h : Host string nat) : LightRAGContextProvider nat :=
  newLightRAGContextProvider (builtins := exampleBuiltins) (host := h).

(** [getContext] of that provider, from the initial state. *)
Definition runExample (h : Host string nat) (query : string)
  : Outcome (ProviderContext string) * PState nat :=
  getContext (builtins := exampleBuiltins) (host := h) (exampleProvider h)
    query (Some exampleOptions) initialState.

(** A host as [exampleHost], with a configuration row. *)
Definition hostWithConfig (row : RagConfig) (docs : list (Document string))
    (route : Outcome McpResponse) : Host string nat :=
  {| env := exampleEnv;
     loadRagConfig := λ _ _ _, served (Returns (Some row));
     usageInsert := λ _ _ _, served (Returns None);
     nowISO := λ _, "2024-01-01T00:00:00.000Z";
     fireworksFetch := λ _ _ _, served (Throws (Error "fetch failed"));
     braveFetch := λ _ _ _, served (Throws (Error "fetch failed"));
     retrieveDocuments :=
       λ _ _, served (Returns {| documents := docs; totalFound := length docs |});
     routeModelCall := λ _, served route |}.

(** A configuration row that only switches the fallback off. *)
Definition fallbackOff : RagConfig :=
  {| embedding_provider := None;
     embedding_model_id := None;
     max_chunks := None;
     similarity_threshold := None;
     enable_deduplication := None;
     track_token_usage := None;
     enable_fallback_search := Some false |}.

(** A provider whose web search is out of reach. *)
Definition providerWithoutSearch
  : LightRAGContextProvider nat :=
  {| supabaseUrl := "https://project.supabase.co";
     supabaseKey := "service-role-key";
     braveSearchProvider := λ _ _, served (Throws (Error "search unreachable")) |}.

(** A host whose embedding request is answered by [response]. *)
Definition hostWithEmbedding (response : FireworksResponse) : Host string nat :=
  {| env := exampleEnv;
     loadRagConfig := λ _ _ _, served (Returns None);
     usageInsert := λ _ _ _, served (Throws (Error "insert failed"));
     nowISO := λ _, "2024-01-01T00:00:00.000Z";
     fireworksFetch := λ _ _ _, served (Returns response);
     braveFetch := λ _ _ _, served (Throws (Error "fetch failed"));
     retrieveDocuments :=
       λ _ _, served (Returns {| documents := []; totalFound := 0 |});
     routeModelCall := λ _, served routerDown |}.

Definition embeddingResponse : FireworksResponse :=
  {| fw_ok := true;
     fw_status := 200;
     fw_errorData := "";
     fw_json := Returns {| fw_embedding := Some [0.5%float; 0.25%float];
                           fw_total_tokens := Some 7 |} |}.

Definition exampleEmbedder : FireworksEmbedder :=
  {| fe_modelId := "deepseek-v3";
     fe_apiKey := "fireworks-key";
     fe_trackUsage := true |}.

(** Two rows of the document store. *)
Definition exampleRows : list (DocumentVectorItem string) :=
  [ {| dv_id := "row-1";
       dv_content := "Paris is the capital of France.";
       dv_metadata := Some [("owner_id", "alice")];
       dv_similarity := Some 0.9%float |};
    {| dv_id := "row-2";
       dv_content := "Berlin is the capital of Germany.";
       dv_metadata := Some [("owner_id", "bob")];
       dv_similarity := Some 0.8%float |} ].

(** A store that answers both queries with [exampleRows]; metadata values
    are strings, compared as such, and none is [undefined]. *)
Definition exampleStore : Store string nat :=
  {| matchDocuments :=
       λ _ _ _ _ _ _,
         served (Returns {| sr_data := Some exampleRows; sr_error := None |});
     nearestRows :=
       λ _ _ _,
         served (Returns {| sr_data := Some exampleRows; sr_error := None |});
     strictEquals := String.eqb;
     isUndefined := λ _, false |}.

Definition exampleRetriever : SupabaseRetriever :=
  {| rt_supabaseUrl := "https://project.supabase.co";
     rt_supabaseKey := "service-role-key" |}.

(** Retrieval options that ask for the documents of one owner. *)
Definition ownerOptions : RetrievalOptions string :=
  {| ro_aiInstanceId := "instance-1";
     ro_maxChunks := 5%Z;
     ro_similarityThreshold := 0.7%float;
     ro_filter := [("owner_id", "alice")] |}.

(** A provider of the handler that answers with one note. *)
Definition notesProvider : ContextProvider nat string unit :=
  λ query _,
    served (Returns {| r_context := "Notes about " +:+ query;
                       r_sources := ["note-1"];
                       r_tokenCount := 5;
                       r_error := None |}).

(** A provider of the handler that throws. *)
Definition brokenProvider : ContextProvider nat string unit :=
  λ _ _, served (Throws (Error "provider down")).

(** A registry with these two providers. *)
Definition exampleRegistry : HandlerHost nat string unit :=
  {| contextProviders :=
       λ name,
         if decide (name = "notes") then Some notesProvider
         else if decide (name = "broken") then Some brokenProvider
         else None;
     toISOString := λ _, "2024-01-01T00:00:00.000Z";
     stringifyMessages :=
       λ l, "[" +:+ join "," (default "null" ∘ pm_content <$> l) +:+ "]";
     noOptions := ();
     nullReadMessage :=
       λ p, "Cannot read properties of null (reading '" +:+ p +:+ "')";
     notAFunctionMessage := λ f, f +:+ " is not a function" |}.

(** A request for a provider that throws, one that answers, a name that is
    no key of the registry and a name the registry inherits. *)
Definition examplePayload : ContextPayload unit :=
  {| p_query := Some "What is Paris?";
     p_aiInstanceId := None;
     p_maxTokens := Missing;
     p_providers := Value ["broken"; "notes"; "unknown"; "constructor"];
     p_options := None;
     p_formatOptions := Missing |}.

(** Requests that hold [null]: as [providers], and as [formatOptions]. *)
Definition nullProvidersPayload : ContextPayload unit :=
  {| p_query := Some "What is Paris?";
     p_aiInstanceId := None;
     p_maxTokens := Missing;
     p_providers := Null;
     p_options := None;
     p_formatOptions := Missing |}.

Definition nullFormatPayload : ContextPayload unit :=
  {| p_query := Some "What is Paris?";
     p_aiInstanceId := None;
     p_maxTokens := Missing;
     p_providers := Value ["notes"];
     p_options := None;
     p_formatOptions := Null |}.

(** The registry whose 'lightrag' is the provider of an example host. *)
Definition lightragRegistry (h : Host string nat)
  : HandlerHost (PState nat) (ProviderSource string) (GetContextOptions string) :=
  {| contextProviders :=
       λ name,
         if decide (name = "lightrag")
         then Some (lightragProvider (builtins := exampleBuiltins) (host := h)
                      (exampleProvider h))
         else None;
     toISOString := λ _, "2024-01-01T00:00:00.000Z";
     stringifyMessages :=
       λ l, "[" +:+ join "," (default "null" ∘ pm_content <$> l) +:+ "]";
     noOptions := emptyOptions;
     nullReadMessage :=
       λ p, "Cannot read properties of null (reading '" +:+ p +:+ "')";
     notAFunctionMessage := λ f, f +:+ " is not a function" |}.

(** A context request for the default provider, with [options] that carry
    an instance id of their own. *)
Definition lightragPayload (instance : option string)
    (options : GetContextOptions string)
  : ContextPayload (GetContextOptions string) :=
  {| p_query := Some "What is Paris?";
     p_aiInstanceId := instance;
     p_maxTokens := Missing;
     p_providers := Missing;
     p_options := Some options;
     p_formatOptions := Missing |}.

(* ===================================================================== *)
(** * Facts about the primitives                                          *)
(* ===================================================================== *)

Section JsFacts.

(** [ceil_div n d] is the least [k] with [n <= d * k]. *)
Lemma ceil_div_spec (n d : nat) :
  0 < d → n ≤ d * ceil_div n d ∧ d * ceil_div n d < n + d.
Proof.
  intros Hd. unfold ceil_div.
  pose proof (Nat.div_mod_eq (n + (d - 1)) d) as Hdm.
  pose proof (Nat.mod_upper_bound (n + (d - 1)) d ltac:(lia)) as Hmod.
  split; lia.
Qed.

Lemma truthy_false (s : string) : truthy s = false ↔ s = "".
Proof. destruct s; simpl; split; congruence. Qed.

Lemma truthy_true (s : string) : truthy s = true ↔ s ≠ "".
Proof. destruct s; simpl; split; congruence. Qed.

Lemma append_nil_l (s : string) : "" +:+ s = s.
Proof. reflexivity. Qed.

Lemma append_cons (c : ascii) (s1 s2 : string) :
  String c s1 +:+ s2 = String c (s1 +:+ s2).
Proof. reflexivity. Qed.

Lemma append_empty (s1 s2 : string) : s1 +:+ s2 = "" ↔ s1 = "" ∧ s2 = "".
Proof.
  destruct s1 as [|c s1].
  - rewrite append_nil_l. naive_solver.
  - rewrite append_cons. naive_solver.
Qed.

Lemma append_nil_r (s : string) : s +:+ "" = s.
Proof.
  induction s as [|c s IH]; [done |]. by rewrite append_cons, IH.
Qed.

Lemma sort_insert_perm {A} (cmp : A → A → float) (x : A) (l : list A) :
  sort_insert cmp x l ≡ₚ x :: l.
Proof.
  induction l as [|y l IH]; simpl; [done |].
  destruct (PrimFloat.ltb 0 (cmp x y)); [| done].
  rewrite IH. apply Permutation_swap.
Qed.

Lemma sort_perm {A} (cmp : A → A → float) (l : list A) : sort cmp l ≡ₚ l.
Proof.
  induction l as [|x l IH]; simpl; [done |].
  fold (sort cmp l). by rewrite sort_insert_perm, IH.
Qed.

End JsFacts.

(* ===================================================================== *)
(** * Properties of the context builder                                   *)
(* ===================================================================== *)

Section BuilderProperties.

Context {any : Type} {builtins : Builtins any}.

Implicit Types (doc d : Document any) (docs : list (Document any)).
Implicit Types (o : MergedOptions).

Lemma dedup_foldl docs : ∀ (seen : gset string) (uniq : list (Document any)),
  ∃ seen' rest,
    foldl dedupStep (seen, uniq) docs = (seen', uniq ++ rest)
    ∧ ∀ f, withFingerprint f rest
           = if decide (f ∈ seen) then [] else take 1 (withFingerprint f docs).
Proof.
  unfold withFingerprint.
  induction docs as [|d docs IH]; intros seen uniq; simpl.
  - exists seen, []. rewrite app_nil_r. split; [done |].
    intros f. by destruct (decide (f ∈ seen)).
  - unfold dedupStep at 2. simpl.
    destruct (decide (contentFingerprint d ∈ seen)) as [Hin | Hin].
    + destruct (IH seen uniq) as (seen' & rest & Heq & Hf).
      exists seen', rest. split; [done |]. intros f. rewrite Hf.
      destruct (decide (f ∈ seen)); [done |].
      rewrite filter_cons_False; [done |]. congruence.
    + destruct (IH ({[contentFingerprint d]} ∪ seen) (uniq ++ [d]))
        as (seen' & rest & Heq & Hf).
      exists seen', (d :: rest). split.
      { rewrite Heq. by rewrite <- app_assoc. }
      intros f. destruct (decide (contentFingerprint d = f)) as [<- | Hne].
      * rewrite !filter_cons_True by done. rewrite Hf.
        rewrite decide_True by set_solver. rewrite decide_False by done.
        done.
      * rewrite !filter_cons_False by done. rewrite Hf.
        destruct (decide (f ∈ seen)).
        -- rewrite decide_True by set_solver. done.
        -- rewrite decide_False by set_solver. done.
Qed.

Lemma deduplicateDocuments_fingerprint f docs :
  withFingerprint f (deduplicateDocuments docs) = take 1 (withFingerprint f docs).
Proof.
  unfold deduplicateDocuments.
  destruct (dedup_foldl docs ∅ []) as (seen' & rest & -> & Hf).
  simpl. rewrite Hf. rewrite decide_False by set_solver. done.
Qed.

Lemma deduplicateDocuments_nonempty docs :
  docs ≠ [] → deduplicateDocuments docs ≠ [].
Proof.
  destruct docs as [|d docs]; [done |]. intros _ Hnil.
  pose proof (deduplicateDocuments_fingerprint (contentFingerprint d) (d :: docs)) as H.
  rewrite Hnil in H. unfold withFingerprint in H.
  rewrite filter_cons_True in H by done. done.
Qed.

Lemma textStep_foldl o docs : ∀ st,
  bs_sources (foldl (textStep o) st docs) = bs_sources st ++ docs
  ∧ bs_tokens (foldl (textStep o) st docs) = bs_tokens st + contentTokens docs.
Proof.
  unfold contentTokens.
  induction docs as [|d docs IH]; intros st; simpl.
  - rewrite app_nil_r. split; [done | lia].
  - destruct (IH (textStep o st d)) as [-> ->]. simpl.
    rewrite <- app_assoc. split; [done |].
    unfold estimateTokens. by rewrite <- Nat.add_assoc.
Qed.

Lemma jsonStep_foldl o docs : ∀ st,
  bs_sources (foldl (jsonStep o) st docs).2 = bs_sources st.2 ++ docs
  ∧ bs_tokens (foldl (jsonStep o) st docs).2 = bs_tokens st.2 + contentTokens docs.
Proof.
  unfold contentTokens.
  induction docs as [|d docs IH]; intros st; simpl.
  - rewrite app_nil_r. split; [done | lia].
  - destruct (IH (jsonStep o st d)) as [-> ->]. simpl.
    rewrite <- app_assoc. split; [done |].
    unfold estimateTokens. by rewrite <- Nat.add_assoc.
Qed.

Lemma buildContext_sources docs options :
  sources (buildContext docs options) = sort byScoreDesc (processed docs options).
Proof.
  unfold buildContext, processed. simpl.
  destruct (default false (formatAsJson (mergeOptions options))); simpl.
  - by rewrite (proj1 (jsonStep_foldl _ _ _)).
  - by rewrite (proj1 (textStep_foldl _ _ _)).
Qed.

Lemma buildContext_tokenCount docs options :
  tokenCount (buildContext docs options)
  = contentTokens (sources (buildContext docs options)).
Proof.
  rewrite buildContext_sources. unfold buildContext, processed. simpl.
  destruct (default false (formatAsJson (mergeOptions options))); simpl.
  - by rewrite (proj2 (jsonStep_foldl _ _ _)).
  - by rewrite (proj2 (textStep_foldl _ _ _)).
Qed.

Lemma buildContext_nonempty docs options :
  docs ≠ [] → 0 < length (sources (buildContext docs options)).
Proof.
  intros Hne. rewrite buildContext_sources.
  rewrite (Permutation_length (sort_perm _ _)). unfold processed.
  destruct (default false _).
  - apply deduplicateDocuments_nonempty in Hne.
    destruct (deduplicateDocuments docs); simpl; [done | lia].
  - destruct docs; simpl; [done | lia].
Qed.

Lemma buildContext_nil options :
  formatAsJson (mergeOptions options) = Some false →
  buildContext [] options = {| context := ""; sources := []; tokenCount := 0 |}.
Proof.
  intros Hfmt. unfold buildContext. rewrite Hfmt. simpl.
  by destruct (default false (deduplicate (mergeOptions options))).
Qed.

End BuilderProperties.

(* ===================================================================== *)
(** * Properties of the providers                                         *)
(* ===================================================================== *)

Section MonadFacts.

Context {S A B : Type}.

Lemma bind_returns (m : M S A) (k : A → M S B) s a s1 :
  m s = (Returns a, s1) → bind m k s = k a s1.
Proof. unfold bind. by intros ->. Qed.

Lemma bind_throws (m : M S A) (k : A → M S B) s e s1 :
  m s = (Throws e, s1) → bind m k s = (Throws e, s1).
Proof. unfold bind. by intros ->. Qed.

Lemma try_catch_returns (m : M S A) (h : Thrown → M S A) s a s1 :
  m s = (Returns a, s1) → try_catch m h s = (Returns a, s1).
Proof. unfold try_catch. by intros ->. Qed.

Lemma try_catch_throws (m : M S A) (h : Thrown → M S A) s e s1 :
  m s = (Throws e, s1) → try_catch m h s = h e s1.
Proof. unfold try_catch. by intros ->. Qed.

End MonadFacts.

Section ProviderProperties.

Context {any World : Type} {builtins : Builtins any} {host : Host any World}.

Implicit Types (w : World) (s : PState World).
Implicit Types (this : LightRAGContextProvider World).

Lemma call_eq {A} (c : Call) (m : M World A) s r w' :
  m (world s) = (r, w') →
  call c m s = (r, {| world := w'; calls := calls s ++ [c] |}).
Proof. unfold call. by intros ->. Qed.

Lemma trackEmbeddingUsage_returns aiId prov modelId n w :
  ∃ w', trackEmbeddingUsage aiId prov modelId n w = (Returns (), w').
Proof.
  unfold trackEmbeddingUsage, try_catch.
  destruct (_ || _); [by eexists |].
  unfold bind, now.
  destruct (usageInsert _ _ _ _) as [[?|?] ?]; by eexists.
Qed.

Lemma summarizeWebResults_eq searchContext instanceId s :
  summarizeWebResults searchContext instanceId s
  = (Returns (summaryOf (routeModelCall (summaryRequest searchContext instanceId) (world s)).1),
     {| world := (routeModelCall (summaryRequest searchContext instanceId) (world s)).2;
        calls := calls s ++ [CallRouteModel (summaryRequest searchContext instanceId)] |}).
Proof.
  unfold summarizeWebResults, try_catch, bind, call, summaryOf, summarized.
  destruct (routeModelCall _ _) as [[resp|e] w']; simpl; [| done].
  by destruct (success resp), (truthy (str_or (data_content resp) "")).
Qed.

Lemma trackSummarizationUsage_eq this instanceId u s :
  trackSummarizationUsage this instanceId u s
  = (Returns (),
     {| world := (usageInsert (supabaseUrl this) (supabaseKey this)
                    (summarizationRow instanceId u (nowISO (world s))) (world s)).2;
        calls := calls s ++ [CallUsageInsert (summarizationRow instanceId u (nowISO (world s)))] |}).
Proof.
  unfold trackSummarizationUsage, try_catch, bind, call.
  by destruct (usageInsert _ _ _ _) as [[?|?] ?].
Qed.

End ProviderProperties.

(** ** The exits of [getContext] before the fallback *)

Section Invocation.

Context {any World : Type} {builtins : Builtins any} {host : Host any World}.

Variables (this : LightRAGContextProvider World) (query : string).
Variables (opts : GetContextOptions any) (s : PState World).

Local Notation instanceId := (str_or (aiInstanceId opts) "").
Local Notation load :=
  (loadRagConfig (supabaseUrl this) (supabaseKey this) instanceId (world s)).

Lemma getContext_total options :
  ∃ r s', getContext this query options s = (Returns r, s').
Proof.
  unfold getContext, try_catch.
  destruct (getContextBody this query options s) as [[r | e] s']; by eexists _, _.
Qed.

Lemma getContext_body_throws options e s1 :
  getContextBody this query options s = (Throws e, s1) →
  getContext this query options s = (Returns (diagnostic e), s1).
Proof. intros H. unfold getContext. by rewrite (try_catch_throws _ _ _ _ _ H). Qed.

Lemma getContext_body_returns options r s1 :
  getContextBody this query options s = (Returns r, s1) →
  getContext this query options s = (Returns r, s1).
Proof. intros H. unfold getContext. by rewrite (try_catch_returns _ _ _ _ _ H). Qed.

Lemma getContext_without_options :
  getContext this query None s
  = (Returns (diagnostic (Error (nullPropertyMessage "aiInstanceId"))), s).
Proof. by apply getContext_body_throws. Qed.

Lemma getContext_without_instance :
  truthy instanceId = false →
  getContext this query (Some opts) s
  = (Returns (diagnostic (Error "aiInstanceId is required")), s).
Proof.
  intros H. apply getContext_body_throws.
  unfold getContextBody, property, bind, ret. by rewrite H.
Qed.

Lemma getContext_config_throws e w1 :
  truthy instanceId = true →
  load = (Throws e, w1) →
  getContext this query (Some opts) s
  = (Returns (diagnostic e),
     {| world := w1; calls := calls s ++ [CallLoadConfig instanceId] |}).
Proof.
  intros H Hload. apply getContext_body_throws.
  unfold getContextBody, property, bind at 1, ret. rewrite H. simpl.
  apply bind_throws. by apply call_eq.
Qed.

Variables (ragConfig : option RagConfig) (w1 : World).

Local Notation cfg := (settings ragConfig opts).
Local Notation s1 :=
  {| world := w1; calls := calls s ++ [CallLoadConfig instanceId] |}.

Lemma getContextBody_configured :
  truthy instanceId = true →
  load = (Returns ragConfig, w1) →
  getContextBody this query (Some opts) s
  = bind (embedQuery cfg query instanceId)
      (λ emb,
         do contextResult <-
           generateContext emb (retrievalOptions cfg opts instanceId)
             (Some (contextOptions cfg));
         if bool_decide (0 < length (sources contextResult))
         then ret (ofContextResult contextResult)
         else
           do found <- (if enableFallbackSearch cfg
                        then fallbackSearch this query instanceId (trackTokenUsage cfg)
                        else ret None);
           match found with
           | Some r => ret r
           | None => ret (ofContextResult contextResult)
           end) s1.
Proof.
  intros H Hload.
  unfold getContextBody, property, bind at 1, ret. rewrite H. simpl.
  by rewrite (bind_returns _ _ _ _ _ (call_eq _ _ _ _ _ Hload)).
Qed.

Variable (provider : EmbeddingProvider).

Hypothesis Hprovider :
  createEmbeddingProvider (Some (embeddingProvider cfg))
    (Some (embeddingModel cfg)) (Some trackUsageOnly) = Returns provider.

Lemma embedQuery_throws e w2 :
  generateEmbedding provider query (Some instanceId) w1 = (Throws e, w2) →
  embedQuery cfg query instanceId s1
  = (Throws (Error ("Failed to generate embedding: " +:+ message_or "Unknown error" e)),
     {| world := w2;
        calls := calls s ++ [CallLoadConfig instanceId; CallGenerateEmbedding query] |}).
Proof.
  intros Hgen. unfold embedQuery, try_catch, bind, settle, call.
  rewrite Hprovider. simpl. rewrite Hgen. simpl.
  unfold throw. by rewrite <- app_assoc.
Qed.

Lemma embedQuery_returns er w2 :
  generateEmbedding provider query (Some instanceId) w1 = (Returns er, w2) →
  embedQuery cfg query instanceId s1
  = (Returns (embedding er),
     {| world := w2;
        calls := calls s ++ [CallLoadConfig instanceId; CallGenerateEmbedding query] |}).
Proof.
  intros Hgen. unfold embedQuery, try_catch, bind, settle, call.
  rewrite Hprovider. simpl. rewrite Hgen. simpl.
  unfold ret. by rewrite <- app_assoc.
Qed.

Lemma getContext_embedding_throws e w2 :
  truthy instanceId = true →
  load = (Returns ragConfig, w1) →
  generateEmbedding provider query (Some instanceId) w1 = (Throws e, w2) →
  getContext this query (Some opts) s
  = (Returns (diagnostic (Error ("Failed to generate embedding: "
                                 +:+ message_or "Unknown error" e))),
     {| world := w2;
        calls := calls s ++ [CallLoadConfig instanceId; CallGenerateEmbedding query] |}).
Proof.
  intros H Hload Hgen. apply getContext_body_throws.
  rewrite (getContextBody_configured H Hload).
  apply bind_throws. by apply embedQuery_throws.
Qed.

Variables (er : EmbeddingResult) (w2 : World).

Local Notation retrieve :=
  (retrieveDocuments (embedding er) (retrievalOptions cfg opts instanceId) w2).
Local Notation primaryCalls :=
  [CallLoadConfig instanceId; CallGenerateEmbedding query; CallRetrieve].

Lemma getContext_retrieval_throws e w3 :
  truthy instanceId = true →
  load = (Returns ragConfig, w1) →
  generateEmbedding provider query (Some instanceId) w1 = (Returns er, w2) →
  retrieve = (Throws e, w3) →
  getContext this query (Some opts) s
  = (Returns (diagnostic e),
     {| world := w3; calls := calls s ++ primaryCalls |}).
Proof.
  intros H Hload Hgen Hret. apply getContext_body_throws.
  rewrite (getContextBody_configured H Hload).
  rewrite (bind_returns _ _ _ _ _ (embedQuery_returns _ _ Hgen)).
  apply bind_throws. unfold generateContext, bind, call. simpl.
  rewrite Hret. simpl. by rewrite <- app_assoc.
Qed.

Variables (rr : RetrievalResult any) (w3 : World).

Local Notation cr := (buildContext (documents rr) (Some (contextOptions cfg))).
Local Notation s3 := {| world := w3; calls := calls s ++ primaryCalls |}.

(** After a successful primary stage, [getContextBody] continues with the
    test of [sources.length] in the state [s3]. *)
Lemma getContextBody_retrieved :
  truthy instanceId = true →
  load = (Returns ragConfig, w1) →
  generateEmbedding provider query (Some instanceId) w1 = (Returns er, w2) →
  retrieve = (Returns rr, w3) →
  getContextBody this query (Some opts) s
  = (if bool_decide (0 < length (sources cr))
     then ret (ofContextResult cr)
     else
       do found <- (if enableFallbackSearch cfg
                    then fallbackSearch this query instanceId (trackTokenUsage cfg)
                    else ret None);
       match found with
       | Some r => ret r
       | None => ret (ofContextResult cr)
       end) s3.
Proof.
  intros H Hload Hgen Hret.
  rewrite (getContextBody_configured H Hload).
  rewrite (bind_returns _ _ _ _ _ (embedQuery_returns _ _ Hgen)).
  assert (generateContext (embedding er) (retrievalOptions cfg opts instanceId)
            (Some (contextOptions cfg))
            {| world := w2;
               calls := calls s ++ [CallLoadConfig instanceId; CallGenerateEmbedding query] |}
          = (Returns cr, s3)) as Hgc.
  { unfold generateContext, bind, call. simpl. rewrite Hret. simpl.
    unfold ret. by rewrite <- app_assoc. }
  by rewrite (bind_returns _ _ _ _ _ Hgc).
Qed.


(** ** A primary stage that ran to its end *)

Section Retrieved.

Hypothesis Hinstance : truthy instanceId = true.
Hypothesis Hload : load = (Returns ragConfig, w1).
Hypothesis Hgen :
  generateEmbedding provider query (Some instanceId) w1 = (Returns er, w2).
Hypothesis Hret : retrieve = (Returns rr, w3).

(** C5: when the primary retrieve-and-build stage yields a result with at
    least one source (as it does whenever retrieval returns at least one
    document), [getContext] returns that result at once: the context, the
    sources and the token count of the returned record are those of the
    result of [buildContext] on the retrieved documents, the only calls of
    the invocation are the three of the primary stage, and the web search and
    the model router are called zero times. *)
Theorem hit_returns_without_web_search :
  (documents rr ≠ [] → 0 < length (sources cr))
  ∧ (0 < length (sources cr) →
     getContext this query (Some opts) s
     = (Returns {| pr_context := context cr;
                   pr_sources := DocumentSource <$> sources cr;
                   pr_tokenCount := tokenCount cr |},
        {| world := w3;
           calls := calls s ++ [CallLoadConfig instanceId;
                                CallGenerateEmbedding query; CallRetrieve] |})
     ∧ webSearchCalls (calls s ++ [CallLoadConfig instanceId;
                                   CallGenerateEmbedding query; CallRetrieve])
       = webSearchCalls (calls s)
     ∧ routeModelCalls (calls s ++ [CallLoadConfig instanceId;
                                    CallGenerateEmbedding query; CallRetrieve])
       = routeModelCalls (calls s)).
Proof.
  split; [apply buildContext_nonempty |].
  intros Hhit. split; [| split].
  - apply getContext_body_returns.
    rewrite (getContextBody_retrieved Hinstance Hload Hgen Hret).
    by rewrite bool_decide_eq_true_2.
  - unfold webSearchCalls. rewrite filter_app, length_app. simpl. lia.
  - unfold routeModelCalls. rewrite filter_app, length_app. simpl. lia.
Qed.

Hypothesis Hnone : documents rr = [].

Lemma primary_empty : ofContextResult cr = emptyContext.
Proof. rewrite Hnone. by rewrite buildContext_nil. Qed.

Lemma getContextBody_miss :
  getContextBody this query (Some opts) s
  = (do found <- (if enableFallbackSearch cfg
                  then fallbackSearch this query instanceId (trackTokenUsage cfg)
                  else ret None);
     match found with
     | Some r => ret r
     | None => ret emptyContext
     end) s3.
Proof.
  rewrite (getContextBody_retrieved Hinstance Hload Hgen Hret).
  rewrite primary_empty. rewrite Hnone, buildContext_nil by done. done.
Qed.

(** With the fallback disabled, an empty retrieval is answered by the empty
    context, and the web search is not called. *)
Lemma getContext_fallback_disabled :
  enableFallbackSearch cfg = false →
  getContext this query (Some opts) s = (Returns emptyContext, s3).
Proof.
  intros Hoff. apply getContext_body_returns.
  rewrite getContextBody_miss, Hoff. done.
Qed.

Hypothesis Hfallback : enableFallbackSearch cfg = true.

Local Notation search :=
  (braveSearchProvider this query (Some (searchOptions instanceId)) w3).

(** A web search that throws is answered by the empty context. *)
Lemma getContext_search_throws e w4 :
  search = (Throws e, w4) →
  getContext this query (Some opts) s
  = (Returns emptyContext,
     {| world := w4; calls := calls s ++ primaryCalls ++ [CallWebSearch query] |}).
Proof.
  intros Hweb. apply getContext_body_returns.
  rewrite getContextBody_miss, Hfallback.
  unfold fallbackSearch, try_catch, bind, call. simpl. rewrite Hweb. simpl.
  unfold ret. by rewrite <- app_assoc.
Qed.


Variables (wc : WebContext) (w4 : World).
Variables (o : Outcome McpResponse) (w5 : World).

Hypothesis Hweb : search = (Returns wc, w4).
Hypothesis Hcontent : truthy (wc_context wc) = true.
Hypothesis Hroute :
  routeModelCall (summaryRequest (wc_context wc) instanceId) w4 = (o, w5).

Local Notation request := (summaryRequest (wc_context wc) instanceId).
Local Notation row := (summarizationRow instanceId (summaryOf o) (nowISO w5)).

Lemma getContext_search_with_content :
  getContext this query (Some opts) s
  = (Returns {| pr_context := summary (summaryOf o);
                pr_sources := WebSource <$> wc_sources wc;
                pr_tokenCount := su_totalTokens (summaryOf o) |},
     if trackTokenUsage cfg
     then {| world := (usageInsert (supabaseUrl this) (supabaseKey this) row w5).2;
             calls := calls s ++ primaryCalls
                      ++ [CallWebSearch query; CallRouteModel request;
                          CallUsageInsert row] |}
     else {| world := w5;
             calls := calls s ++ primaryCalls
                      ++ [CallWebSearch query; CallRouteModel request] |}).
Proof.
  apply getContext_body_returns.
  rewrite getContextBody_miss, Hfallback.
  unfold fallbackSearch, try_catch.
  destruct (trackTokenUsage cfg);
    unfold bind at 1 2 3, call; simpl; rewrite Hweb; simpl; rewrite Hcontent;
    rewrite summarizeWebResults_eq; simpl; rewrite Hroute; simpl.
  - unfold bind. rewrite trackSummarizationUsage_eq. simpl.
    unfold ret. by rewrite <- !app_assoc.
  - unfold bind, ret. simpl. by rewrite <- !app_assoc.
Qed.

(** The same, with the calls counted. *)
Lemma getContext_search_with_content_counted :
  ∃ s',
    getContext this query (Some opts) s
    = (Returns {| pr_context := summary (summaryOf o);
                  pr_sources := WebSource <$> wc_sources wc;
                  pr_tokenCount := su_totalTokens (summaryOf o) |}, s')
    ∧ webSearchCalls (calls s') = webSearchCalls (calls s) + 1
    ∧ routeModelCalls (calls s') = routeModelCalls (calls s) + 1.
Proof.
  eexists. split; [apply getContext_search_with_content |].
  unfold webSearchCalls, routeModelCalls.
  destruct (trackTokenUsage cfg); simpl;
    rewrite !filter_app, !length_app; simpl; lia.
Qed.

(** C8: when retrieval yields no document, the fallback is enabled, the web
    search returns content and the summarization succeeds, the model router
    is called exactly once (and the web search once); the result carries the
    summary followed by the note that the information is from web search and
    may not be accurate, the sources of the web search unchanged, and the
    [totalTokens] of the summarization usage as its token count (0 when the
    response reports no usage). *)
Theorem fallback_summary_result (response : McpResponse) (content : string) :
  o = Returns response →
  success response = true →
  data_content response = Some content →
  truthy content = true →
  (∃ s',
     getContext this query (Some opts) s
     = (Returns {| pr_context :=
                     content +:+ LF +:+ LF
                     +:+ "(This information is from web search results and may not be fully accurate. Refer to the original sources for verification.)";
                   pr_sources := WebSource <$> wc_sources wc;
                   pr_tokenCount := nat_or (usage response ≫= totalTokens) 0 |},
        s')
     ∧ routeModelCalls (calls s') = routeModelCalls (calls s) + 1
     ∧ webSearchCalls (calls s') = webSearchCalls (calls s) + 1)
  ∧ (∀ u n, usage response = Some u → totalTokens u = Some n →
            nat_or (usage response ≫= totalTokens) 0 = n).
Proof.
  intros Ho Hok Hdata Htruthy. split.
  - destruct getContext_search_with_content_counted as (s' & Heq & Hws & Hrm).
    exists s'. split; [| done]. rewrite Heq. subst o.
    unfold summaryOf, summarized. rewrite Hok, Hdata.
    cbn [str_or]. rewrite Htruthy. cbn [andb]. by rewrite Htruthy.
  - intros u n -> Hn. simpl. rewrite Hn. by destruct n.
Qed.

(** C2, as the code has it: when retrieval yields no document, the fallback
    is enabled, the web search returns content and the summarization call
    fails, [getContext] does not raise; it returns the placeholder text of
    [summarizeWebResults] as the context, with the sources of the web search
    and a token count of 0. *)
Theorem summarization_failure_result :
  summarizationFails o = true →
  ∃ s',
    getContext this query (Some opts) s
    = (Returns {| pr_context := "Unable to summarize web search results due to an error.";
                  pr_sources := WebSource <$> wc_sources wc;
                  pr_tokenCount := 0 |}, s')
    ∧ routeModelCalls (calls s') = routeModelCalls (calls s) + 1.
Proof.
  intros Hfail.
  destruct getContext_search_with_content_counted as (s' & Heq & Hws & Hrm).
  exists s'. split; [| done]. rewrite Heq.
  assert (summaryOf o = placeholderSummary) as ->; [| done].
  destruct o as [response | e]; simpl in *; [| done].
  by destruct (summarized response).
Qed.

End Retrieved.

End Invocation.

(* ===================================================================== *)
(** * The context builder: deduplication, token count, empty contexts    *)
(* ===================================================================== *)

Section BuilderClaims.

Context {any : Type} {builtins : Builtins any}.

Implicit Types (d : Document any) (docs : list (Document any)).
Implicit Types (o : MergedOptions).

(** C6: with [deduplicate = true], the documents of the input that share a
    fingerprint (the first 100 characters of the content) contribute exactly
    one document to the output of [buildContext], the first of them in input
    order, whatever the scores; so two documents with one fingerprint, given
    in the order [d1; d2], yield [d1] alone. *)
Theorem dedup_keeps_first_of_input (options : option ContextBuilderOptions) :
  deduplicate (mergeOptions options) = Some true →
  (∀ docs f d,
     head (withFingerprint f docs) = Some d →
     withFingerprint f (sources (buildContext docs options)) = [d])
  ∧ (∀ d1 d2,
       contentFingerprint d1 = contentFingerprint d2 →
       sources (buildContext [d1; d2] options) = [d1]).
Proof.
  intros Hdedup.
  assert (∀ docs, processed docs options = deduplicateDocuments docs) as Hproc.
  { intros docs. unfold processed. by rewrite Hdedup. }
  split.
  - intros docs f d Hhead.
    rewrite buildContext_sources, Hproc. unfold withFingerprint in *.
    apply Permutation_singleton_r.
    rewrite (sort_perm byScoreDesc (deduplicateDocuments docs)).
    fold (withFingerprint f (deduplicateDocuments docs)).
    rewrite deduplicateDocuments_fingerprint. unfold withFingerprint.
    destruct (filter _ docs) as [|d' l]; simplify_eq/=. done.
  - intros d1 d2 Hfp.
    rewrite buildContext_sources, Hproc.
    unfold deduplicateDocuments. simpl. unfold dedupStep at 2. simpl.
    rewrite decide_False by set_solver.
    unfold dedupStep. simpl. rewrite decide_True by set_solver. done.
Qed.

(** C7: for every document list and every combination of options, in the
    JSON and in the plain-text rendering, [tokenCount] is the sum over the
    emitted documents (the [sources], a rearrangement of the documents left
    by the optional deduplication) of [ceil(content.length / 4)]; metadata
    and separators add nothing to it. *)
Theorem tokenCount_sums_emitted_contents docs
    (options : option ContextBuilderOptions) :
  tokenCount (buildContext docs options)
  = sum_list ((λ d, ceil_div (String.length (doc_content d)) 4)
              <$> sources (buildContext docs options))
  ∧ sources (buildContext docs options) ≡ₚ processed docs options.
Proof.
  split; [apply buildContext_tokenCount |].
  rewrite buildContext_sources. apply sort_perm.
Qed.

Lemma textStep_context_empty o d st :
  bs_context (textStep o st d) = "" ↔ bs_context st = "" ∧ addsNothing o d.
Proof.
  unfold textStep, addsNothing. simpl.
  rewrite append_empty.
  destruct (truthy (bs_context st)) eqn:Hctx.
  - apply truthy_true in Hctx.
    destruct (default false (includeMetadata o));
      [destruct (truthy (metadataStr d)) |];
      rewrite ?append_empty; naive_solver.
  - apply truthy_false in Hctx.
    destruct (default false (includeMetadata o)).
    + destruct (truthy (metadataStr d)) eqn:Hm.
      * apply truthy_true in Hm. rewrite !append_empty. naive_solver.
      * apply truthy_false in Hm. naive_solver.
    + naive_solver.
Qed.

Lemma textStep_foldl_context_empty o docs : ∀ st,
  bs_context (foldl (textStep o) st docs) = ""
  ↔ bs_context st = "" ∧ Forall (addsNothing o) docs.
Proof.
  induction docs as [|d docs IH]; intros st; simpl.
  - rewrite Forall_nil. naive_solver.
  - rewrite IH, textStep_context_empty, Forall_cons. naive_solver.
Qed.

(** In the plain-text rendering the context of [buildContext] is the empty
    string exactly when every emitted document has an empty content and gets
    no metadata line. *)
Lemma buildContext_empty_context docs (options : option ContextBuilderOptions) :
  formatAsJson (mergeOptions options) = Some false →
  (context (buildContext docs options) = ""
   ↔ Forall (addsNothing (mergeOptions options))
            (sources (buildContext docs options)))
  ∧ (sources (buildContext docs options) = [] →
     context (buildContext docs options) = "")
  ∧ (∀ d, d ∈ sources (buildContext docs options) → doc_content d ≠ "" →
          context (buildContext docs options) ≠ "").
Proof.
  intros Hfmt.
  assert (context (buildContext docs options) = ""
          ↔ Forall (addsNothing (mergeOptions options))
                   (sources (buildContext docs options))) as Hiff.
  { rewrite buildContext_sources. unfold buildContext, processed.
    rewrite Hfmt. simpl. rewrite textStep_foldl_context_empty. naive_solver. }
  split; [done |]. split.
  - intros Hnil. apply Hiff. rewrite Hnil. constructor.
  - intros d Hin Hcontent Hempty. apply Hiff in Hempty.
    rewrite Forall_forall in Hempty. destruct (Hempty d Hin). done.
Qed.

End BuilderClaims.

(* ===================================================================== *)
(** * The embedding providers                                             *)
(* ===================================================================== *)

Section EmbedderClaims.

Context {any World : Type} {builtins : Builtins any} {host : Host any World}.

(** C4, as the code has it: for a provider name that is neither 'bedrock'
    nor 'fireworks' once in lower case, [createEmbeddingProvider] does not
    fail: it returns the Fireworks provider, with the model asked for or
    'deepseek-v3'. *)
Theorem unrecognized_provider_defaults_to_fireworks (name : string)
    (modelId : option string) (config : option ProviderConfig) :
  toLowerCase name ≠ "bedrock" →
  toLowerCase name ≠ "fireworks" →
  createEmbeddingProvider (Some name) modelId config
  = Returns (Fireworks (newFireworksEmbedder
                          (Some (str_or modelId "deepseek-v3"))
                          (config ≫= pc_apiKey) (config ≫= pc_trackUsage))).
Proof.
  intros Hb Hf. unfold createEmbeddingProvider. simpl.
  destruct (truthy (toLowerCase name)).
  - rewrite decide_False by done. by rewrite decide_False by done.
  - rewrite decide_False by done. by rewrite decide_True by done.
Qed.

Lemma mockEmbedding_length (seed : nat) : length (mockEmbedding seed) = 1536.
Proof. unfold mockEmbedding. by rewrite length_map, length_seq. Qed.

Lemma Bedrock_generateEmbedding_returns (this : BedrockEmbedder)
    (text : string) (aiInstanceId : option string) (w : World) :
  truthy (be_accessKeyId this) = true →
  truthy (be_secretAccessKey this) = true →
  ∃ w', Bedrock_generateEmbedding this text aiInstanceId w
        = (Returns {| embedding := mockEmbedding (String.length text);
                      emb_tokenCount := ceil_div (String.length text) 4 |}, w').
Proof.
  intros Hk Hs. unfold Bedrock_generateEmbedding, try_catch, bind.
  rewrite Hk, Hs. simpl.
  destruct (be_trackUsage this && truthy (str_or aiInstanceId "")).
  - destruct (trackEmbeddingUsage_returns (str_or aiInstanceId "") "bedrock"
                (be_modelId this) (ceil_div (String.length text) 4) w)
      as [w' ->]. by eexists.
  - by eexists.
Qed.

(** C10: with its credentials present, the Bedrock provider returns; the
    vector it returns has 1536 components and depends on the text through
    its length only, so two texts of equal length get the same vector (also
    for different instances and states of the world); the token count is
    [ceil(length / 4)]. *)
Theorem Bedrock_embedding_depends_on_length_only (this : BedrockEmbedder)
    (text1 text2 : string) (aiInstanceId1 aiInstanceId2 : option string)
    (w1 w2 : World) :
  truthy (be_accessKeyId this) = true →
  truthy (be_secretAccessKey this) = true →
  String.length text1 = String.length text2 →
  ∃ r1 r2 w1' w2',
    Bedrock_generateEmbedding this text1 aiInstanceId1 w1 = (Returns r1, w1')
    ∧ Bedrock_generateEmbedding this text2 aiInstanceId2 w2 = (Returns r2, w2')
    ∧ embedding r1 = embedding r2
    ∧ length (embedding r1) = 1536
    ∧ emb_tokenCount r1 = ceil_div (String.length text1) 4
    ∧ emb_tokenCount r2 = ceil_div (String.length text2) 4.
Proof.
  intros Hk Hs Hlen.
  destruct (Bedrock_generateEmbedding_returns this text1 aiInstanceId1 w1 Hk Hs)
    as [w1' H1].
  destruct (Bedrock_generateEmbedding_returns this text2 aiInstanceId2 w2 Hk Hs)
    as [w2' H2].
  eexists _, _, w1', w2'. split; [exact H1 |]. split; [exact H2 |].
  cbn [embedding emb_tokenCount]. rewrite Hlen. split; [done |]. split; [apply mockEmbedding_length | done].
Qed.

End EmbedderClaims.

(* ===================================================================== *)
(** * The web search provider                                             *)
(* ===================================================================== *)

Section TrimFacts.

Lemma trimStart_rev_app (s acc : string) :
  trimStart acc ≠ "" → trimStart (String.rev_app s acc) ≠ "".
Proof.
  revert acc. induction s as [|c s IH]; intros acc Hacc; simpl; [done |].
  apply IH. simpl. by destruct (is_white c).
Qed.

Lemma rev_app_nonempty (s acc : string) : acc ≠ "" → String.rev_app s acc ≠ "".
Proof.
  revert acc. induction s as [|c s IH]; intros acc Hacc; simpl; [done |].
  by apply IH.
Qed.

Lemma rev_nonempty (s : string) : s ≠ "" → String.rev s ≠ "".
Proof.
  destruct s as [|c s]; [done |]. intros _. unfold String.rev. simpl.
  by apply rev_app_nonempty.
Qed.

(** A string that starts with a character that is not white space keeps it
    under [trim]. *)
Lemma trim_nonempty (c : ascii) (s : string) :
  is_white c = false → trim (String c s) ≠ "".
Proof.
  intros Hc. unfold trim, trimEnd. simpl. rewrite Hc.
  apply rev_nonempty. unfold String.rev. simpl.
  apply trimStart_rev_app. simpl. by rewrite Hc.
Qed.

(** The same for a template literal that opens with a line feed. *)
Lemma trim_after_LF (c : ascii) (s t : string) :
  is_white c = false → trim (LF +:+ String c s +:+ t) ≠ "".
Proof.
  intros Hc.
  change (LF +:+ String c s +:+ t)
    with (String (ascii_of_nat 10) (String c (s +:+ t))).
  unfold trim.
  change (trimStart (String (ascii_of_nat 10) (String c (s +:+ t))))
    with (trimStart (String c (s +:+ t))).
  by apply trim_nonempty.
Qed.

End TrimFacts.

Section SearchClaims.

Context {any World : Type} {builtins : Builtins any} {host : Host any World}.

Lemma slice0_Forall {A} (P : A → Prop) (n : Z) (l : list A) :
  Forall P l → Forall P (slice0 n l).
Proof. intros H. unfold slice0. case_bool_decide; by apply Forall_take. Qed.

Lemma slice0_length {A} (n : Z) (l : list A) : length (slice0 n l) ≤ length l.
Proof. unfold slice0. case_bool_decide; rewrite length_take; lia. Qed.

(** The mock results: at most two sources, each with a content that is not
    empty and an address at example.com, and a context that is not empty. *)
Lemma getMockResults_shape (query : string) (maxResults : option Z) :
  length (wc_sources (getMockResults query maxResults)) ≤ 2
  ∧ Forall (λ c, cs_content c ≠ ""
                 ∧ ∃ path, cs_url c = "https://example.com/" +:+ path)
           (wc_sources (getMockResults query maxResults))
  ∧ truthy (wc_context (getMockResults query maxResults)) = true.
Proof.
  unfold getMockResults. cbn [wc_sources wc_context]. split; [| split].
  - etrans; [apply slice0_length | done].
  - apply slice0_Forall. repeat constructor; simpl; try done.
    + by exists "search-result-1".
    + by exists "search-result-2".
  - apply truthy_true. by apply trim_after_LF.
Qed.

Lemma Brave_getContext_total (query : string) (options : option SearchOptions)
    (w : World) :
  ∃ r w', Brave_getContext query options w = (Returns r, w').
Proof.
  unfold Brave_getContext, try_catch.
  match goal with |- context [match ?m w with _ => _ end] =>
    destruct (m w) as [[r | e] w'] end; by eexists _, _.
Qed.

(** C9: [BraveSearchProvider.getContext] never throws.  Without an API key
    it returns the mock results (for the number of results asked for, 5 by
    default); when the call of the search API fails ([fetch] rejects, the
    response is not [ok], or its body does not parse) it returns the mock
    results too.  The mock results have at most two sources, with non-empty
    contents and example.com addresses, and a non-empty context.  So the
    search provider of a new [LightRAGContextProvider] never throws. *)
Theorem Brave_getContext_never_throws (query : string) :
  (∀ options w, ∃ r w', Brave_getContext query options w = (Returns r, w'))
  ∧ (∀ opts w,
       truthy (str_or (BRAVE_SEARCH_API_KEY env) "") = false →
       Brave_getContext query (Some opts) w
       = (Returns (getMockResults query (Some (Z_or (so_maxResults opts) 5%Z))), w))
  ∧ (∀ opts w r w',
       truthy (str_or (BRAVE_SEARCH_API_KEY env) "") = true →
       braveFetch query (pretty (Z_or (so_maxResults opts) 5%Z))
         (str_or (BRAVE_SEARCH_API_KEY env) "") w = (r, w') →
       apiCallFails r = true →
       Brave_getContext query (Some opts) w
       = (Returns (getMockResults query None), w'))
  ∧ (∀ maxResults,
       length (wc_sources (getMockResults query maxResults)) ≤ 2
       ∧ Forall (λ c, cs_content c ≠ ""
                      ∧ ∃ path, cs_url c = "https://example.com/" +:+ path)
                (wc_sources (getMockResults query maxResults))
       ∧ truthy (wc_context (getMockResults query maxResults)) = true)
  ∧ (∀ options w, ∃ r w',
       braveSearchProvider newLightRAGContextProvider query options w
       = (Returns r, w')).
Proof.
  split; [apply Brave_getContext_total |]. split; [| split; [| split]].
  - intros opts w Hkey. unfold Brave_getContext, try_catch, bind, property, ret.
    by rewrite Hkey.
  - intros opts w r w' Hkey Hfetch Hfail.
    unfold Brave_getContext, try_catch, bind, property, ret, settle.
    rewrite Hkey. simpl. rewrite Hfetch.
    destruct r as [response | e]; simpl in *; [| done].
    destruct (br_ok response); simpl in *; [| done].
    by destruct (br_json response).
  - apply getMockResults_shape.
  - intros options w. apply Brave_getContext_total.
Qed.

End SearchClaims.


(* ===================================================================== *)
(** * The exits of the provider                                           *)
(* ===================================================================== *)

Section Exits.

Context {any World : Type} {builtins : Builtins any} {host : Host any World}.

Implicit Types (s : PState World) (this : LightRAGContextProvider World).

(** The fallback never throws, and what it finds is a summary (or the
    placeholder) with the sources of a web search that returned content. *)
Lemma fallbackSearch_exits this query instanceId track s :
  ∃ found s',
    fallbackSearch this query instanceId track s = (Returns found, s')
    ∧ ∀ r, found = Some r →
        ∃ wc o,
          truthy (wc_context wc) = true
          ∧ r = {| pr_context := summary (summaryOf o);
                   pr_sources := WebSource <$> wc_sources wc;
                   pr_tokenCount := su_totalTokens (summaryOf o) |}.
Proof.
  unfold fallbackSearch, try_catch, bind at 1, call.
  destruct (braveSearchProvider this query _ (world s)) as [[wc | e] w4];
    cbn [fst snd]; [| by eexists None, _].
  destruct (truthy (wc_context wc)) eqn:Hcontent; [| by eexists None, _].
  unfold bind at 1. rewrite summarizeWebResults_eq.
  unfold bind. destruct track.
  - rewrite trackSummarizationUsage_eq. eexists (Some _), _.
    split; [reflexivity |]. intros r [= <-]. by eexists wc, _.
  - eexists (Some _), _.
    split; [reflexivity |]. intros r [= <-]. by eexists wc, _.
Qed.

(** Every exit of [getContext]: the diagnostic of the outer handler, the
    result of [buildContext] in the plain-text rendering, or the summary of a
    web search. *)
Lemma getContext_exits this query options s r s' :
  getContext this query options s = (Returns r, s') →
  (∃ e, r = diagnostic e)
  ∨ (∃ docs cfg, r = ofContextResult (buildContext docs (Some (contextOptions cfg))))
  ∨ (∃ wc o,
       truthy (wc_context wc) = true
       ∧ r = {| pr_context := summary (summaryOf o);
                pr_sources := WebSource <$> wc_sources wc;
                pr_tokenCount := su_totalTokens (summaryOf o) |}).
Proof.
  unfold getContext, try_catch.
  destruct (getContextBody this query options s) as [[r0 | e] s0] eqn:Hbody;
    intros [= <- <-]; [| left; by eexists].
  right. revert Hbody.
  unfold getContextBody, property.
  destruct options as [opts |]; [| done].
  unfold bind at 1, ret at 1.
  destruct (negb _); [done |].
  unfold bind at 1.
  destruct (call _ _ s) as [[ragConfig | e] s1]; [| done].
  unfold bind at 1.
  destruct (embedQuery _ _ _ s1) as [[emb | e] s2]; [| done].
  unfold bind at 1, generateContext, bind at 1.
  destruct (call CallRetrieve _ s2) as [[rr | e] s3]; [| done].
  unfold ret at 1.
  destruct (bool_decide _).
  { intros [= <- <-]. left. by eexists _, _. }
  unfold bind.
  destruct (enableFallbackSearch _).
  - destruct (fallbackSearch_exits this query (str_or (aiInstanceId opts) "")
                (trackTokenUsage (settings ragConfig opts)) s3)
      as (found & s4 & -> & Hfound).
    destruct found as [r' |].
    + intros [= <- <-]. right. by apply Hfound.
    + intros [= <- <-]. left. by eexists _, _.
  - intros [= <- <-]. left. by eexists _, _.
Qed.

(** C3, as the code has it.  In the plain-text rendering (the one
    [getContext] asks for) the context of [buildContext] is the empty string
    exactly when every emitted document has an empty content and gets no
    metadata line; so a result without sources has an empty context, and a
    result with a source of non-empty content has a non-empty context.  A
    result of [getContext] without sources has an empty context, or is the
    diagnostic of the outer handler, or carries the summary (or the
    placeholder) of a web search that returned content and no sources.  An
    empty context with sources remains possible. *)
Theorem empty_context_characterised :
  (∀ (docs : list (Document any)) (options : option ContextBuilderOptions),
     formatAsJson (mergeOptions options) = Some false →
     (context (buildContext docs options) = ""
      ↔ Forall (addsNothing (mergeOptions options))
               (sources (buildContext docs options)))
     ∧ (sources (buildContext docs options) = [] →
        context (buildContext docs options) = "")
     ∧ (∀ d, d ∈ sources (buildContext docs options) → doc_content d ≠ "" →
             context (buildContext docs options) ≠ ""))
  ∧ (∀ this query options s r s',
       getContext this query options s = (Returns r, s') →
       pr_sources r = [] →
       pr_context r = ""
       ∨ (∃ e, r = diagnostic e)
       ∨ (∃ wc o,
            wc_sources wc = []
            ∧ truthy (wc_context wc) = true
            ∧ pr_context r = summary (summaryOf o))).
Proof.
  split; [apply buildContext_empty_context |].
  intros this query options s r s' Hget Hnil.
  destruct (getContext_exits this query options s r s' Hget)
    as [[e ->] | [(docs & cfg & ->) | (wc & o & Hcontent & ->)]].
  - right. left. by eexists.
  - left. simpl in *. apply fmap_nil_inv in Hnil.
    by apply (buildContext_empty_context docs (Some (contextOptions cfg))).
  - right. right. simpl in *. apply fmap_nil_inv in Hnil. by exists wc, o.
Qed.

End Exits.

(* ===================================================================== *)
(** * The provider never raises                                           *)
(* ===================================================================== *)

Section NeverRaises.

Context {any World : Type} {builtins : Builtins any} {host : Host any World}.

(** C1, as the code has it: [getContext] never raises: for every query,
    options and state it returns a result.  When the options or the instance
    id are missing, or the configuration lookup, the embedding or the
    retrieval throws, the result is the diagnostic of the outer handler:
    the (trimmed) text "Unable to retrieve ... error: <message>" as context,
    no sources, and [ceil(length / 4)] of that text as token count.  Every
    result is that diagnostic, a result of [buildContext], or the summary
    (or the placeholder) of a web search with its sources. *)
Theorem getContext_never_raises (this : LightRAGContextProvider World)
    (query : string) :
  (∀ options s, ∃ r s', getContext this query options s = (Returns r, s'))
  ∧ (∀ s, getContext this query None s
          = (Returns (diagnostic (Error (nullPropertyMessage "aiInstanceId"))), s))
  ∧ (∀ opts s,
       truthy (str_or (aiInstanceId opts) "") = false →
       getContext this query (Some opts) s
       = (Returns (diagnostic (Error "aiInstanceId is required")), s))
  ∧ (∀ opts s e w1,
       truthy (str_or (aiInstanceId opts) "") = true →
       loadRagConfig (supabaseUrl this) (supabaseKey this)
         (str_or (aiInstanceId opts) "") (world s) = (Throws e, w1) →
       (getContext this query (Some opts) s).1 = Returns (diagnostic e))
  ∧ (∀ opts s ragConfig w1 provider e w2,
       truthy (str_or (aiInstanceId opts) "") = true →
       loadRagConfig (supabaseUrl this) (supabaseKey this)
         (str_or (aiInstanceId opts) "") (world s) = (Returns ragConfig, w1) →
       createEmbeddingProvider
         (Some (embeddingProvider (settings ragConfig opts)))
         (Some (embeddingModel (settings ragConfig opts)))
         (Some trackUsageOnly) = Returns provider →
       generateEmbedding provider query
         (Some (str_or (aiInstanceId opts) "")) w1 = (Throws e, w2) →
       (getContext this query (Some opts) s).1
       = Returns (diagnostic (Error ("Failed to generate embedding: "
                                     +:+ message_or "Unknown error" e))))
  ∧ (∀ opts s ragConfig w1 provider er w2 e w3,
       truthy (str_or (aiInstanceId opts) "") = true →
       loadRagConfig (supabaseUrl this) (supabaseKey this)
         (str_or (aiInstanceId opts) "") (world s) = (Returns ragConfig, w1) →
       createEmbeddingProvider
         (Some (embeddingProvider (settings ragConfig opts)))
         (Some (embeddingModel (settings ragConfig opts)))
         (Some trackUsageOnly) = Returns provider →
       generateEmbedding provider query
         (Some (str_or (aiInstanceId opts) "")) w1 = (Returns er, w2) →
       retrieveDocuments (embedding er)
         (retrievalOptions (settings ragConfig opts) opts
            (str_or (aiInstanceId opts) "")) w2 = (Throws e, w3) →
       (getContext this query (Some opts) s).1 = Returns (diagnostic e))
  ∧ (∀ options s r s',
       getContext this query options s = (Returns r, s') →
       (∃ e, r = diagnostic e)
       ∨ (∃ docs cfg,
            r = ofContextResult (buildContext docs (Some (contextOptions cfg))))
       ∨ (∃ wc o,
            truthy (wc_context wc) = true
            ∧ r = {| pr_context := summary (summaryOf o);
                     pr_sources := WebSource <$> wc_sources wc;
                     pr_tokenCount := su_totalTokens (summaryOf o) |}))
  ∧ (∀ e,
       pr_context (diagnostic (any:=any) e)
       = trim (LF +:+ "Unable to retrieve contextual information from documents at this time. The RAG system encountered an error: "
               +:+ message_or "Unknown error" e +:+ LF +:+ "      ")
       ∧ pr_sources (diagnostic (any:=any) e) = []
       ∧ pr_tokenCount (diagnostic (any:=any) e)
         = ceil_div (String.length (pr_context (diagnostic (any:=any) e))) 4).
Proof.
  split; [intros; apply getContext_total |].
  split; [intros; apply getContext_without_options |].
  split; [intros; by apply getContext_without_instance |].
  split; [| split; [| split; [| split]]].
  - intros opts s e w1 H Hload.
    by rewrite (getContext_config_throws this query opts s e w1 H Hload).
  - intros opts s ragConfig w1 provider e w2 H Hload Hprov Hgen.
    by rewrite (getContext_embedding_throws this query opts s ragConfig w1
                  provider Hprov e w2 H Hload Hgen).
  - intros opts s ragConfig w1 provider er w2 e w3 H Hload Hprov Hgen Hret.
    by rewrite (getContext_retrieval_throws this query opts s ragConfig w1
                  provider Hprov er w2 e w3 H Hload Hgen Hret).
  - intros options s r s'. apply getContext_exits.
  - done.
Qed.

End NeverRaises.

(* ===================================================================== *)
(** * Further properties of the context builder                           *)
(* ===================================================================== *)

Section StringFacts.

Lemma append_assoc (s1 s2 s3 : string) : (s1 +:+ s2) +:+ s3 = s1 +:+ s2 +:+ s3.
Proof.
  induction s1 as [|c s1 IH]; [done |]. by rewrite !append_cons, IH.
Qed.

Lemma length_append (s t : string) :
  String.length (s +:+ t) = String.length s + String.length t.
Proof.
  induction s as [|c s IH]; [done |]. rewrite append_cons. simpl. by rewrite IH.
Qed.

End StringFacts.

Section BuilderExtras.

Context {any : Type} {builtins : Builtins any}.

Implicit Types (d : Document any) (docs : list (Document any)).
Implicit Types (o : MergedOptions) (seen : gset string).

(** The loop of [deduplicateDocuments] from any state: what it appends is a
    sublist of its input, with pairwise distinct fingerprints, none of them
    seen before, and every fingerprint of the input is seen or kept. *)
Lemma dedup_foldl_invariant docs : ∀ seen (uniq : list (Document any)),
  ∃ seen' rest,
    foldl dedupStep (seen, uniq) docs = (seen', uniq ++ rest)
    ∧ rest `sublist_of` docs
    ∧ NoDup (contentFingerprint <$> rest)
    ∧ (∀ d, d ∈ rest → contentFingerprint d ∉ seen)
    ∧ (∀ d, d ∈ docs →
            contentFingerprint d ∈ seen
            ∨ ∃ d', d' ∈ rest ∧ contentFingerprint d' = contentFingerprint d).
Proof.
  induction docs as [|d docs IH]; intros seen uniq; simpl.
  - exists seen, []. rewrite app_nil_r. repeat split; try done.
    + constructor.
    + intros d Hd. by apply elem_of_nil in Hd.
    + intros d Hd. by apply elem_of_nil in Hd.
  - unfold dedupStep at 2. simpl.
    destruct (decide (contentFingerprint d ∈ seen)) as [Hin | Hin].
    + destruct (IH seen uniq) as (seen' & rest & Heq & Hsub & Hnd & Hfresh & Hcov).
      exists seen', rest. repeat split; try done.
      * by apply sublist_cons.
      * intros d' Hd'. apply elem_of_cons in Hd' as [-> | Hd']; [by left |].
        by apply Hcov.
    + destruct (IH ({[contentFingerprint d]} ∪ seen) (uniq ++ [d]))
        as (seen' & rest & Heq & Hsub & Hnd & Hfresh & Hcov).
      exists seen', (d :: rest). repeat split.
      * rewrite Heq. by rewrite <- app_assoc.
      * by apply sublist_skip.
      * rewrite fmap_cons. apply NoDup_cons. split; [| done].
        intros Hd. apply list_elem_of_fmap in Hd as (d' & Hfp & Hd').
        apply Hfresh in Hd'. set_solver.
      * intros d' Hd'. apply elem_of_cons in Hd' as [-> | Hd']; [done |].
        apply Hfresh in Hd'. set_solver.
      * intros d' Hd'. apply elem_of_cons in Hd' as [-> | Hd'].
        { right. exists d. split; [by left | done]. }
        destruct (Hcov d' Hd') as [Hs | (d'' & Hd'' & Hfp)].
        -- apply elem_of_union in Hs as [Hs | Hs]; [| by left].
           apply elem_of_singleton in Hs. right. exists d.
           split; [by left | done].
        -- right. exists d''. split; [by right | done].
Qed.

(** On documents with pairwise distinct fingerprints, none of them seen,
    the loop keeps every document. *)
Lemma dedup_foldl_distinct docs : ∀ seen (uniq : list (Document any)),
  NoDup (contentFingerprint <$> docs) →
  (∀ d, d ∈ docs → contentFingerprint d ∉ seen) →
  (foldl dedupStep (seen, uniq) docs).2 = uniq ++ docs.
Proof.
  induction docs as [|d docs IH]; intros seen uniq Hnd Hfresh; simpl.
  - by rewrite app_nil_r.
  - rewrite fmap_cons in Hnd. apply NoDup_cons in Hnd as [Hd Hnd].
    unfold dedupStep at 2. simpl.
    rewrite decide_False by (apply Hfresh; by left).
    rewrite IH; [by rewrite <- app_assoc | done |].
    intros d' Hd' Hin. apply elem_of_union in Hin as [Hin | Hin].
    + apply elem_of_singleton in Hin. apply Hd. rewrite <- Hin.
      apply list_elem_of_fmap. by exists d'.
    + apply (Hfresh d'); [by right | done].
Qed.

(** X3: [deduplicateDocuments] keeps a sublist of its input (so the order
    of the input), in which no two documents share a fingerprint and in which
    every fingerprint of the input occurs; applied to its own output it
    changes nothing. *)
Theorem deduplicateDocuments_invariants docs :
  deduplicateDocuments docs `sublist_of` docs
  ∧ NoDup (contentFingerprint <$> deduplicateDocuments docs)
  ∧ (∀ d, d ∈ docs →
          ∃ d', d' ∈ deduplicateDocuments docs
                ∧ contentFingerprint d' = contentFingerprint d)
  ∧ deduplicateDocuments (deduplicateDocuments docs) = deduplicateDocuments docs.
Proof.
  unfold deduplicateDocuments at 1 2 3 5.
  destruct (dedup_foldl_invariant docs ∅ [])
    as (seen' & rest & Heq & Hsub & Hnd & Hfresh & Hcov).
  rewrite Heq. simpl. repeat split; try done.
  - intros d Hd. destruct (Hcov d Hd) as [Hs | H]; [set_solver | done].
  - unfold deduplicateDocuments. rewrite Heq. simpl.
    rewrite dedup_foldl_distinct; [done | done |]. set_solver.
Qed.

Lemma textStep_rendered o st d :
  bs_context (textStep o st d)
  = (if truthy (bs_context st)
     then bs_context st +:+ separatorText o else bs_context st)
    +:+ rendered o d.
Proof.
  unfold textStep, rendered. simpl.
  destruct (default false (includeMetadata o)); simpl;
    [destruct (truthy (metadataStr d)); simpl |];
    by rewrite ?append_assoc.
Qed.

Lemma textStep_foldl_length o docs : ∀ st,
  String.length (bs_context st)
  + sum_list (String.length ∘ doc_content <$> docs)
  ≤ String.length (bs_context (foldl (textStep o) st docs)).
Proof.
  induction docs as [|d docs IH]; intros st; [simpl; lia |].
  cbn [foldl]. specialize (IH (textStep o st d)).
  assert (String.length (bs_context st) + String.length (doc_content d)
          ≤ String.length (bs_context (textStep o st d))) as Hstep.
  { rewrite textStep_rendered. unfold rendered.
    destruct (truthy (bs_context st)); rewrite !length_append; lia. }
  rewrite fmap_cons.
  change (sum_list (?x :: ?l)) with (x + sum_list l).
  unfold compose at 1. lia.
Qed.

(** X4: [maxContextLength] is accepted and never enforced: the result of
    [buildContext] is the same for every value of it (also for none), and in
    the plain-text rendering the context is at least as long as the contents
    of the emitted documents together, whatever the budget. *)
Theorem maxContextLength_is_not_enforced docs (o : ContextBuilderOptions)
    (m : Property Z) :
  buildContext docs (Some (withMaxContextLength m o)) = buildContext docs (Some o)
  ∧ (formatAsJson (mergeOptions (Some o)) = Some false →
     sum_list (String.length ∘ doc_content
               <$> sources (buildContext docs (Some (withMaxContextLength m o))))
     ≤ String.length
         (context (buildContext docs (Some (withMaxContextLength m o))))).
Proof.
  split; [reflexivity |]. intros Hfmt.
  change (buildContext docs (Some (withMaxContextLength m o)))
    with (buildContext docs (Some o)).
  rewrite buildContext_sources.
  assert (context (buildContext docs (Some o))
          = bs_context (foldl (textStep (mergeOptions (Some o))) initialBuild
                          (sort byScoreDesc (processed docs (Some o))))) as ->.
  { unfold buildContext, processed. by rewrite Hfmt. }
  pose proof (textStep_foldl_length (mergeOptions (Some o))
                (sort byScoreDesc (processed docs (Some o))) initialBuild) as H.
  change (String.length (bs_context initialBuild)) with 0 in H. lia.
Qed.

Lemma textStep_foldl_join o docs : ∀ st,
  bs_context st ≠ "" →
  bs_context (foldl (textStep o) st docs)
  = join (separatorText o) (bs_context st :: (rendered o <$> docs)).
Proof.
  induction docs as [|d docs IH]; intros st Hst; [done |].
  cbn [foldl]. rewrite IH.
  - rewrite textStep_rendered. apply truthy_true in Hst. rewrite Hst.
    rewrite fmap_cons. cbn [join].
    destruct (rendered o <$> docs); by rewrite ?append_assoc.
  - rewrite textStep_rendered. apply truthy_true in Hst. rewrite Hst.
    intros H. apply append_empty in H as [H _].
    apply append_empty in H as [H _]. by apply truthy_true in Hst.
Qed.

Lemma separatorText_mergeOptions (options : option ContextBuilderOptions) :
  separatorText (mergeOptions options)
  = match separator <$> options with
    | None | Some Absent => LF +:+ LF
    | Some Undefined => "undefined"
    | Some (Given sep) => sep
    end.
Proof. destruct options as [o |]; [| done]. simpl. by destruct (separator o). Qed.

(** X5: in the plain-text rendering (no [formatAsJson], or a falsy one),
    when the first emitted document has a content that is not empty, the
    context is the renderings of the emitted documents (each the bracketed
    metadata line, if any, and the content) joined by the separator, in the
    order of [sources].  The separator is that of the options, a blank line
    when they have none, and the text 'undefined' when they hold
    [separator: undefined]. *)
Theorem plain_text_context_is_joined docs (options : option ContextBuilderOptions)
    (d : Document any) (rest : list (Document any)) :
  default false (formatAsJson (mergeOptions options)) = false →
  sources (buildContext docs options) = d :: rest →
  doc_content d ≠ "" →
  context (buildContext docs options)
  = join (match separator <$> options with
          | None | Some Absent => LF +:+ LF
          | Some Undefined => "undefined"
          | Some (Given sep) => sep
          end)
         (rendered (mergeOptions options)
          <$> sources (buildContext docs options)).
Proof.
  intros Hfmt Hsrc Hd. rewrite Hsrc.
  rewrite buildContext_sources in Hsrc.
  rewrite <- separatorText_mergeOptions.
  assert (context (buildContext docs options)
          = bs_context (foldl (textStep (mergeOptions options)) initialBuild
                          (sort byScoreDesc (processed docs options)))) as ->.
  { unfold buildContext, processed. by rewrite Hfmt. }
  rewrite Hsrc. cbn [foldl].
  assert (bs_context (textStep (mergeOptions options) initialBuild d)
          = rendered (mergeOptions options) d) as Hfirst.
  { by rewrite textStep_rendered. }
  rewrite textStep_foldl_join.
  - by rewrite Hfirst.
  - rewrite Hfirst. unfold rendered. intros H.
    by apply append_empty in H as [_ H].
Qed.

End BuilderExtras.

(* ===================================================================== *)
(** * Further properties of the web search provider                       *)
(* ===================================================================== *)

Section SearchExtras.

Context {any World : Type} {builtins : Builtins any} {host : Host any World}.

Lemma append_nonempty_r (s t : string) : t ≠ "" → s +:+ t ≠ "".
Proof. intros Ht H. by apply append_empty in H as [_ H]. Qed.

Lemma append_nonempty_l (s t : string) : s ≠ "" → s +:+ t ≠ "".
Proof. intros Hs H. by apply append_empty in H as [H _]. Qed.

Lemma webStep_foldl (l : list (nat * BraveSearchResult)) : ∀ st,
  (foldl webStep st l).1 = st.1 ++ ((λ ir, webSource ir.1 ir.2) <$> l)
  ∧ (st.2 ≠ "" → (foldl webStep st l).2 ≠ "").
Proof.
  induction l as [|ir l IH]; intros st.
  - simpl. by rewrite app_nil_r.
  - cbn [foldl]. destruct (IH (webStep st ir)) as [-> Hne]. split.
    + rewrite fmap_cons. cbn [webStep fst]. by rewrite <- app_assoc.
    + intros _. apply Hne. cbn [webStep snd]. by apply append_nonempty_r.
Qed.

Lemma newsStep_foldl (l : list (nat * BraveSearchResult)) : ∀ st,
  (foldl newsStep st l).1 = st.1 ++ ((λ ir, newsSource ir.1 ir.2) <$> l)
  ∧ (st.2 ≠ "" → (foldl newsStep st l).2 ≠ "").
Proof.
  induction l as [|ir l IH]; intros st.
  - simpl. by rewrite app_nil_r.
  - cbn [foldl]. destruct (IH (newsStep st ir)) as [-> Hne]. split.
    + rewrite fmap_cons. cbn [newsStep fst]. by rewrite <- app_assoc.
    + intros _. apply Hne. cbn [newsStep snd].
      apply append_nonempty_r, append_nonempty_r, append_nonempty_r. done.
Qed.

Lemma indexed_fmap {A B} (f : nat → A → B) (l : list A) :
  (λ ir, f ir.1 ir.2) <$> indexed l = imap f l.
Proof.
  unfold indexed. rewrite fmap_imap. by apply imap_ext.
Qed.

Lemma processResults_context_nonempty (query : string)
    (data : BraveSearchResponse) :
  wc_context (processResults query data) ≠ "".
Proof.
  unfold processResults. cbn [wc_context].
  destruct (web_results data) as [[|r l] |], (news_results data) as [[|r' l'] |];
    cbn [default fst snd];
    rewrite ?(proj1 (newsStep_foldl _ _)), ?(proj1 (webStep_foldl _ _));
    cbn [fst snd app fmap list_fmap indexed imap];
    try (by apply append_nonempty_l);
    try (apply newsStep_foldl; cbn [newsStep snd]; by repeat apply append_nonempty_r);
    try (apply webStep_foldl; cbn [webStep snd]; by repeat apply append_nonempty_r).
Qed.

(** X7: the parsed response of the search API becomes one source per web
    result ("web-1", "web-2", ...) followed by one per news result ("news-1",
    ...), in the order of the response and with the description as content.
    The context is never empty: without any result it is the text
    [No search results found for: "query"].  The token count is
    [ceil(context.length / 4)]. *)
Theorem processResults_shape (query : string) (data : BraveSearchResponse) :
  wc_sources (processResults query data)
  = imap webSource (default [] (web_results data))
    ++ imap newsSource (default [] (news_results data))
  ∧ wc_context (processResults query data) ≠ ""
  ∧ (default [] (web_results data) = [] →
     default [] (news_results data) = [] →
     wc_context (processResults query data)
     = "No search results found for: " +:+ String (ascii_of_nat 34) ""
       +:+ query +:+ String (ascii_of_nat 34) "")
  ∧ wc_tokenCount (processResults query data)
    = ceil_div (String.length (wc_context (processResults query data))) 4.
Proof.
  split; [| split; [apply processResults_context_nonempty | split; [| done]]];
    unfold processResults; cbn [wc_sources wc_context].
  - destruct (web_results data) as [[|r l] |], (news_results data) as [[|r' l'] |];
      cbn [default fst snd];
      rewrite ?(proj1 (newsStep_foldl _ _)), ?(proj1 (webStep_foldl _ _));
      cbn [fst snd]; rewrite ?indexed_fmap, ?app_nil_r; done.
  - intros Hw Hn.
    destruct (web_results data) as [[|r l] |]; try done;
      destruct (news_results data) as [[|r' l'] |]; try done.
Qed.

End SearchExtras.

Section SearchComposition.

Context {any World : Type} {builtins : Builtins any} {host : Host any World}.

(** The results of [BraveSearchProvider.getContext]: the mock results, or
    the processed response of the search API. *)
Lemma Brave_getContext_cases (query : string) (options : option SearchOptions)
    (w : World) :
  ∃ r w',
    Brave_getContext query options w = (Returns r, w')
    ∧ ((∃ n, r = getMockResults query n)
       ∨ (∃ data, r = processResults query data)).
Proof.
  unfold Brave_getContext, try_catch, bind, property, ret, throw, settle.
  destruct options as [opts |]; [| eexists _, _; split; [done |]; left; by eexists].
  destruct (negb (truthy _)); [eexists _, _; split; [done |]; left; by eexists |].
  destruct (braveFetch _ _ _ w) as [[response | e] w'];
    [| eexists _, _; split; [done |]; left; by eexists].
  destruct (negb (br_ok response));
    [eexists _, _; split; [done |]; left; by eexists |].
  destruct (br_json response) as [data | e];
    [| eexists _, _; split; [done |]; left; by eexists].
  eexists _, _. split; [done |]. right. by eexists.
Qed.

Lemma Brave_getContext_truthy (query : string) (options : option SearchOptions)
    (w : World) :
  ∃ r w',
    Brave_getContext query options w = (Returns r, w')
    ∧ truthy (wc_context r) = true.
Proof.
  destruct (Brave_getContext_cases query options w)
    as (r & w' & Hr & [[n ->] | [data ->]]); eexists _, w'; (split; [done |]).
  - apply getMockResults_shape.
  - apply truthy_true, processResults_context_nonempty.
Qed.

(** X8: whatever the search API does, the result of
    [BraveSearchProvider.getContext] has a context that is not empty and, as
    token count, [ceil(context.length / 4)]. *)
Theorem Brave_getContext_has_content (query : string)
    (options : option SearchOptions) (w : World) :
  ∃ r w',
    Brave_getContext query options w = (Returns r, w')
    ∧ truthy (wc_context r) = true
    ∧ wc_tokenCount r = ceil_div (String.length (wc_context r)) 4.
Proof.
  destruct (Brave_getContext_cases query options w)
    as (r & w' & Hr & [[n ->] | [data ->]]); eexists _, w'; (split; [done |]).
  - split; [apply getMockResults_shape | done].
  - split; [| done]. apply truthy_true, processResults_context_nonempty.
Qed.

Lemma summaryOf_nonempty (o : Outcome McpResponse) : summary (summaryOf o) ≠ "".
Proof.
  unfold summaryOf. destruct o as [response | e]; [| done].
  destruct (summarized response); [| done].
  cbn [summary]. by apply append_nonempty_r.
Qed.

Variables (query : string).
Variables (opts : GetContextOptions any) (s : PState World).
Variables (ragConfig : option RagConfig) (w1 : World).
Variables (provider : EmbeddingProvider) (er : EmbeddingResult) (w2 : World).
Variables (rr : RetrievalResult any) (w3 : World).

Local Notation this := newLightRAGContextProvider.
Local Notation instanceId := (str_or (aiInstanceId opts) "").
Local Notation cfg := (settings ragConfig opts).

Hypothesis Hinstance : truthy instanceId = true.
Hypothesis Hload :
  loadRagConfig (supabaseUrl this) (supabaseKey this) instanceId (world s)
  = (Returns ragConfig, w1).
Hypothesis Hprovider :
  createEmbeddingProvider (Some (embeddingProvider cfg))
    (Some (embeddingModel cfg)) (Some trackUsageOnly) = Returns provider.
Hypothesis Hgen :
  generateEmbedding provider query (Some instanceId) w1 = (Returns er, w2).
Hypothesis Hret :
  retrieveDocuments (embedding er) (retrievalOptions cfg opts instanceId) w2
  = (Returns rr, w3).
Hypothesis Hnone : documents rr = [].
Hypothesis Hfallback : enableFallbackSearch cfg = true.

(** X9: for [new LightRAGContextProvider()], whose web search is the Brave
    provider, a retrieval without documents with the fallback enabled never
    ends in the empty context: the web search always returns content, so the
    model router is called exactly once, and the result carries a context
    that is not empty (the summary, or the placeholder when the
    summarization fails) with the sources of the web search. *)
Theorem fallback_of_new_provider_is_never_empty :
  ∃ r s' wc w4,
    getContext this query (Some opts) s = (Returns r, s')
    ∧ Brave_getContext query (Some (searchOptions instanceId)) w3
      = (Returns wc, w4)
    ∧ pr_context r ≠ ""
    ∧ pr_sources r = WebSource <$> wc_sources wc
    ∧ webSearchCalls (calls s') = webSearchCalls (calls s) + 1
    ∧ routeModelCalls (calls s') = routeModelCalls (calls s) + 1.
Proof.
  destruct (Brave_getContext_truthy query (Some (searchOptions instanceId)) w3)
    as (wc & w4 & Hweb & Hcontent).
  destruct (routeModelCall (summaryRequest (wc_context wc) instanceId) w4)
    as [o w5] eqn:Hroute.
  destruct (getContext_search_with_content_counted this query opts s ragConfig
              w1 provider Hprovider er w2 rr w3 Hinstance Hload Hgen Hret
              Hnone Hfallback wc w4 o w5 Hweb Hcontent Hroute)
    as (s' & Hget & Hws & Hrm).
  eexists _, s', wc, w4. split; [exact Hget |]. split; [exact Hweb |].
  cbn [pr_context pr_sources]. split; [apply summaryOf_nonempty | done].
Qed.

End SearchComposition.

(* ===================================================================== *)
(** * Further properties of the provider                                  *)
(* ===================================================================== *)

Section Miss.

Context {any World : Type} {builtins : Builtins any} {host : Host any World}.

Variables (this : LightRAGContextProvider World) (query : string).
Variables (opts : GetContextOptions any) (s : PState World).
Variables (ragConfig : option RagConfig) (w1 : World).
Variables (provider : EmbeddingProvider) (er : EmbeddingResult) (w2 : World).
Variables (rr : RetrievalResult any) (w3 : World).

Local Notation instanceId := (str_or (aiInstanceId opts) "").
Local Notation cfg := (settings ragConfig opts).

Hypothesis Hinstance : truthy instanceId = true.
Hypothesis Hload :
  loadRagConfig (supabaseUrl this) (supabaseKey this) instanceId (world s)
  = (Returns ragConfig, w1).
Hypothesis Hprovider :
  createEmbeddingProvider (Some (embeddingProvider cfg))
    (Some (embeddingModel cfg)) (Some trackUsageOnly) = Returns provider.
Hypothesis Hgen :
  generateEmbedding provider query (Some instanceId) w1 = (Returns er, w2).
Hypothesis Hret :
  retrieveDocuments (embedding er) (retrievalOptions cfg opts instanceId) w2
  = (Returns rr, w3).
Hypothesis Hnone : documents rr = [].

(** X1: when retrieval yields no document and the configuration row has
    [enable_fallback_search = false], [getContext] returns exactly
    [{context: '', sources: [], tokenCount: 0}] after the three calls of the
    primary stage: neither the web search nor the model router is called. *)
Theorem fallback_disabled_returns_empty (row : RagConfig) :
  ragConfig = Some row →
  enable_fallback_search row = Some false →
  ∃ s',
    getContext this query (Some opts) s = (Returns emptyContext, s')
    ∧ world s' = w3
    ∧ webSearchCalls (calls s') = webSearchCalls (calls s)
    ∧ routeModelCalls (calls s') = routeModelCalls (calls s).
Proof.
  intros Hrow Hoff.
  assert (enableFallbackSearch cfg = false) as Hcfg.
  { rewrite Hrow. simpl. by rewrite Hoff. }
  eexists. split.
  - exact (getContext_fallback_disabled this query opts s ragConfig w1 provider
             Hprovider er w2 rr w3 Hinstance Hload Hgen Hret Hnone Hcfg).
  - unfold webSearchCalls, routeModelCalls. simpl.
    rewrite !filter_app, !length_app. simpl. split; [done |]. lia.
Qed.

(** X2: when retrieval yields no document, the fallback is enabled and the
    web search throws, [getContext] returns exactly
    [{context: '', sources: [], tokenCount: 0}]; the web search has been
    called once and the model router not at all. *)
Theorem search_failure_returns_empty (e : Thrown) (w4 : World) :
  enableFallbackSearch cfg = true →
  braveSearchProvider this query (Some (searchOptions instanceId)) w3
  = (Throws e, w4) →
  ∃ s',
    getContext this query (Some opts) s = (Returns emptyContext, s')
    ∧ world s' = w4
    ∧ webSearchCalls (calls s') = webSearchCalls (calls s) + 1
    ∧ routeModelCalls (calls s') = routeModelCalls (calls s).
Proof.
  intros Hon Hweb. eexists. split.
  - exact (getContext_search_throws this query opts s ragConfig w1 provider
             Hprovider er w2 rr w3 Hinstance Hload Hgen Hret Hnone Hon e w4 Hweb).
  - unfold webSearchCalls, routeModelCalls. simpl.
    rewrite !filter_app, !length_app. simpl. split; [done |]. lia.
Qed.


End Miss.

(* ===================================================================== *)
(** * Further properties of the embedding providers                       *)
(* ===================================================================== *)

Section EmbedderExtras.

Context {any World : Type} {builtins : Builtins any} {host : Host any World}.

Lemma lower_char_idempotent (c : ascii) :
  lower_char (lower_char c) = lower_char c.
Proof. by destruct c as [[] [] [] [] [] [] [] []]. Qed.

Lemma toLowerCase_idempotent (s : string) :
  toLowerCase (toLowerCase s) = toLowerCase s.
Proof.
  induction s as [|c s IH]; [done |]. simpl.
  by rewrite lower_char_idempotent, IH.
Qed.

(** X10: [createEmbeddingProvider] always returns a provider, chosen by the
    name in lower case only: it is the Bedrock provider exactly when that is
    'bedrock', and the Fireworks provider for every other name, for the empty
    name and for no name.  So the name is case-insensitive. *)
Theorem createEmbeddingProvider_by_lower_case_name (provider : option string)
    (modelId : option string) (config : option ProviderConfig) :
  (∃ p, createEmbeddingProvider provider modelId config = Returns p
        ∧ ((∃ e, p = Bedrock e) ↔ toLowerCase <$> provider = Some "bedrock")
        ∧ ((∃ e, p = Fireworks e) ↔ toLowerCase <$> provider ≠ Some "bedrock"))
  ∧ createEmbeddingProvider (toLowerCase <$> provider) modelId config
    = createEmbeddingProvider provider modelId config
  ∧ createEmbeddingProvider None modelId config
    = createEmbeddingProvider (Some "fireworks") modelId config
  ∧ createEmbeddingProvider (Some "") modelId config
    = createEmbeddingProvider (Some "fireworks") modelId config.
Proof.
  split; [| split; [| done]].
  - unfold createEmbeddingProvider.
    set (n := str_or (toLowerCase <$> provider) "fireworks").
    assert (n = "bedrock" ↔ toLowerCase <$> provider = Some "bedrock") as Hn.
    { subst n. destruct provider as [name |]; simpl.
      - destruct (truthy (toLowerCase name)) eqn:Hname.
        + split; [by intros -> | by intros [= ->]].
        + apply truthy_false in Hname. rewrite Hname.
          split; [done | by intros [= ?]].
      - split; done. }
    destruct (decide (n = "bedrock")) as [Hb | Hb].
    + eexists. split; [done |]. split; split.
      * intros _. by apply Hn.
      * intros _. by eexists.
      * by intros [e [=]].
      * intros Hne. by apply Hn in Hb.
    + destruct (decide (n = "fireworks")) as [Hf | Hf];
        (eexists; split; [done |]; split; split;
         [by intros [x [=]] | by intros ?%Hn | by intros ? ?%Hn
         | intros _; by eexists]).
  - destruct provider as [name |]; [| done].
    unfold createEmbeddingProvider. simpl. by rewrite toLowerCase_idempotent.
Qed.

Lemma trackEmbeddingUsage_spec instanceId prov modelId n (w : World) :
  trackEmbeddingUsage instanceId prov modelId n w
  = (Returns (),
     if truthy (str_or (SUPABASE_URL env) "")
        && truthy (str_or (SUPABASE_SERVICE_ROLE_KEY env) "")
     then (usageInsert (str_or (SUPABASE_URL env) "")
             (str_or (SUPABASE_SERVICE_ROLE_KEY env) "")
             (embeddingRow instanceId prov modelId n (nowISO w)) w).2
     else w).
Proof.
  unfold trackEmbeddingUsage, try_catch, bind, now, ret, embeddingRow.
  destruct (truthy (str_or (SUPABASE_URL env) "")),
    (truthy (str_or (SUPABASE_SERVICE_ROLE_KEY env) "")); simpl; try done.
  by destruct (usageInsert _ _ _ w) as [[?|?] ?].
Qed.

(** X11: usage tracking of embeddings is best effort.  [trackEmbeddingUsage]
    never throws, whatever the insert does; without the Supabase URL or key
    it leaves the world untouched; otherwise the world moves as by one insert
    of the row [{operation_type: 'embedding', input_tokens = total_tokens =
    tokenCount, output_tokens: 0}] stamped with the current time. *)
Theorem trackEmbeddingUsage_is_best_effort (instanceId prov modelId : string)
    (n : nat) (w : World) :
  (∃ w', trackEmbeddingUsage instanceId prov modelId n w = (Returns (), w'))
  ∧ (truthy (str_or (SUPABASE_URL env) "") = false
     ∨ truthy (str_or (SUPABASE_SERVICE_ROLE_KEY env) "") = false →
     trackEmbeddingUsage instanceId prov modelId n w = (Returns (), w))
  ∧ (truthy (str_or (SUPABASE_URL env) "") = true →
     truthy (str_or (SUPABASE_SERVICE_ROLE_KEY env) "") = true →
     trackEmbeddingUsage instanceId prov modelId n w
     = (Returns (),
        (usageInsert (str_or (SUPABASE_URL env) "")
           (str_or (SUPABASE_SERVICE_ROLE_KEY env) "")
           {| ai_instance_id := instanceId;
              provider := prov;
              model := modelId;
              operation_type := "embedding";
              input_tokens := n;
              output_tokens := 0;
              total_tokens := n;
              created_at := nowISO w |} w).2)).
Proof.
  rewrite trackEmbeddingUsage_spec. split; [by eexists |]. split.
  - intros [-> | ->]; [done |]. by rewrite andb_false_r.
  - by intros -> ->.
Qed.

(** X12: whatever an embedding provider throws is an [Error] whose message
    starts with "Failed to generate embedding with Bedrock: " or "... with
    Fireworks: ".  The Bedrock provider throws exactly when a credential is
    missing, and the Fireworks provider throws when its API key is missing;
    both then throw before any request: the world is untouched. *)
Theorem generateEmbedding_failures_are_wrapped (text : string)
    (instanceId : option string) (w : World) :
  (∀ p e w',
     generateEmbedding p text instanceId w = (Throws e, w') →
     ∃ m, e = Error ((match p with
                      | Bedrock _ => "Failed to generate embedding with Bedrock: "
                      | Fireworks _ => "Failed to generate embedding with Fireworks: "
                      end) +:+ m))
  ∧ (∀ b,
       (∃ e w', Bedrock_generateEmbedding b text instanceId w = (Throws e, w'))
       ↔ truthy (be_accessKeyId b) && truthy (be_secretAccessKey b) = false)
  ∧ (∀ b,
       truthy (be_accessKeyId b) && truthy (be_secretAccessKey b) = false →
       Bedrock_generateEmbedding b text instanceId w
       = (Throws (Error "Failed to generate embedding with Bedrock: AWS credentials are required for Bedrock embedding generation"), w))
  ∧ (∀ f,
       truthy (fe_apiKey f) = false →
       Fireworks_generateEmbedding f text instanceId w
       = (Throws (Error "Failed to generate embedding with Fireworks: Fireworks API key is required for embedding generation"), w)).
Proof.
  split; [| split; [| split]].
  - intros [b | f] e w'; simpl.
    + unfold Bedrock_generateEmbedding, try_catch.
      match goal with |- context [match ?m w with _ => _ end] =>
        destruct (m w) as [[r | e0] w0] end; [done |].
      intros [= <- <-]. by eexists.
    + unfold Fireworks_generateEmbedding, try_catch.
      match goal with |- context [match ?m w with _ => _ end] =>
        destruct (m w) as [[r | e0] w0] end; [done |].
      intros [= <- <-]. by eexists.
  - intros b. split.
    + intros (e & w' & Hthrow).
      destruct (truthy (be_accessKeyId b)) eqn:Hk; [| done].
      destruct (truthy (be_secretAccessKey b)) eqn:Hs; [| done].
      destruct (Bedrock_generateEmbedding_returns b text instanceId w Hk Hs)
        as [w'' Hret]. congruence.
    + intros Hmiss. eexists _, w.
      unfold Bedrock_generateEmbedding, try_catch, bind, throw.
      destruct (truthy (be_accessKeyId b)), (truthy (be_secretAccessKey b));
        try done.
  - intros b Hmiss.
    unfold Bedrock_generateEmbedding, try_catch, bind, throw.
    destruct (truthy (be_accessKeyId b)), (truthy (be_secretAccessKey b));
      try done.
  - intros f Hmiss.
    unfold Fireworks_generateEmbedding, try_catch, bind, throw.
    by rewrite Hmiss.
Qed.

(** X13: when its request succeeds with an array at [data[0].embedding], the
    Fireworks provider returns that array; the token count is the
    [usage.total_tokens] of the response when it reports one that is not 0,
    and [ceil(text.length / 4)] otherwise.  The model ids 'deepseek-v3' and
    'deepseek-v2-lite' are sent as their full paths.  The result does not
    depend on what the insert of the usage row does. *)
Theorem Fireworks_generateEmbedding_result (f : FireworksEmbedder)
    (text : string) (instanceId : option string) (w w1 : World)
    (response : FireworksResponse) (body : FireworksBody) (emb : list float) :
  truthy (fe_apiKey f) = true →
  fireworksFetch (fe_apiKey f) (fireworksModelPath (fe_modelId f)) text w
  = (Returns response, w1) →
  fw_ok response = true →
  fw_json response = Returns body →
  fw_embedding body = Some emb →
  ∃ w',
    Fireworks_generateEmbedding f text instanceId w
    = (Returns {| embedding := emb;
                  emb_tokenCount :=
                    match fw_total_tokens body with
                    | Some (S n) => S n
                    | _ => ceil_div (String.length text) 4
                    end |}, w').
Proof.
  intros Hkey Hfetch Hok Hjson Hemb.
  unfold Fireworks_generateEmbedding, try_catch, bind at 1.
  rewrite Hkey. cbn [negb]. unfold fireworksModelPath in Hfetch.
  unfold bind at 1. rewrite Hfetch, Hok. cbn [negb].
  unfold bind at 1, settle. rewrite Hjson, Hemb.
  unfold bind, ret.
  destruct (fe_trackUsage f && truthy (str_or instanceId "")).
  - rewrite trackEmbeddingUsage_spec. by eexists.
  - by eexists.
Qed.

End EmbedderExtras.

(* ===================================================================== *)
(** * Properties of the retriever                                         *)
(* ===================================================================== *)

Section RetrieverExtras.

Context {any World : Type} {store : Store any World}.

Implicit Types (this : SupabaseRetriever) (options : RetrievalOptions any).
Implicit Types (w : World) (reply : StoreReply any).

Lemma filter_constant {A} (P : A → bool) (b : bool) (l : list A) :
  Forall (λ x, P x = b) l →
  filter (λ x, P x) l = if b then l else [].
Proof.
  induction 1 as [|x l Hx Hl IH]; [by destruct b |].
  destruct b.
  - rewrite filter_cons_True; [by rewrite IH | by apply Is_true_true].
  - rewrite filter_cons_False; [done | by apply Is_true_false].
Qed.

Lemma filter_sublist {A} (P : A → Prop) `{∀ x, Decision (P x)} (l : list A) :
  filter P l `sublist_of` l.
Proof.
  induction l as [|x l IH]; [done |].
  destruct (decide (P x)).
  - rewrite filter_cons_True by done. by apply sublist_skip.
  - rewrite filter_cons_False by done. by apply sublist_cons.
Qed.

Lemma filter_ext_elem_of {A} (P Q : A → Prop) `{∀ x, Decision (P x)}
    `{∀ x, Decision (Q x)} (l : list A) :
  (∀ x, x ∈ l → (P x ↔ Q x)) → filter P l = filter Q l.
Proof.
  induction l as [|x l IH]; intros Hext; [done |].
  assert (filter P l = filter Q l) as Htail.
  { apply IH. intros y Hy. apply Hext. by apply list_elem_of_further. }
  destruct (decide (P x)) as [HP | HP].
  - rewrite !filter_cons_True; [by rewrite Htail | | done].
    by apply (Hext x); [apply list_elem_of_here |].
  - rewrite !filter_cons_False; [done | | done].
    intros HQ. apply HP. by apply (Hext x); [apply list_elem_of_here |].
Qed.

Lemma filter_all {A} (P : A → Prop) `{∀ x, Decision (P x)} (l : list A) :
  (∀ x, x ∈ l → P x) → filter P l = l.
Proof.
  induction l as [|x l IH]; intros Hall; [done |].
  rewrite filter_cons_True by (apply Hall, list_elem_of_here).
  f_equal. apply IH. intros y Hy. by apply Hall, list_elem_of_further.
Qed.

(** The wrapping of a message does not bring in the text the handler looks
    for: no character of "Failed to retrieve documents: " can start it. *)
Lemma includes_wrapped (m : string) :
  includes missingFunction ("Failed to retrieve documents: " +:+ m)
  = includes missingFunction m.
Proof. reflexivity. Qed.

(** X14: when the similarity search succeeds, [retrieveDocuments] returns
    the rows of the store as documents, in the order of the store; with a
    filter that is not empty it keeps exactly those whose metadata equals the
    filter at every key ([documentId] being read at [document_id]): every
    document it returns does, and every row that does is returned.  Without a
    filter it returns them all.  [totalFound] is the number of rows before
    filtering, so never less than the number of documents. *)
Theorem retrieveDocuments_filters_rows this (emb : list float) options w
    reply w' :
  matchDocuments (rt_supabaseUrl this) (rt_supabaseKey this) emb
    (ro_similarityThreshold options) (ro_maxChunks options)
    (ro_aiInstanceId options) w = (Returns reply, w') →
  sr_error reply = None →
  ∃ r,
    SupabaseRetriever_retrieveDocuments this emb options w = (Returns r, w')
    ∧ documents r
      = filter (λ d, Forall (λ kv,
                               propertyEquals d
                                 (if decide (kv.1 = "documentId")
                                  then "document_id" else kv.1) kv.2
                               = true)
                            (ro_filter options))
               (toDocument <$> default [] (sr_data reply))
    ∧ documents r `sublist_of` (toDocument <$> default [] (sr_data reply))
    ∧ totalFound r = length (default [] (sr_data reply))
    ∧ length (documents r) ≤ totalFound r
    ∧ (ro_filter options = [] →
       documents r = toDocument <$> default [] (sr_data reply))
    ∧ (∀ d key value,
         d ∈ documents r → (key, value) ∈ ro_filter options →
         propertyEquals d
           (if decide (key = "documentId") then "document_id" else key) value
         = true)
    ∧ (∀ d,
         d ∈ toDocument <$> default [] (sr_data reply) →
         (∀ key value,
            (key, value) ∈ ro_filter options →
            propertyEquals d
              (if decide (key = "documentId") then "document_id" else key) value
            = true) →
         d ∈ documents r).
Proof.
  intros Hrpc Herr.
  unfold SupabaseRetriever_retrieveDocuments, try_catch, bind.
  rewrite Hrpc, Herr. unfold ret. eexists. split; [reflexivity |].
  cbn [documents totalFound].
  assert (match sr_data reply with Some data => length data | None => 0 end
          = length (default [] (sr_data reply))) as ->.
  { by destruct (sr_data reply). }
  set (rows := toDocument <$> default [] (sr_data reply)).
  set (keeps := λ d : Document any,
         Forall (λ kv : string * any,
                   propertyEquals d
                     (if decide (kv.1 = "documentId")
                      then "document_id" else kv.1) kv.2 = true)
                (ro_filter options)).
  assert (length rows = length (default [] (sr_data reply))) as Hrows.
  { subst rows. by rewrite length_fmap. }
  assert (∀ d, d ∈ rows → (passesFilter (ro_filter options) d ↔ keeps d))
    as Hpass.
  { intros d Hd. subst rows. apply list_elem_of_fmap in Hd as (item & -> & _).
    unfold passesFilter, keeps. cbn [toDocument doc_metadata].
    rewrite Is_true_true, forallb_forall, Forall_forall.
    split; intros H [key value] Hkv;
      apply list_elem_of_In in Hkv; specialize (H _ Hkv);
      unfold filterEntryHolds in *; cbn [fst snd] in *;
      repeat case_decide; by subst. }
  assert ((if bool_decide (0 < length (ro_filter options))
           then filter (λ d, passesFilter (ro_filter options) d) rows
           else rows)
          = filter keeps rows) as ->.
  { case_bool_decide as Hflt.
    - by apply filter_ext_elem_of.
    - destruct (ro_filter options) as [|kv flt]; [| simpl in Hflt; lia].
      symmetry. apply filter_all. intros d _. subst keeps. by apply Forall_nil. }
  split; [done |]. split; [apply filter_sublist |]. split; [done |].
  split; [rewrite <- Hrows; apply sublist_length, filter_sublist |].
  split; [| split].
  - intros Hnil. apply filter_all.
    intros d _. subst keeps. cbn beta. rewrite Hnil. by apply Forall_nil.
  - intros d key value Hd Hkv.
    apply list_elem_of_filter in Hd as [Hkeeps _].
    subst keeps. cbn beta in Hkeeps. rewrite Forall_forall in Hkeeps.
    exact (Hkeeps (key, value) Hkv).
  - intros d Hd Hall. apply list_elem_of_filter. split; [| done].
    subst keeps. cbn beta. rewrite Forall_forall. intros [key value] Hkv.
    by apply Hall.
Qed.

(** X15: the fallback query gives every row the score 0.75 and applies the
    threshold itself, so it returns all the rows of the store when the
    threshold is at most 0.75 and none otherwise; [totalFound] is the number
    of rows either way.  The embedding of the query plays no part. *)
Theorem retrieveDocumentsFallback_is_all_or_nothing this (emb : list float)
    options w reply w' :
  nearestRows (rt_supabaseUrl this) (rt_supabaseKey this) options w
  = (Returns reply, w') →
  sr_error reply = None →
  retrieveDocumentsFallback this emb options w
  = (Returns
       {| documents :=
            if PrimFloat.leb (ro_similarityThreshold options) 0.75%float
            then toFallbackDocument <$> default [] (sr_data reply)
            else [];
          totalFound := length (default [] (sr_data reply)) |}, w')
  ∧ ∀ emb', retrieveDocumentsFallback this emb' options w
            = retrieveDocumentsFallback this emb options w.
Proof.
  intros Hrows Herr. split; [| done].
  unfold retrieveDocumentsFallback, try_catch, bind.
  rewrite Hrows, Herr. unfold ret. rewrite length_fmap.
  rewrite (filter_constant _
             (PrimFloat.leb (ro_similarityThreshold options) 0.75%float)).
  - done.
  - apply Forall_fmap. by apply Forall_true.
Qed.

(** X16: when the store answers the similarity search with an error, or the
    search throws an [Error], [retrieveDocuments] turns to the fallback query
    exactly when the message contains
    [function "match_documents" does not exist]; otherwise it throws
    "Failed to retrieve documents: " followed by the message, which for an
    error of the store already carries that prefix once.  A thrown value that
    is not an [Error] is reported as "Unknown error". *)
Theorem retrieveDocuments_error_routing this (emb : list float) options w w' :
  (∀ reply message,
     matchDocuments (rt_supabaseUrl this) (rt_supabaseKey this) emb
       (ro_similarityThreshold options) (ro_maxChunks options)
       (ro_aiInstanceId options) w = (Returns reply, w') →
     sr_error reply = Some message →
     SupabaseRetriever_retrieveDocuments this emb options w
     = if includes missingFunction message
       then retrieveDocumentsFallback this emb options w'
       else (Throws (Error ("Failed to retrieve documents: Failed to retrieve documents: "
                            +:+ message)), w'))
  ∧ (∀ message,
       matchDocuments (rt_supabaseUrl this) (rt_supabaseKey this) emb
         (ro_similarityThreshold options) (ro_maxChunks options)
         (ro_aiInstanceId options) w = (Throws (Error message), w') →
       SupabaseRetriever_retrieveDocuments this emb options w
       = if includes missingFunction message
         then retrieveDocumentsFallback this emb options w'
         else (Throws (Error ("Failed to retrieve documents: " +:+ message)), w'))
  ∧ (matchDocuments (rt_supabaseUrl this) (rt_supabaseKey this) emb
       (ro_similarityThreshold options) (ro_maxChunks options)
       (ro_aiInstanceId options) w = (Throws NotAnError, w') →
     SupabaseRetriever_retrieveDocuments this emb options w
     = (Throws (Error "Failed to retrieve documents: Unknown error"), w')).
Proof.
  split; [| split].
  - intros reply message Hrpc Herr.
    unfold SupabaseRetriever_retrieveDocuments, try_catch, bind.
    rewrite Hrpc, Herr. unfold throw. rewrite includes_wrapped.
    by destruct (includes missingFunction message).
  - intros message Hrpc.
    unfold SupabaseRetriever_retrieveDocuments, try_catch, bind.
    rewrite Hrpc. by destruct (includes missingFunction message).
  - intros Hrpc.
    unfold SupabaseRetriever_retrieveDocuments, try_catch, bind.
    by rewrite Hrpc.
Qed.

End RetrieverExtras.

(* ===================================================================== *)
(** * Properties of the prompt formatter and of the context handler       *)
(* ===================================================================== *)

Section HandlerExtras.

Context {World Src Opt : Type} {handlerHost : HandlerHost World Src Opt}.

Implicit Types (r : ProviderResult Src) (results : list (ProviderResult Src)).
Implicit Types (acc : Combined Src) (payload : ContextPayload Opt).

Lemma ceil_div_positive (n : nat) : 0 < n → 0 < ceil_div n 4.
Proof. intros Hn. pose proof (ceil_div_spec n 4). lia. Qed.

(** X17: [formatPrompt] puts the system prompt, the time stamp (unless
    switched off), the context header, the context and the framed query in
    this order; the frame is that of the format, and every format other than
    'claude', 'openai', 'mistral' and 'fireworks' (so 'raw' too) gets the
    frame of 'generic'.  The token count is [ceil(formatted.length / 4)] and
    is never 0. *)
Theorem formatPrompt_layout (w : World) (query context : string)
    (options : PromptOptions) :
  formatted (formatPrompt w query context (Some options))
  = nullish (pf_systemPrompt options) defaultSystemPrompt +:+ LF +:+ LF
    +:+ (if nullish (pf_includeTimestamp options) true
         then "Current date and time: " +:+ toISOString w +:+ LF +:+ LF
         else "")
    +:+ nullish (pf_contextHeader options) "Context:" +:+ LF
    +:+ context +:+ LF +:+ LF
    +:+ (queryFrame (nullish (pf_format options) "generic")).1 +:+ query
    +:+ (queryFrame (nullish (pf_format options) "generic")).2
  ∧ (∀ f, f ≠ "claude" → f ≠ "openai" → f ≠ "mistral" → f ≠ "fireworks" →
          formatPrompt w query context (Some (withFormat f options))
          = formatPrompt w query context (Some (withFormat "generic" options)))
  ∧ fp_tokenCount (formatPrompt w query context (Some options))
    = ceil_div (String.length
                  (formatted (formatPrompt w query context (Some options)))) 4
  ∧ 0 < fp_tokenCount (formatPrompt w query context (Some options)).
Proof.
  split; [| split; [| split; [done |]]].
  - unfold formatPrompt, queryFrame. cbn [formatted mbind option_bind].
    repeat case_decide; done.
  - intros f H1 H2 H3 H4. unfold formatPrompt, withFormat.
    cbn [mbind option_bind pf_format pf_systemPrompt pf_contextHeader
         pf_includeTimestamp nullish].
    by rewrite !decide_False by done.
  - unfold formatPrompt. cbn [fp_tokenCount]. apply ceil_div_positive.
    repeat case_decide; rewrite !length_append; simpl; lia.
Qed.

Lemma combineStep_foldl results : ∀ acc,
  combinedContext acc ≠ "" →
  foldl combineStep acc results
  = {| combinedContext :=
         join (LF +:+ LF)
              (combinedContext acc :: (r_context <$> filter contributes results));
       combinedSources :=
         combinedSources acc ++ concat (r_sources <$> filter contributes results);
       combinedTokens :=
         combinedTokens acc + sum_list (r_tokenCount <$> filter contributes results) |}.
Proof.
  induction results as [|r results IH]; intros acc Hacc.
  - simpl. rewrite app_nil_r, Nat.add_0_r. by destruct acc.
  - cbn [foldl]. unfold combineStep at 2. fold (contributes r).
    destruct (contributes r) eqn:Hr.
    + rewrite filter_cons_True by (by apply Is_true_true).
      rewrite IH.
      * cbn [combinedContext combinedSources combinedTokens].
        apply truthy_true in Hacc. rewrite Hacc.
        rewrite !fmap_cons. cbn [join concat sum_list sum_list_with].
        f_equal.
        -- destruct (r_context <$> filter contributes results);
             by rewrite ?append_assoc.
        -- by rewrite app_assoc.
        -- unfold id. lia.
      * cbn [combinedContext]. exact (append_nonempty_l _ _ Hacc).
    + rewrite filter_cons_False by (by apply Is_true_false). by apply IH.
Qed.

Lemma combineResults_filter results :
  combineResults results
  = {| combinedContext :=
         join (LF +:+ LF) (r_context <$> filter contributes results);
       combinedSources := concat (r_sources <$> filter contributes results);
       combinedTokens := sum_list (r_tokenCount <$> filter contributes results) |}.
Proof.
  unfold combineResults.
  induction results as [|r results IH]; [done |].
  cbn [foldl]. unfold combineStep at 2. fold (contributes r).
  destruct (contributes r) eqn:Hr.
  - rewrite filter_cons_True by (by apply Is_true_true).
    rewrite combineStep_foldl.
    + cbn [combinedContext combinedSources combinedTokens truthy].
      by rewrite !fmap_cons.
    + cbn [combinedContext truthy]. unfold contributes in Hr.
      apply andb_true_iff in Hr as [Hr _]. by apply truthy_true in Hr.
  - rewrite filter_cons_False by (by apply Is_true_false). apply IH.
Qed.

(** X18: the handler merges exactly the results whose context is not empty
    and whose token count is positive, in the order of the providers: the
    combined context is their contexts joined by a blank line, the combined
    sources are their sources one list after the other, and the token count
    is the sum of theirs.  Every other result (an empty context, or a token
    count of 0 even with a context and sources) adds nothing. *)
Theorem combineResults_merges_contributions results :
  combineResults results
  = {| combinedContext :=
         join (LF +:+ LF) (r_context <$> filter contributes results);
       combinedSources := concat (r_sources <$> filter contributes results);
       combinedTokens := sum_list (r_tokenCount <$> filter contributes results) |}
  ∧ combineResults results = combineResults (filter contributes results).
Proof.
  split; [apply combineResults_filter |].
  rewrite (combineResults_filter results),
    (combineResults_filter (filter contributes results)).
  by rewrite list_filter_filter_l.
Qed.

Lemma callProvider_eq payload query n
    (p : ContextProvider World Src Opt) w :
  callProvider payload query n p w
  = match p query (providerOptions payload n) w with
    | (Returns r, w') => (Returns r, w')
    | (Throws e, w') => (Returns (failedResult e), w')
    end.
Proof.
  unfold callProvider, try_catch, providerOptions.
  by destruct (p query _ w) as [[r|e] w'].
Qed.

Lemma callProviders_returns payload query n
    (l : list (string * ContextProvider World Src Opt)) : ∀ w,
  ∃ rs w', callProviders payload query n l w = (Returns rs, w')
           ∧ length rs = length l.
Proof.
  induction l as [|p l IH]; intros w; [by exists [], w |].
  cbn [callProviders]. unfold bind at 1. rewrite callProvider_eq.
  destruct (p.2 query _ w) as [[r|e] w1];
    destruct (IH w1) as (rs & w2 & Hrs & Hlen);
    unfold bind; rewrite Hrs; eexists _, _; (split; [done |]); simpl;
    by rewrite Hlen.
Qed.

(** X19: a provider that throws does not fail the request and does not
    disturb the others: its place in the results is taken by a record with
    an empty context, no sources, 0 tokens and the message of the error, the
    providers after it run from the state it left, and the combined result
    is that of the others alone. *)
Theorem failing_provider_is_isolated payload query n
    (p : string * ContextProvider World Src Opt)
    (l : list (string * ContextProvider World Src Opt)) w e w1 :
  p.2 query (providerOptions payload n) w = (Throws e, w1) →
  ∃ rs w2,
    callProviders payload query n l w1 = (Returns rs, w2)
    ∧ callProviders payload query n (p :: l) w
      = (Returns (failedResult e :: rs), w2)
    ∧ combineResults (failedResult e :: rs) = combineResults rs.
Proof.
  intros Hp. destruct (callProviders_returns payload query n l w1)
    as (rs & w2 & Hrs & _).
  exists rs, w2. split; [done |]. split; [| done].
  cbn [callProviders]. unfold bind at 1. rewrite callProvider_eq, Hp.
  unfold bind. by rewrite Hrs.
Qed.

Lemma lookupProvider_is_Some (name : string) :
  is_Some (lookupProvider name)
  ↔ is_Some (contextProviders name) ∨ name ∈ objectPrototypeKeys.
Proof.
  unfold lookupProvider.
  destruct (contextProviders name) as [p |].
  - split; [by left | by eexists].
  - case_bool_decide as Hkey.
    + split; [by right | by eexists].
    + split; [by intros [? [=]] | intros [[? [=]] | ?]; done].
Qed.


Lemma enabledProviders_names (names : list string) :
  (enabledProviders names).*1
  = filter (λ name, is_Some (contextProviders name)
                    ∨ name ∈ objectPrototypeKeys) names.
Proof.
  unfold enabledProviders. induction names as [|name names IH]; [done |].
  cbn [omap list_omap].
  destruct (lookupProvider name) as [p |] eqn:Hp; cbn [fmap option_fmap option_map].
  - rewrite filter_cons_True by (apply lookupProvider_is_Some; by eexists).
    cbn [fmap list_fmap fst]. f_equal. apply IH.
  - rewrite filter_cons_False; [apply IH |].
    intros Hkey. apply lookupProvider_is_Some in Hkey as [? Hkey].
    by rewrite Hp in Hkey.
Qed.


Lemma enabledProviders_nil (names : list string) :
  enabledProviders names = []
  ↔ Forall (λ name, contextProviders name = None
                    ∧ name ∉ objectPrototypeKeys) names.
Proof.
  split.
  - intros Hnil. pose proof (enabledProviders_names names) as Hnames.
    rewrite Hnil in Hnames. cbn in Hnames. symmetry in Hnames.
    apply Forall_forall. intros name Hname.
    assert (name ∉ filter (λ name, is_Some (contextProviders name)
                                   ∨ name ∈ objectPrototypeKeys) names)
      as Hout.
    { rewrite Hnames. apply not_elem_of_nil. }
    rewrite list_elem_of_filter in Hout. split.
    + destruct (contextProviders name) eqn:Hown; [| done].
      exfalso. apply Hout. split; [| done]. left. by eexists.
    + intros Hkey. apply Hout. split; [by right | done].
  - intros Hall. apply fmap_nil_inv with (f := fst).
    rewrite enabledProviders_names.
    induction Hall as [|name names [Hown Hkey] _ IH]; [done |].
    rewrite filter_cons_False; [done |].
    intros [[? Hsome] | ?]; [by rewrite Hown in Hsome | done].
Qed.


Lemma handleContextRequest_returns payload w names formatOptions rs w' :
  truthy (str_or (p_query payload) "") = true →
  requestedNames payload = Some names →
  enabledProviders names ≠ [] →
  callProviders payload (str_or (p_query payload) "")
    (length (enabledProviders names)) (enabledProviders names) w
  = (Returns rs, w') →
  formatOptionsOf payload w' = (Returns formatOptions, w') →
  handleContextRequest payload w
  = (Returns
       {| rs_success := true;
          rs_error := None;
          rs_data :=
            Some {| cd_context := combinedContext (combineResults rs);
                    cd_formattedPrompt :=
                      formatted
                        (formatCombined w' (str_or (p_query payload) "")
                           (combinedContext (combineResults rs))
                           formatOptions);
                    cd_sources := combinedSources (combineResults rs);
                    cd_tokenCount := combinedTokens (combineResults rs);
                    cd_totalTokens :=
                      combinedTokens (combineResults rs)
                      + fp_tokenCount
                          (formatCombined w' (str_or (p_query payload) "")
                             (combinedContext (combineResults rs))
                             formatOptions);
                    cd_providers := (enabledProviders names).*1 |} |}, w').
Proof.
  intros Hq Hnames Hl Hrs Hfmt.
  unfold handleContextRequest, try_catch.
  rewrite Hq. cbn [negb].
  assert (providersOf payload w = (Returns names, w)) as Hprov.
  { unfold providersOf, requestedNames in *.
    destruct (p_providers payload); by simplify_eq. }
  unfold bind at 1. rewrite Hprov.
  rewrite bool_decide_eq_false_2 by (by destruct (enabledProviders names)).
  unfold bind at 1. rewrite Hrs.
  unfold bind. by rewrite Hfmt.
Qed.

Lemma handleContextRequest_null_format payload w names rs w' :
  truthy (str_or (p_query payload) "") = true →
  requestedNames payload = Some names →
  enabledProviders names ≠ [] →
  callProviders payload (str_or (p_query payload) "")
    (length (enabledProviders names)) (enabledProviders names) w
  = (Returns rs, w') →
  p_formatOptions payload = Null →
  handleContextRequest payload w
  = (Returns (errorResponse (nullReadMessage "format")), w').
Proof.
  intros Hq Hnames Hl Hrs Hnull.
  unfold handleContextRequest, try_catch.
  rewrite Hq. cbn [negb].
  assert (providersOf payload w = (Returns names, w)) as Hprov.
  { unfold providersOf, requestedNames in *.
    destruct (p_providers payload); by simplify_eq. }
  unfold bind at 1. rewrite Hprov.
  rewrite bool_decide_eq_false_2 by (by destruct (enabledProviders names)).
  unfold bind at 1. rewrite Hrs.
  unfold bind, formatOptionsOf. by rewrite Hnull.
Qed.

Lemma formatOptionsOf_cases payload (w : World) :
  match p_formatOptions payload with
  | Missing => formatOptionsOf payload w = (Returns noFormatOptions, w)
  | Null => formatOptionsOf payload w
            = (Throws (Error (nullReadMessage "format")), w)
  | Value formatOptions =>
      formatOptionsOf payload w = (Returns formatOptions, w)
  end.
Proof. unfold formatOptionsOf. by destruct (p_formatOptions payload). Qed.

(** X20: [handleContextRequest] never throws, for any payload whose
    properties are missing, [null] or of the types the handler uses them at.
    A request without a query (or with an empty one) is answered with
    'Query is required'; one whose [providers] is [null] with the message of
    the [TypeError] of reading [filter]; one none of whose provider names is
    a key of the registry, registered or inherited from [Object.prototype]
    (as 'constructor' is), with 'No valid context providers specified'.
    These have [success: false] and [data: null], and no provider is called
    for them.  Every other request calls its providers; it is answered with
    [success: true], whatever they do, unless [formatOptions] is [null]: then
    the answer has [success: false] and the message of the [TypeError] of
    reading [format]. *)
Theorem handleContextRequest_never_throws payload w :
  ∃ response w',
    handleContextRequest payload w = (Returns response, w')
    ∧ (truthy (str_or (p_query payload) "") = false →
       response = errorResponse "Query is required" ∧ w' = w)
    ∧ (truthy (str_or (p_query payload) "") = true →
       p_providers payload = Null →
       response = errorResponse (nullReadMessage "filter") ∧ w' = w)
    ∧ (∀ names,
         truthy (str_or (p_query payload) "") = true →
         requestedNames payload = Some names →
         (Forall (λ name, contextProviders name = None
                          ∧ name ∉ objectPrototypeKeys) names →
          response = errorResponse "No valid context providers specified"
          ∧ w' = w)
         ∧ (Exists (λ name, is_Some (contextProviders name)
                            ∨ name ∈ objectPrototypeKeys) names →
            (∃ rs,
               callProviders payload (str_or (p_query payload) "")
                 (length (enabledProviders names)) (enabledProviders names) w
               = (Returns rs, w'))
            ∧ (p_formatOptions payload = Null →
               response = errorResponse (nullReadMessage "format"))
            ∧ (p_formatOptions payload ≠ Null →
               rs_success response = true ∧ rs_error response = None
               ∧ is_Some (rs_data response)))).
Proof.
  unfold handleContextRequest, try_catch.
  destruct (truthy (str_or (p_query payload) "")) eqn:Hq; cbn [negb];
    [| eexists _, _; split; [done |]; by repeat split].
  unfold bind at 1, providersOf, requestedNames.
  destruct (p_providers payload) as [| | given] eqn:Hprov; cbn [ret throw].
  - (* no [providers]: 'lightrag' *)
    destruct (enabledProviders ["lightrag"]) as [|p l] eqn:Hl.
    + rewrite bool_decide_eq_true_2 by done.
      eexists _, _. split; [done |]. split; [done |]. split; [done |].
      intros names _ [= <-]. split; [done |].
      intros Hex. exfalso. apply enabledProviders_nil in Hl.
      apply Exists_exists in Hex as (name & Hname & Hkey).
      rewrite Forall_forall in Hl. destruct (Hl name Hname) as [Hown Hinh].
      destruct Hkey as [[? Hsome] | ?]; [by rewrite Hown in Hsome | done].
    + rewrite bool_decide_eq_false_2 by done.
      destruct (callProviders_returns payload (str_or (p_query payload) "")
                  (length (p :: l)) (p :: l) w) as (rs & w' & Hrs & _).
      unfold bind at 1. rewrite Hrs. unfold bind.
      pose proof (formatOptionsOf_cases payload w') as Hfmt.
      destruct (p_formatOptions payload) as [| | fo]; rewrite Hfmt;
        (eexists _, _; split; [done |]; split; [done |]; split; [done |];
         intros names _ [= <-]; rewrite Hl; split;
         [ intros Hall; apply enabledProviders_nil in Hall; by rewrite Hl in Hall
         | intros _; split; [by eexists |]; by split ]).
  - (* [providers: null] *)
    eexists _, _. split; [done |]. split; [done |]. split; [done |].
    by intros names _ [=].
  - (* the given names *)
    destruct (enabledProviders given) as [|p l] eqn:Hl.
    + rewrite bool_decide_eq_true_2 by done.
      eexists _, _. split; [done |]. split; [done |]. split; [done |].
      intros names _ [= <-]. split; [done |].
      intros Hex. exfalso. apply enabledProviders_nil in Hl.
      apply Exists_exists in Hex as (name & Hname & Hkey).
      rewrite Forall_forall in Hl. destruct (Hl name Hname) as [Hown Hinh].
      destruct Hkey as [[? Hsome] | ?]; [by rewrite Hown in Hsome | done].
    + rewrite bool_decide_eq_false_2 by done.
      destruct (callProviders_returns payload (str_or (p_query payload) "")
                  (length (p :: l)) (p :: l) w) as (rs & w' & Hrs & _).
      unfold bind at 1. rewrite Hrs. unfold bind.
      pose proof (formatOptionsOf_cases payload w') as Hfmt.
      destruct (p_formatOptions payload) as [| | fo]; rewrite Hfmt;
        (eexists _, _; split; [done |]; split; [done |]; split; [done |];
         intros names _ [= <-]; rewrite Hl; split;
         [ intros Hall; apply enabledProviders_nil in Hall; by rewrite Hl in Hall
         | intros _; split; [by eexists |]; by split ]).
Qed.


End HandlerExtras.

(* ===================================================================== *)
(** * The document provider behind the context handler                    *)
(* ===================================================================== *)

Section LightragBehindHandler.

Context {any World : Type} {builtins : Builtins any} {host : Host any World}.

Variable this : LightRAGContextProvider World.
Variable handlerHost :
  HandlerHost (PState World) (ProviderSource any) (GetContextOptions any).

Hypothesis Hregistry :
  contextProviders "lightrag" = Some (lightragProvider this).

Implicit Types (payload : ContextPayload (GetContextOptions any)).
Implicit Types (s : PState World) (r : ProviderContext any).

Local Notation queryOf payload := (str_or (p_query payload) "").

Lemma requested_default payload :
  p_providers payload = Missing →
  requestedNames payload = Some ["lightrag"]
  ∧ enabledProviders ["lightrag"] = [("lightrag", lightragProvider this)].
Proof.
  intros Hp. unfold requestedNames, enabledProviders, lookupProvider.
  rewrite Hp. cbn. by rewrite Hregistry.
Qed.

Lemma diagnostic_contributes (e : Thrown) :
  errorMessage e ≠ ""
  ∧ 0 < ceil_div (String.length (errorMessage e)) 4.
Proof.
  assert (errorMessage e ≠ "") as Hne.
  { unfold errorMessage. by apply trim_after_LF. }
  split; [done |]. apply ceil_div_positive.
  destruct (errorMessage e); [done | simpl; lia].
Qed.

Lemma handle_lightrag payload s r s' :
  truthy (queryOf payload) = true →
  p_providers payload = Missing →
  p_formatOptions payload ≠ Null →
  getContext this (queryOf payload)
    (Some (lightragOptions (providerOptions payload 1))) s = (Returns r, s') →
  ∃ data,
    handleContextRequest payload s
    = (Returns {| rs_success := true; rs_error := None;
                  rs_data := Some data |}, s')
    ∧ cd_providers data = ["lightrag"]
    ∧ cd_context data = combinedContext (combineResults [asProviderResult r])
    ∧ cd_sources data = combinedSources (combineResults [asProviderResult r])
    ∧ cd_tokenCount data = combinedTokens (combineResults [asProviderResult r]).
Proof.
  intros Hq Hp Hfo Hget.
  destruct (requested_default payload Hp) as [Hnames Hreq].
  assert (∃ formatOptions,
            formatOptionsOf payload s' = (Returns formatOptions, s'))
    as [formatOptions Hfmt].
  { unfold formatOptionsOf.
    destruct (p_formatOptions payload) as [| | formatOptions];
      [by eexists | by exists noFormatOptions | by eexists]. }
  eexists. split.
  - apply (handleContextRequest_returns payload s ["lightrag"] formatOptions);
      [done | done | by rewrite Hreq | | done].
    rewrite Hreq. cbn [length callProviders]. unfold bind at 1.
    rewrite callProvider_eq. cbn [snd]. unfold lightragProvider.
    rewrite Hget. reflexivity.
  - cbn [cd_providers cd_context cd_sources cd_tokenCount]. by rewrite Hreq.
Qed.

Lemma handle_lightrag_null payload s r s' :
  truthy (queryOf payload) = true →
  p_providers payload = Missing →
  p_formatOptions payload = Null →
  getContext this (queryOf payload)
    (Some (lightragOptions (providerOptions payload 1))) s = (Returns r, s') →
  handleContextRequest payload s
  = (Returns (errorResponse (nullReadMessage "format")), s').
Proof.
  intros Hq Hp Hnull Hget.
  destruct (requested_default payload Hp) as [Hnames Hreq].
  apply (handleContextRequest_null_format payload s ["lightrag"]
           [asProviderResult r]); [done | done | by rewrite Hreq | | done].
  rewrite Hreq. cbn [length callProviders]. unfold bind at 1.
  rewrite callProvider_eq. cbn [snd]. unfold lightragProvider.
  rewrite Hget. reflexivity.
Qed.

(** X22: the handler cannot tell a failure of the document provider from a
    context.  When the body of [getContext] throws (no instance id, no
    configuration, a failing embedding or retrieval), the request is
    answered with [success: true], and its context is the text
    "Unable to retrieve contextual information ... error: <message>", with no
    sources and a positive token count.  The one request answered otherwise
    is that whose [formatOptions] is [null]: it fails, after the provider has
    run, with the message of the [TypeError] of reading [format]. *)
Theorem lightrag_failure_is_served_as_context payload s (e : Thrown) s' :
  truthy (queryOf payload) = true →
  p_providers payload = Missing →
  getContextBody this (queryOf payload)
    (Some (lightragOptions (providerOptions payload 1))) s = (Throws e, s') →
  (p_formatOptions payload ≠ Null →
   ∃ data,
     handleContextRequest payload s
     = (Returns {| rs_success := true; rs_error := None;
                   rs_data := Some data |}, s')
     ∧ cd_context data = errorMessage e
     ∧ cd_sources data = []
     ∧ cd_tokenCount data = ceil_div (String.length (errorMessage e)) 4
     ∧ 0 < cd_tokenCount data)
  ∧ (p_formatOptions payload = Null →
     handleContextRequest payload s
     = (Returns (errorResponse (nullReadMessage "format")), s')).
Proof.
  intros Hq Hp Hbody.
  split; [intros Hfo | intros Hnull];
    [| by apply (handle_lightrag_null payload s (diagnostic e)),
             getContext_body_throws].
  destruct (handle_lightrag payload s (diagnostic e) s' Hq Hp Hfo)
    as (data & Hdata & _ & Hc & Hs & Ht).
  { by apply getContext_body_throws. }
  destruct (diagnostic_contributes e) as [Hne Hpos].
  exists data. split; [done |].
  rewrite Hc, Hs, Ht. unfold combineResults. cbn [foldl]. unfold combineStep.
  cbn [asProviderResult diagnostic r_context r_tokenCount r_sources
       pr_context pr_tokenCount pr_sources].
  apply truthy_true in Hne. rewrite Hne.
  rewrite bool_decide_eq_true_2 by done.
  cbn [andb combinedContext combinedSources combinedTokens truthy].
  by rewrite !append_nil_l.
Qed.

(** X23: the instance id of a context request is read from the payload
    only: one given inside [options] is overwritten.  So a request for the
    document provider without [aiInstanceId] in the payload is answered,
    without any call to the outside, with the text of
    'aiInstanceId is required' as its context, whatever its [options]
    hold.  The one request answered otherwise is that whose [formatOptions]
    is [null]: it fails with the message of the [TypeError] of reading
    [format]. *)
Theorem instance_id_inside_options_is_overwritten payload s :
  truthy (queryOf payload) = true →
  p_providers payload = Missing →
  truthy (str_or (p_aiInstanceId payload) "") = false →
  (p_formatOptions payload ≠ Null →
   ∃ data,
     handleContextRequest payload s
     = (Returns {| rs_success := true; rs_error := None;
                   rs_data := Some data |}, s)
     ∧ cd_context data = errorMessage (Error "aiInstanceId is required")
     ∧ cd_sources data = []
     ∧ 0 < cd_tokenCount data)
  ∧ (p_formatOptions payload = Null →
     handleContextRequest payload s
     = (Returns (errorResponse (nullReadMessage "format")), s)).
Proof.
  intros Hq Hp Hid.
  split; [intros Hfo | intros Hnull];
    [| by apply (handle_lightrag_null payload s
                   (diagnostic (Error "aiInstanceId is required"))),
             getContext_without_instance].
  destruct (handle_lightrag payload s
              (diagnostic (Error "aiInstanceId is required")) s Hq Hp Hfo)
    as (data & Hdata & _ & Hc & Hs & Ht).
  { by apply getContext_without_instance. }
  destruct (diagnostic_contributes (Error "aiInstanceId is required"))
    as [Hne Hpos].
  exists data. split; [done |].
  rewrite Hc, Hs, Ht. unfold combineResults. cbn [foldl]. unfold combineStep.
  cbn [asProviderResult diagnostic r_context r_tokenCount r_sources
       pr_context pr_tokenCount pr_sources].
  apply truthy_true in Hne. rewrite Hne.
  rewrite bool_decide_eq_true_2 by done.
  cbn [andb combinedContext combinedSources combinedTokens truthy].
  by rewrite !append_nil_l.
Qed.

(** X24: a result of the document provider with a token count of 0 is
    dropped by the handler together with its sources: the request is
    answered with an empty context, no sources and 0 tokens.  This is what
    becomes of the placeholder and the web sources that [getContext] returns
    when the summarization fails.  The one request answered otherwise is
    that whose [formatOptions] is [null]: it fails, after the provider has
    run, with the message of the [TypeError] of reading [format]. *)
Theorem lightrag_result_without_tokens_is_dropped payload s r s' :
  truthy (queryOf payload) = true →
  p_providers payload = Missing →
  getContext this (queryOf payload)
    (Some (lightragOptions (providerOptions payload 1))) s = (Returns r, s') →
  pr_tokenCount r = 0 →
  (p_formatOptions payload ≠ Null →
   ∃ data,
     handleContextRequest payload s
     = (Returns {| rs_success := true; rs_error := None;
                   rs_data := Some data |}, s')
     ∧ cd_context data = ""
     ∧ cd_sources data = []
     ∧ cd_tokenCount data = 0)
  ∧ (p_formatOptions payload = Null →
     handleContextRequest payload s
     = (Returns (errorResponse (nullReadMessage "format")), s')).
Proof.
  intros Hq Hp Hget Hzero.
  split; [intros Hfo | intros Hnull];
    [| by apply (handle_lightrag_null payload s r)].
  destruct (handle_lightrag payload s r s' Hq Hp Hfo Hget)
    as (data & Hdata & _ & Hc & Hs & Ht).
  exists data. split; [done |].
  rewrite Hc, Hs, Ht. unfold combineResults. cbn [foldl]. unfold combineStep.
  cbn [asProviderResult r_context r_tokenCount r_sources]. rewrite Hzero.
  rewrite bool_decide_eq_false_2 by lia. by rewrite andb_false_r.
Qed.

End LightragBehindHandler.

(* ===================================================================== *)
(** * The statements at the examples                                      *)
(* ===================================================================== *)

(** The hit: one document found for "What is Paris?"; the result is its
    metadata line and its content, the document itself as the only source,
    and [ceil(31 / 4) = 8] tokens; three calls, none of them to the web search
    or to the model router. *)
Lemma hit_returns_without_web_search_witness :
  runExample (exampleHost [parisDoc] routerDown) "What is Paris?"
  = (Returns {| pr_context := "[title: France]" +:+ LF
                              +:+ "Paris is the capital of France.";
                pr_sources := [DocumentSource parisDoc];
                pr_tokenCount := 8 |},
     {| world := 3;
        calls := [CallLoadConfig "instance-1";
                  CallGenerateEmbedding "What is Paris?"; CallRetrieve] |})
  ∧ webSearchCalls [CallLoadConfig "instance-1";
                    CallGenerateEmbedding "What is Paris?"; CallRetrieve] = 0
  ∧ routeModelCalls [CallLoadConfig "instance-1";
                     CallGenerateEmbedding "What is Paris?"; CallRetrieve] = 0.
Proof.
  pose proof (hit_returns_without_web_search
                (builtins := exampleBuiltins)
                (host := exampleHost [parisDoc] routerDown)
                (exampleProvider (exampleHost [parisDoc] routerDown))
                "What is Paris?" exampleOptions initialState None 1 _ eq_refl
                _ 2 {| documents := [parisDoc]; totalFound := 1 |} 3
                eq_refl eq_refl eq_refl eq_refl) as [Hne Hhit].
  destruct (Hhit (Hne ltac:(discriminate))) as (Hget & Hsearch & Hroute).
  split; [| split; [exact Hsearch | exact Hroute]].
  unfold runExample. rewrite Hget. vm_compute. reflexivity.
Defined.

(** The fallback with a summary: nothing retrieved, the mock web search,
    one call to the model router; the token count is the [totalTokens] of
    [summaryResponse]. *)
Lemma fallback_summary_result_witness :
  (∃ s',
     runExample (exampleHost [] (Returns summaryResponse)) "What is Paris?"
     = (Returns {| pr_context :=
                     "Paris is the capital and largest city of France."
                     +:+ LF +:+ LF
                     +:+ "(This information is from web search results and may not be fully accurate. Refer to the original sources for verification.)";
                   pr_sources :=
                     WebSource <$> wc_sources (getMockResults "What is Paris?" (Some 5%Z));
                   pr_tokenCount := 120 |}, s')
     ∧ routeModelCalls (calls s') = 1
     ∧ webSearchCalls (calls s') = 1)
  ∧ totalTokens {| contextTokens := Some 100; completionTokens := Some 20;
                   totalTokens := Some 120 |} = Some 120.
Proof.
  split; [| reflexivity].
  exact (proj1 (fallback_summary_result
                  (builtins := exampleBuiltins)
                  (host := exampleHost [] (Returns summaryResponse))
                  (exampleProvider (exampleHost [] (Returns summaryResponse)))
                  "What is Paris?" exampleOptions initialState None 1 _ eq_refl
                  _ 2 {| documents := []; totalFound := 0 |} 3
                  eq_refl eq_refl eq_refl eq_refl eq_refl eq_refl
                  (getMockResults "What is Paris?" (Some 5%Z)) 3
                  (Returns summaryResponse) 4 eq_refl eq_refl eq_refl
                  summaryResponse
                  "Paris is the capital and largest city of France."
                  eq_refl eq_refl eq_refl eq_refl)).
Defined.

(** The fallback with a failing summarization: the placeholder text, the
    sources of the web search, no tokens. *)
Lemma summarization_failure_result_witness :
  summarizationFails routerDown = true
  ∧ ∃ s',
      runExample (exampleHost [] routerDown) "What is Paris?"
      = (Returns {| pr_context :=
                      "Unable to summarize web search results due to an error.";
                    pr_sources :=
                      WebSource <$> wc_sources (getMockResults "What is Paris?" (Some 5%Z));
                    pr_tokenCount := 0 |}, s')
      ∧ routeModelCalls (calls s') = 1.
Proof.
  split; [reflexivity |].
  exact (summarization_failure_result
           (builtins := exampleBuiltins)
           (host := exampleHost [] routerDown)
           (exampleProvider (exampleHost [] routerDown))
           "What is Paris?" exampleOptions initialState None 1 _ eq_refl
           _ 2 {| documents := []; totalFound := 0 |} 3
           eq_refl eq_refl eq_refl eq_refl eq_refl eq_refl
           (getMockResults "What is Paris?" (Some 5%Z)) 3
           routerDown 4 eq_refl eq_refl eq_refl eq_refl).
Defined.

(** C2 as stated fails: nothing is retrieved, the fallback is enabled, the
    web search returns content and the model router throws, and the result is
    not the empty context. *)
Lemma summarization_failure_is_not_empty :
  enableFallbackSearch (settings None exampleOptions) = true
  ∧ truthy (wc_context (getMockResults "What is Paris?" (Some 5%Z))) = true
  ∧ summarizationFails routerDown = true
  ∧ (runExample (exampleHost [] routerDown) "What is Paris?").1
    = Returns {| pr_context :=
                   "Unable to summarize web search results due to an error.";
                 pr_sources :=
                   WebSource <$> wc_sources (getMockResults "What is Paris?" (Some 5%Z));
                 pr_tokenCount := 0 |}
  ∧ (runExample (exampleHost [] routerDown) "What is Paris?").1
    ≠ Returns emptyContext.
Proof.
  split; [reflexivity |]. split; [reflexivity |]. split; [reflexivity |].
  split; [vm_compute; reflexivity |]. vm_compute. discriminate.
Qed.

(** C1 as stated fails: the model router throws (an internal error), and
    the result pairs the text of a failure with the two sources of the web
    search and a token count of 0, not [ceil(55 / 4) = 14]. *)
Lemma summarization_error_is_not_a_diagnostic :
  routeModelCall (Host := exampleHost [] routerDown)
    (summaryRequest (wc_context (getMockResults "What is Paris?" (Some 5%Z)))
       "instance-1") 3
  = (Throws (Error "model router down"), 4)
  ∧ ∃ r s',
      runExample (exampleHost [] routerDown) "What is Paris?" = (Returns r, s')
      ∧ pr_context r = "Unable to summarize web search results due to an error."
      ∧ length (pr_sources r) = 2
      ∧ pr_tokenCount r = 0
      ∧ ceil_div (String.length (pr_context r)) 4 = 14.
Proof.
  split; [reflexivity |].
  eexists _, _. split; [vm_compute; reflexivity |]. by vm_compute.
Qed.

(** The provider never raises, at an embedding that fails: the Fireworks
    provider without an API key. *)
Lemma getContext_never_raises_witness :
  (getContext (builtins := exampleBuiltins) (host := exampleHost [] routerDown)
     (exampleProvider (exampleHost [] routerDown)) "What is Paris?"
     (Some fireworksOptions) initialState).1
  = Returns (diagnostic (Error "Failed to generate embedding: Failed to generate embedding with Fireworks: Fireworks API key is required for embedding generation")).
Proof.
  exact (proj1 (proj2 (proj2 (proj2 (proj2
           (getContext_never_raises
              (builtins := exampleBuiltins)
              (host := exampleHost [] routerDown)
              (exampleProvider (exampleHost [] routerDown))
              "What is Paris?")))))
           fireworksOptions initialState None 1 _
           (Error "Failed to generate embedding with Fireworks: Fireworks API key is required for embedding generation")
           1 eq_refl eq_refl eq_refl eq_refl).
Defined.

(** Deduplication at the two copies: the 0.6-scored one, first in the input,
    is the one emitted. *)
Lemma dedup_keeps_first_of_input_witness :
  deduplicate (mergeOptions None) = Some true
  ∧ contentFingerprint lowDoc = contentFingerprint highDoc
  ∧ sources (buildContext (builtins := exampleBuiltins) [lowDoc; highDoc] None)
    = [lowDoc]
  ∧ withFingerprint sharedPrefix
      (sources (buildContext (builtins := exampleBuiltins)
                  [parisDoc; lowDoc; highDoc] None))
    = [lowDoc].
Proof.
  split; [reflexivity |]. split; [reflexivity |].
  pose proof (dedup_keeps_first_of_input (builtins := exampleBuiltins)
                None eq_refl) as [Hfirst Hpair].
  split.
  - apply Hpair. reflexivity.
  - apply Hfirst. reflexivity.
Defined.

(** C3 as stated fails: a document with an empty content and no metadata
    gives an empty context with one source, in [buildContext] and in the
    result of [getContext]. *)
Lemma empty_context_with_a_source :
  context (buildContext (builtins := exampleBuiltins) [blankDoc] None) = ""
  ∧ sources (buildContext (builtins := exampleBuiltins) [blankDoc] None)
    = [blankDoc]
  ∧ (runExample (exampleHost [blankDoc] routerDown) "What is Paris?").1
    = Returns {| pr_context := "";
                 pr_sources := [DocumentSource blankDoc];
                 pr_tokenCount := 0 |}.
Proof.
  split; [vm_compute; reflexivity |]. split; vm_compute; reflexivity.
Qed.

(** The characterisation at a document with a content. *)
Lemma empty_context_characterised_witness :
  formatAsJson (mergeOptions None) = Some false
  ∧ context (buildContext (builtins := exampleBuiltins) [parisDoc] None) ≠ "".
Proof.
  split; [reflexivity |].
  destruct (proj1 (empty_context_characterised (builtins := exampleBuiltins)
                     (host := exampleHost [] routerDown))
              [parisDoc] None eq_refl) as (_ & _ & Hcontent).
  apply (Hcontent parisDoc).
  - vm_compute. left.
  - discriminate.
Defined.

(** C4 as stated fails: 'openai' is not a recognized name, and the factory
    returns the Fireworks provider instead of failing. *)
Lemma unrecognized_provider_does_not_fail :
  toLowerCase "openai" ≠ "bedrock"
  ∧ toLowerCase "openai" ≠ "fireworks"
  ∧ createEmbeddingProvider (host := exampleHost [] routerDown)
      (Some "openai") None None
    = Returns (Fireworks {| fe_modelId := "deepseek-v3";
                            fe_apiKey := "";
                            fe_trackUsage := true |})
  ∧ (∀ e, createEmbeddingProvider (host := exampleHost [] routerDown)
            (Some "openai") None None ≠ Throws e).
Proof.
  split; [discriminate |]. split; [discriminate |]. split; [reflexivity |].
  intros e. discriminate.
Qed.

Lemma unrecognized_provider_defaults_to_fireworks_witness :
  toLowerCase "OpenAI" ≠ "bedrock"
  ∧ toLowerCase "OpenAI" ≠ "fireworks"
  ∧ createEmbeddingProvider (host := exampleHost [] routerDown)
      (Some "OpenAI") (Some "text-embedding-3-small") None
    = Returns (Fireworks {| fe_modelId := "text-embedding-3-small";
                            fe_apiKey := "";
                            fe_trackUsage := true |}).
Proof.
  split; [discriminate |]. split; [discriminate |].
  apply (unrecognized_provider_defaults_to_fireworks
           (host := exampleHost [] routerDown) "OpenAI"
           (Some "text-embedding-3-small") None); discriminate.
Defined.

(** The Bedrock provider at two texts of five characters. *)
Lemma Bedrock_embedding_depends_on_length_only_witness :
  String.length "Paris" = String.length "Tokyo"
  ∧ ∃ r1 r2 w1' w2',
      Bedrock_generateEmbedding (builtins := exampleBuiltins)
        (host := exampleHost [] routerDown)
        (newBedrockEmbedder (host := exampleHost [] routerDown) None None None)
        "Paris" (Some "instance-1") 0 = (Returns r1, w1')
      ∧ Bedrock_generateEmbedding (builtins := exampleBuiltins)
          (host := exampleHost [] routerDown)
          (newBedrockEmbedder (host := exampleHost [] routerDown) None None None)
          "Tokyo" None 7 = (Returns r2, w2')
      ∧ embedding r1 = embedding r2
      ∧ length (embedding r1) = 1536
      ∧ emb_tokenCount r1 = ceil_div (String.length "Paris") 4
      ∧ emb_tokenCount r2 = ceil_div (String.length "Tokyo") 4.
Proof.
  split; [reflexivity |].
  exact (Bedrock_embedding_depends_on_length_only
           (builtins := exampleBuiltins) (host := exampleHost [] routerDown)
           (newBedrockEmbedder (host := exampleHost [] routerDown) None None None)
           "Paris" "Tokyo" (Some "instance-1") None 0 7
           eq_refl eq_refl eq_refl).
Defined.

(** The search provider without an API key. *)
Lemma Brave_getContext_never_throws_witness :
  truthy (str_or (BRAVE_SEARCH_API_KEY exampleEnv) "") = false
  ∧ Brave_getContext (builtins := exampleBuiltins)
      (host := exampleHost [] routerDown) "What is Paris?"
      (Some (searchOptions "instance-1")) 3
    = (Returns (getMockResults "What is Paris?" (Some 5%Z)), 3).
Proof.
  split; [reflexivity |].
  exact (proj1 (proj2 (Brave_getContext_never_throws
                         (builtins := exampleBuiltins)
                         (host := exampleHost [] routerDown) "What is Paris?"))
           (searchOptions "instance-1") 3 eq_refl).
Defined.

(** The scenario of the specification: one document of length [L = 31]
    for "What is Paris?" gives one source and [ceil(L / 4) = 8] tokens. *)
Example paris_scenario :
  String.length (doc_content parisDoc) = 31
  ∧ ∃ r s',
      runExample (exampleHost [parisDoc] routerDown) "What is Paris?"
      = (Returns r, s')
      ∧ length (pr_sources r) = 1
      ∧ pr_tokenCount r = 8.
Proof.
  split; [reflexivity |].
  eexists _, _. split; [vm_compute; reflexivity |]. by vm_compute.
Qed.

(* ===================================================================== *)
(** * The further statements at the examples                              *)
(* ===================================================================== *)

(** The fallback switched off by the configuration row: the empty context
    after three calls. *)
Lemma fallback_disabled_returns_empty_witness :
  ∃ s',
    getContext (builtins := exampleBuiltins)
      (host := hostWithConfig fallbackOff [] routerDown)
      (exampleProvider (hostWithConfig fallbackOff [] routerDown))
      "What is Paris?" (Some exampleOptions) initialState
    = (Returns emptyContext, s')
    ∧ world s' = 3
    ∧ webSearchCalls (calls s') = 0
    ∧ routeModelCalls (calls s') = 0.
Proof.
  exact (fallback_disabled_returns_empty
           (builtins := exampleBuiltins)
           (host := hostWithConfig fallbackOff [] routerDown)
           (exampleProvider (hostWithConfig fallbackOff [] routerDown))
           "What is Paris?" exampleOptions initialState (Some fallbackOff) 1
           _ _ 2 {| documents := []; totalFound := 0 |} 3
           eq_refl eq_refl eq_refl eq_refl eq_refl eq_refl
           fallbackOff eq_refl eq_refl).
Defined.

(** A web search that throws: the empty context, one call of the search. *)
Lemma search_failure_returns_empty_witness :
  ∃ s',
    getContext (builtins := exampleBuiltins) (host := exampleHost [] routerDown)
      providerWithoutSearch "What is Paris?" (Some exampleOptions) initialState
    = (Returns emptyContext, s')
    ∧ world s' = 4
    ∧ webSearchCalls (calls s') = 0 + 1
    ∧ routeModelCalls (calls s') = 0.
Proof.
  exact (search_failure_returns_empty
           (builtins := exampleBuiltins) (host := exampleHost [] routerDown)
           providerWithoutSearch
           "What is Paris?" exampleOptions initialState None 1
           _ _ 2 {| documents := []; totalFound := 0 |} 3
           eq_refl eq_refl eq_refl eq_refl eq_refl eq_refl
           (Error "search unreachable") 4 eq_refl eq_refl).
Defined.


(** The context of two documents: their renderings, the higher score
    first, joined by a blank line. *)
Lemma plain_text_context_is_joined_witness :
  context (buildContext (builtins := exampleBuiltins) [lowDoc; parisDoc] None)
  = join (LF +:+ LF)
         (rendered (builtins := exampleBuiltins) (mergeOptions None)
          <$> sources (buildContext (builtins := exampleBuiltins)
                         [lowDoc; parisDoc] None)).
Proof.
  apply (plain_text_context_is_joined (builtins := exampleBuiltins)
           [lowDoc; parisDoc] None parisDoc [lowDoc]).
  - reflexivity.
  - vm_compute. reflexivity.
  - discriminate.
Defined.

(** The new provider on a host without a search API key: the fallback ends
    in the placeholder of the failed summarization, not in the empty
    context. *)
Lemma fallback_of_new_provider_is_never_empty_witness :
  ∃ r s' wc w4,
    getContext (builtins := exampleBuiltins) (host := exampleHost [] routerDown)
      (exampleProvider (exampleHost [] routerDown)) "What is Paris?"
      (Some exampleOptions) initialState
    = (Returns r, s')
    ∧ Brave_getContext (builtins := exampleBuiltins)
        (host := exampleHost [] routerDown) "What is Paris?"
        (Some (searchOptions "instance-1")) 3
      = (Returns wc, w4)
    ∧ pr_context r ≠ ""
    ∧ pr_sources r = WebSource <$> wc_sources wc
    ∧ webSearchCalls (calls s') = 0 + 1
    ∧ routeModelCalls (calls s') = 0 + 1.
Proof.
  exact (fallback_of_new_provider_is_never_empty
           (builtins := exampleBuiltins) (host := exampleHost [] routerDown)
           "What is Paris?" exampleOptions initialState None 1
           _ _ 2 {| documents := []; totalFound := 0 |} 3
           eq_refl eq_refl eq_refl eq_refl eq_refl eq_refl eq_refl).
Defined.

(** A response of the embedding API with two components and 7 tokens; the
    insert of the usage row fails and the result is returned all the same. *)
Lemma Fireworks_generateEmbedding_result_witness :
  ∃ w',
    Fireworks_generateEmbedding (host := hostWithEmbedding embeddingResponse)
      exampleEmbedder "What is Paris?" (Some "instance-1") 0
    = (Returns {| embedding := [0.5%float; 0.25%float];
                  emb_tokenCount := 7 |}, w').
Proof.
  exact (Fireworks_generateEmbedding_result
           (host := hostWithEmbedding embeddingResponse)
           exampleEmbedder "What is Paris?" (Some "instance-1") 0 1
           embeddingResponse
           {| fw_embedding := Some [0.5%float; 0.25%float];
              fw_total_tokens := Some 7 |}
           [0.5%float; 0.25%float]
           eq_refl eq_refl eq_refl eq_refl eq_refl).
Defined.

(** The filter [{owner_id: 'alice'}] on the two rows: the first row is
    the one document returned, and two are found. *)
Lemma retrieveDocuments_filters_rows_witness :
  SupabaseRetriever_retrieveDocuments (store := exampleStore)
    exampleRetriever [] ownerOptions 0
  = (Returns {| documents :=
                  [ {| doc_id := Some "row-1";
                       doc_content := "Paris is the capital of France.";
                       doc_metadata := Some [("owner_id", "alice")];
                       doc_score := Some 0.9%float;
                       doc_embedding := None |} ];
                totalFound := 2 |}, 1).
Proof.
  destruct (retrieveDocuments_filters_rows (store := exampleStore)
              exampleRetriever [] ownerOptions 0
              {| sr_data := Some exampleRows; sr_error := None |} 1
              eq_refl eq_refl)
    as ([docs found] & Hr & Hdocs & _ & Hfound & _).
  cbn [documents totalFound] in Hdocs, Hfound.
  rewrite Hr, Hdocs, Hfound. vm_compute. reflexivity.
Defined.

(** The fallback query on the two rows, at the threshold 0.7: both rows,
    each with the score 0.75. *)
Lemma retrieveDocumentsFallback_is_all_or_nothing_witness :
  retrieveDocumentsFallback (store := exampleStore) exampleRetriever []
    ownerOptions 0
  = (Returns {| documents := toFallbackDocument <$> exampleRows;
                totalFound := 2 |}, 1).
Proof.
  exact (proj1 (retrieveDocumentsFallback_is_all_or_nothing
                  (store := exampleStore) exampleRetriever [] ownerOptions 0
                  {| sr_data := Some exampleRows; sr_error := None |} 1
                  eq_refl eq_refl)).
Defined.

(** The broken provider before the notes: the notes are all that is
    merged. *)
Lemma failing_provider_is_isolated_witness :
  ∃ rs w2,
    callProviders (handlerHost := exampleRegistry) examplePayload
      "What is Paris?" 2 [("notes", notesProvider)] 1
    = (Returns rs, w2)
    ∧ callProviders (handlerHost := exampleRegistry) examplePayload
        "What is Paris?" 2
        [("broken", brokenProvider); ("notes", notesProvider)] 0
      = (Returns (failedResult (Error "provider down") :: rs), w2)
    ∧ combineResults (failedResult (Error "provider down") :: rs)
      = combineResults rs.
Proof.
  exact (failing_provider_is_isolated (handlerHost := exampleRegistry)
           examplePayload "What is Paris?" 2 ("broken", brokenProvider)
           [("notes", notesProvider)] 0 (Error "provider down") 1 eq_refl).
Defined.

(** The requests that hold [null]: [providers: null] is refused before any
    provider is called; [formatOptions: null] is refused after the provider
    has been. *)
Lemma handleContextRequest_never_throws_witness :
  handleContextRequest (handlerHost := exampleRegistry) nullProvidersPayload 0
  = (Returns (errorResponse
                "Cannot read properties of null (reading 'filter')"), 0)
  ∧ handleContextRequest (handlerHost := exampleRegistry) nullFormatPayload 0
    = (Returns (errorResponse
                  "Cannot read properties of null (reading 'format')"), 1).
Proof.
  split.
  - destruct (handleContextRequest_never_throws (handlerHost := exampleRegistry)
                nullProvidersPayload 0)
      as (response & w' & Hhandle & _ & Hnull & _).
    destruct (Hnull eq_refl eq_refl) as [-> ->]. exact Hhandle.
  - destruct (handleContextRequest_never_throws (handlerHost := exampleRegistry)
                nullFormatPayload 0)
      as (response & w' & Hhandle & _ & _ & Hnames).
    destruct (Hnames ["notes"] eq_refl eq_refl) as [_ Hkeys].
    destruct Hkeys as ([rs Hcall] & Hformat & _).
    { apply Exists_cons_hd. left. by eexists. }
    rewrite (Hformat eq_refl) in Hhandle.
    vm_compute in Hcall. injection Hcall as _ <-. exact Hhandle.
Defined.


(** A failing embedding behind the handler: the request succeeds, and its
    context is the text of the failure. *)
Lemma lightrag_failure_is_served_as_context_witness :
  ∃ data s',
    handleContextRequest
      (handlerHost := lightragRegistry (exampleHost [] routerDown))
      (lightragPayload (Some "instance-1") fireworksOptions) initialState
    = (Returns {| rs_success := true; rs_error := None;
                  rs_data := Some data |}, s')
    ∧ cd_context data
      = errorMessage (Error "Failed to generate embedding: Failed to generate embedding with Fireworks: Fireworks API key is required for embedding generation")
    ∧ cd_sources data = []
    ∧ 0 < cd_tokenCount data.
Proof.
  destruct (lightrag_failure_is_served_as_context
              (builtins := exampleBuiltins) (host := exampleHost [] routerDown)
              (exampleProvider (exampleHost [] routerDown))
              (lightragRegistry (exampleHost [] routerDown)) eq_refl
              (lightragPayload (Some "instance-1") fireworksOptions)
              initialState
              (Error "Failed to generate embedding: Failed to generate embedding with Fireworks: Fireworks API key is required for embedding generation")
              _ eq_refl eq_refl eq_refl)
    as [Hserved _].
  destruct (Hserved ltac:(discriminate))
    as (data & Hhandle & Hcontext & Hsources & _ & Hpositive).
  by eexists data, _.
Defined.

(** A request whose instance id is inside [options] only. *)
Lemma instance_id_inside_options_is_overwritten_witness :
  aiInstanceId exampleOptions = Some "instance-1"
  ∧ ∃ data,
      handleContextRequest
        (handlerHost := lightragRegistry (exampleHost [parisDoc] routerDown))
        (lightragPayload None exampleOptions) initialState
      = (Returns {| rs_success := true; rs_error := None;
                    rs_data := Some data |}, initialState)
      ∧ cd_context data = errorMessage (Error "aiInstanceId is required")
      ∧ cd_sources data = []
      ∧ 0 < cd_tokenCount data.
Proof.
  split; [reflexivity |].
  apply (instance_id_inside_options_is_overwritten
           (builtins := exampleBuiltins)
           (host := exampleHost [parisDoc] routerDown)
           (exampleProvider (exampleHost [parisDoc] routerDown))
           (lightragRegistry (exampleHost [parisDoc] routerDown)) eq_refl
           (lightragPayload None exampleOptions) initialState
           eq_refl eq_refl eq_refl).
  discriminate.
Defined.

(** The failed summarization behind the handler: the placeholder and the
    two sources of the web search are dropped. *)
Lemma lightrag_result_without_tokens_is_dropped_witness :
  ∃ data s',
    handleContextRequest
      (handlerHost := lightragRegistry (exampleHost [] routerDown))
      (lightragPayload (Some "instance-1") exampleOptions) initialState
    = (Returns {| rs_success := true; rs_error := None;
                  rs_data := Some data |}, s')
    ∧ cd_context data = ""
    ∧ cd_sources data = []
    ∧ cd_tokenCount data = 0.
Proof.
  destruct (lightrag_result_without_tokens_is_dropped
              (builtins := exampleBuiltins) (host := exampleHost [] routerDown)
              (exampleProvider (exampleHost [] routerDown))
              (lightragRegistry (exampleHost [] routerDown)) eq_refl
              (lightragPayload (Some "instance-1") exampleOptions)
              initialState
              {| pr_context :=
                   "Unable to summarize web search results due to an error.";
                 pr_sources :=
                   WebSource <$> wc_sources (getMockResults "What is Paris?" (Some 5%Z));
                 pr_tokenCount := 0 |}
              _ eq_refl eq_refl eq_refl eq_refl)
    as [Hdropped _].
  destruct (Hdropped ltac:(discriminate)) as (data & Hhandle & Hrest).
  by eexists data, _.
Defined.
